(** * aimud: scene/state synchronisation, shallow embedding of the Python code

    The development follows the Python sources file by file:
    - [app/character/base.py], [app/character/npc.py], [app/character/player.py]:
      modules [Item], [Skill], [Character], [Player], [NPC];
    - [app/world/scene.py]: module [Scene];
    - [app/game_engine/state.py]: module [GameState];
    - [app/utils/llm_utils.py]: [call_llm_with_json_response];
    - [app/ai/dungeon_master.py]: module [DungeonMaster].

    Python values that come out of [json.loads] are untyped, and the code
    never checks them beyond a few required keys, so the embedding keeps
    them as a [json] tree and gives every primitive the code applies to
    them ([in], subscripting, [.get], [.items], iteration, truthiness,
    [==]) the behaviour Python has on each shape, including the exception
    it raises.  Numbers are restricted to integers.

    A method that raises half-way leaves its object as mutated so far; the
    engine's turn loop catches the exception and goes on with that state.
    Methods are therefore computations that return the state together with
    a value or an exception.

    What is left out: the text of the prompts (it is built from the state
    without changing it, and the generator may answer anything whatever it
    is sent) and the [scenario] field of [GameState] (never read by
    [update]).

    [scene_history] is a list of references to scene objects: the entry
    that [update] appends is the current scene object itself, so what
    happens to the current scene afterwards shows in the entry. *)

From Stdlib Require Import ZArith String Ascii Bool Lia.
From stdpp Require Import base list.

Local Set Warnings "-register-all".
Local Open Scope string_scope.
Local Open Scope Z_scope.
Local Open Scope list_scope.

(** ** JSON values and the Python primitives used on them *)

Inductive json : Type :=
  | JNull
  | JBool (b : bool)
  | JInt (z : Z)
  | JStr (s : string)
  | JArr (l : list json)
  | JObj (kv : list (string * json)).

(** A Python [dict] with string keys, in insertion order.  The keys of a
    dict are distinct; [dict_set] and [dict_del] keep them so. *)
Definition dict := list (string * json).

Inductive exn_kind :=
  | KeyError | TypeError | AttributeError | ValueError
  | JSONDecodeError | LLMResponseError | OtherError.

(** An exception with the text [str(e)] gives. *)
Record exn := Exn { exn_kind_of : exn_kind; exn_msg : string }.

Definition res (A : Type) : Type := (exn + A)%type.

Fixpoint dict_get {V} (d : list (string * V)) (k : string) : option V :=
  match d with
  | [] => None
  | (k', v) :: r => if String.eqb k' k then Some v else dict_get r k
  end.

Definition dict_has {V} (d : list (string * V)) (k : string) : bool :=
  match dict_get d k with Some _ => true | None => false end.

(** [d[k] = v]: an existing key keeps its position, a new one goes last. *)
Fixpoint dict_set {V} (d : list (string * V)) (k : string) (v : V) : list (string * V) :=
  match d with
  | [] => [(k, v)]
  | (k', v') :: r =>
      if String.eqb k' k then (k', v) :: r else (k', v') :: dict_set r k v
  end.

(** [del d[k]]. *)
Definition dict_del {V} (d : list (string * V)) (k : string) : list (string * V) :=
  List.filter (fun kv => negb (String.eqb (fst kv) k)) d.

Definition dict_keys {V} (d : list (string * V)) : list string := map fst d.

(** Python [==] on JSON values: [True == 1], lists compare in order,
    dicts compare as maps. *)
Fixpoint py_eq (a b : json) : bool :=
  match a, b with
  | JNull, JNull => true
  | JBool x, JBool y => Bool.eqb x y
  | JBool x, JInt z => Z.eqb (Z.b2z x) z
  | JInt z, JBool x => Z.eqb z (Z.b2z x)
  | JInt x, JInt y => Z.eqb x y
  | JStr s, JStr t => String.eqb s t
  | JArr l, JArr l' =>
      (fix go (l l' : list json) : bool :=
         match l, l' with
         | [], [] => true
         | x :: xs, y :: ys => py_eq x y && go xs ys
         | _, _ => false
         end) l l'
  | JObj kv, JObj kv' =>
      Nat.eqb (length kv) (length kv') &&
      (fix go (kv : list (string * json)) : bool :=
         match kv with
         | [] => true
         | (k, v) :: r =>
             match dict_get kv' k with
             | Some v' => py_eq v v'
             | None => false
             end && go r
         end) kv
  | _, _ => false
  end.

(** Truth value of an object in a condition. *)
Definition truthy (j : json) : bool :=
  match j with
  | JNull => false
  | JBool b => b
  | JInt z => negb (Z.eqb z 0)
  | JStr s => negb (String.eqb s "")
  | JArr l => match l with [] => false | _ => true end
  | JObj kv => match kv with [] => false | _ => true end
  end.

Fixpoint is_substring (s t : string) : bool :=
  String.prefix s t ||
  match t with
  | EmptyString => false
  | String _ t' => is_substring s t'
  end.

Definition chars_of (s : string) : list json :=
  map (fun c => JStr (String c EmptyString)) (list_ascii_of_string s).

Definition raise {A} (k : exn_kind) (m : string) : res A := inl (Exn k m).

(** ['k' in c] for a string literal ['k']. *)
Definition py_in (k : string) (c : json) : res bool :=
  match c with
  | JObj kv => inr (dict_has kv k)
  | JArr l => inr (existsb (py_eq (JStr k)) l)
  | JStr t => inr (is_substring k t)
  | _ => raise TypeError "argument is not iterable"
  end.

(** [c['k']]. *)
Definition py_getitem (c : json) (k : string) : res json :=
  match c with
  | JObj kv =>
      match dict_get kv k with
      | Some v => inr v
      | None => raise KeyError k
      end
  | JArr _ => raise TypeError "list indices must be integers or slices, not str"
  | JStr _ => raise TypeError "string indices must be integers"
  | _ => raise TypeError "object is not subscriptable"
  end.

(** [c.get('k', default)]. *)
Definition py_get (c : json) (k : string) (default : json) : res json :=
  match c with
  | JObj kv =>
      match dict_get kv k with
      | Some v => inr v
      | None => inr default
      end
  | _ => raise AttributeError "object has no attribute 'get'"
  end.

(** [c.items()]. *)
Definition py_items (c : json) : res dict :=
  match c with
  | JObj kv => inr kv
  | _ => raise AttributeError "object has no attribute 'items'"
  end.

(** The elements a [for] loop over [c] visits. *)
Definition py_iter (c : json) : res (list json) :=
  match c with
  | JArr l => inr l
  | JObj kv => inr (map JStr (dict_keys kv))
  | JStr s => inr (chars_of s)
  | _ => raise TypeError "object is not iterable"
  end.

(** ** State and exceptions

    A Python method mutates its object in place and may raise half-way:
    the mutations made so far stay.  [M S A] is a computation over a
    state [S] that ends with a value or an exception, and returns the
    state in both cases. *)

Definition M (S A : Type) : Type := S -> S * res A.

Definition ret {S A} (a : A) : M S A := fun s => (s, inr a).

Definition bind {S A B} (m : M S A) (f : A -> M S B) : M S B :=
  fun s =>
    match m s with
    | (s', inl e) => (s', inl e)
    | (s', inr a) => f a s'
    end.

Definition lift {S A} (r : res A) : M S A := fun s => (s, r).
Definition get {S} : M S S := fun s => (s, inr s).
Definition modify {S} (f : S -> S) : M S unit := fun s => (f s, inr tt).
Definition when {S} (b : bool) (m : M S unit) : M S unit :=
  if b then m else ret tt.

Notation "x <- m ;; k" := (bind m (fun x => k))
  (at level 100, m at next level, right associativity).
Notation "m ;;; k" := (bind m (fun _ => k))
  (at level 100, right associativity).

(** [for x in l: body x]. *)
Fixpoint for_each {S A} (l : list A) (body : A -> M S unit) : M S unit :=
  match l with
  | [] => ret tt
  | x :: r => body x ;;; for_each r body
  end.

(** [[f(x) for x in l]] built by appending, stopping at the first error. *)
Fixpoint map_res {A B} (f : A -> res B) (l : list A) : res (list B) :=
  match l with
  | [] => inr []
  | x :: r =>
      match f x with
      | inl e => inl e
      | inr y =>
          match map_res f r with
          | inl e => inl e
          | inr ys => inr (y :: ys)
          end
      end
  end.

(** Run a computation on a part of the state. *)
Definition zoom {S T A} (proj : S -> T) (upd : T -> S -> S) (m : M T A) : M S A :=
  fun s => let '(t', r) := m (proj s) in (upd t' s, r).

Definition on_fst {S T A} (m : M S A) : M (S * T) A := zoom fst (fun s p => (s, snd p)) m.
Definition on_snd {S T A} (m : M T A) : M (S * T) A := zoom snd (fun t p => (fst p, t)) m.

(** ** Entity model: [app/character/base.py], [app/character/npc.py] *)

Module Item.
Record t := mk { name : json; description : json; properties : json }.
End Item.

Module Skill.
Record t := mk { name : json; description : json; cost : json; properties : json }.
End Skill.

Definition is_none (j : json) : bool :=
  match j with JNull => true | _ => false end.

(** The loop body shared by [Character.update] (on [status]) and
    [NPC.update] (on [properties]):
    [if value is None and key in d: del d[key]  else: d[key] = value]. *)
Definition merge_entry (d : dict) (kv : string * json) : dict :=
  if is_none (snd kv) && dict_has d (fst kv)
  then dict_del d (fst kv)
  else dict_set d (fst kv) (snd kv).

Module Character.
Record t := mk {
  name : json;
  description : json;
  health : json;
  energy : json;
  status : dict;
  inventory : list Item.t;
  skills : list Skill.t
}.

(** The dataclass defaults. *)
Definition new (n d : json) (inv : list Item.t) (sk : list Skill.t) : t :=
  mk n d (JStr "healthy") (JStr "energized") [] inv sk.

Definition set_health (v : json) (c : t) : t :=
  mk (name c) (description c) v (energy c) (status c) (inventory c) (skills c).
Definition set_energy (v : json) (c : t) : t :=
  mk (name c) (description c) (health c) v (status c) (inventory c) (skills c).
Definition set_status (d : dict) (c : t) : t :=
  mk (name c) (description c) (health c) (energy c) d (inventory c) (skills c).
Definition set_inventory (l : list Item.t) (c : t) : t :=
  mk (name c) (description c) (health c) (energy c) (status c) l (skills c).

(** [Item(name=item_data['name'], description=item_data['description'],
         properties=item_data.get('properties', {}))]. *)
Definition make_item (item_data : json) : res Item.t :=
  match py_getitem item_data "name" with
  | inl e => inl e
  | inr n =>
      match py_getitem item_data "description" with
      | inl e => inl e
      | inr d =>
          match py_get item_data "properties" (JObj []) with
          | inl e => inl e
          | inr p => inr (Item.mk n d p)
          end
      end
  end.

(** [[item for item in self.inventory if item.name != item_name]]. *)
Definition drop_named (item_name : json) (inv : list Item.t) : list Item.t :=
  List.filter (fun it => negb (py_eq (Item.name it) item_name)) inv.

(** The five [if ... in updates:] blocks of [update], in order. *)
Definition apply_health (updates : json) : M t unit :=
  has_health <- lift (py_in "health" updates);;
  when has_health
    (v <- lift (py_getitem updates "health");; modify (set_health v)).

Definition apply_energy (updates : json) : M t unit :=
  has_energy <- lift (py_in "energy" updates);;
  when has_energy
    (v <- lift (py_getitem updates "energy");; modify (set_energy v)).

Definition apply_status (updates : json) : M t unit :=
  has_status <- lift (py_in "status" updates);;
  when has_status
    (st <- lift (py_getitem updates "status");;
     entries <- lift (py_items st);;
     for_each entries
       (fun kv => modify (fun c => set_status (merge_entry (status c) kv) c))).

Definition apply_add_items (updates : json) : M t unit :=
  has_add <- lift (py_in "add_items" updates);;
  when has_add
    (src <- lift (py_getitem updates "add_items");;
     datas <- lift (py_iter src);;
     for_each datas
       (fun item_data =>
          item <- lift (make_item item_data);;
          modify (fun c => set_inventory (inventory c ++ [item]) c))).

Definition apply_remove_items (updates : json) : M t unit :=
  has_remove <- lift (py_in "remove_items" updates);;
  when has_remove
    (src <- lift (py_getitem updates "remove_items");;
     names <- lift (py_iter src);;
     for_each names
       (fun item_name =>
          modify (fun c => set_inventory (drop_named item_name (inventory c)) c))).

Definition update (updates : json) : M t unit :=
  apply_health updates;;;
  apply_energy updates;;;
  apply_status updates;;;
  apply_add_items updates;;;
  apply_remove_items updates.

(** [health not in ["dead", "deceased", "unconscious"]]. *)
Definition is_alive (c : t) : bool :=
  negb (existsb (py_eq (health c))
          [JStr "dead"; JStr "deceased"; JStr "unconscious"]).
End Character.

(** [Player] adds nothing to [Character]. *)
Module Player.
Definition t := Character.t.
Definition update := Character.update.
End Player.

Module NPC.
Record t := mk { base : Character.t; attitude : json; properties : dict }.

Definition name (n : t) : json := Character.name (base n).

(** [NPC(name=.., description=.., attitude=.., inventory=.., skills=..)]. *)
Definition new (n d a : json) (inv : list Item.t) (sk : list Skill.t) : t :=
  mk (Character.new n d inv sk) a [].

Definition set_base (c : Character.t) (n : t) : t := mk c (attitude n) (properties n).
Definition set_attitude (a : json) (n : t) : t := mk (base n) a (properties n).
Definition set_properties (d : dict) (n : t) : t := mk (base n) (attitude n) d.

Definition update (updates : json) : M t unit :=
  zoom base set_base (Character.update updates);;;
  has_attitude <- lift (py_in "attitude" updates);;
  when has_attitude
    (v <- lift (py_getitem updates "attitude");; modify (set_attitude v));;;
  has_props <- lift (py_in "properties" updates);;
  when has_props
    (ps <- lift (py_getitem updates "properties");;
     entries <- lift (py_items ps);;
     for_each entries
       (fun kv => modify (fun n => set_properties (merge_entry (properties n) kv) n))).
End NPC.

(** ** World graph: [app/world/scene.py]

    A scene's [connections] dict is the one object the code shares: the
    [Scene] built from a raw scene definition holds the very dict found
    under the definition's ["connections"] key, and [add_connection]
    writes into it.  Connection dicts therefore live in a store and a
    scene holds an address.  Every other part of a scene is built fresh
    at construction and is held by value. *)

Definition loc := nat.
Definition heap := list json.

Definition alloc (v : json) : M heap loc :=
  fun h => (h ++ [v], inr (List.length h)).

Module Scene.
Record t := mk {
  id : json;
  title : json;
  description : json;
  characters : list NPC.t;
  connections : loc;
  properties : dict
}.

Definition set_characters (l : list NPC.t) (s : t) : t :=
  mk (id s) (title s) (description s) l (connections s) (properties s).

Definition names (s : t) : list json := map NPC.name (characters s).

(** The dict stored at the scene's [connections] address. *)
Definition connections_of (h : heap) (s : t) : option json := h !! connections s.

Definition add_character (character : NPC.t) (s : t) : t :=
  set_characters (characters s ++ [character]) s.

Definition remove_character (character_name : json) (s : t) : t :=
  set_characters
    (List.filter (fun c => negb (py_eq (NPC.name c) character_name)) (characters s)) s.

(** Position of the first character with that name. *)
Fixpoint index_of (character_name : json) (l : list NPC.t) : option nat :=
  match l with
  | [] => None
  | c :: r =>
      if py_eq (NPC.name c) character_name then Some O
      else option_map S (index_of character_name r)
  end.

Definition get_character (character_name : json) (s : t) : option NPC.t :=
  match index_of character_name (characters s) with
  | Some i => characters s !! i
  | None => None
  end.

(** [self.connections[location_name] = scene_id]. *)
Definition add_connection (location_name : string) (scene_id : json) (s : t)
  : M heap unit :=
  fun h =>
    match h !! connections s with
    | Some (JObj kv) =>
        (<[connections s := JObj (dict_set kv location_name scene_id)]> h, inr tt)
    | _ => (h, raise TypeError "object does not support item assignment")
    end.

(** [if location_name in self.connections: del self.connections[location_name]]. *)
Definition remove_connection (location_name : string) (s : t) : M heap unit :=
  fun h =>
    match h !! connections s with
    | Some (JObj kv) =>
        if dict_has kv location_name
        then (<[connections s := JObj (dict_del kv location_name)]> h, inr tt)
        else (h, inr tt)
    | Some (JArr l) =>
        if existsb (py_eq (JStr location_name)) l
        then (h, raise TypeError "list indices must be integers or slices, not str")
        else (h, inr tt)
    | Some (JStr t) =>
        if is_substring location_name t
        then (h, raise TypeError "'str' object does not support item deletion")
        else (h, inr tt)
    | _ => (h, raise TypeError "argument is not iterable")
    end.
End Scene.

(** ** Game state: [app/game_engine/state.py] *)

Module GameState.
(** An entry of [scene_history] is a reference to a scene object: [Live]
    is the object that is the current scene, [Kept] an object that is not
    the current scene (any more). *)
Inductive scene_ref := Live | Kept (sc : Scene.t).

Record t := mk {
  player : option Player.t;
  current_scene : option Scene.t;
  scene_history : list scene_ref;
  is_game_over : bool;
  ending_message : json
}.

(** [GameState()]. *)
Definition initial : t := mk None None [] false (JStr "").

Definition set_player (p : option Player.t) (g : t) : t :=
  mk p (current_scene g) (scene_history g) (is_game_over g) (ending_message g).
Definition set_current_scene (s : option Scene.t) (g : t) : t :=
  mk (player g) s (scene_history g) (is_game_over g) (ending_message g).
(** [self.scene_history.append(self.current_scene)]: the entry is the
    current scene object, not a copy of it. *)
Definition push_history (g : t) : t :=
  mk (player g) (current_scene g) (scene_history g ++ [Live]) (is_game_over g)
     (ending_message g).
(** [state.current_scene = scene] for a scene object the dungeon master
    has just built ([main.py], [engine.py]): the entries that referred to
    the scene that was current go on referring to that object. *)
Definition enter_scene (s : Scene.t) (g : t) : t :=
  mk (player g) (Some s)
     (map (fun r => match r, current_scene g with
                    | Live, Some old => Kept old
                    | _, _ => r
                    end) (scene_history g))
     (is_game_over g) (ending_message g).
Definition end_game (msg : json) (g : t) : t :=
  mk (player g) (current_scene g) (scene_history g) true msg.

(** The state [update] runs on: the game state and the store. *)
Definition world : Type := t * heap.

(** Run a method of [self.player]; only used where the player is set. *)
Definition on_player {A} (m : M Player.t A) : M world A :=
  fun w =>
    match player (fst w) with
    | Some p => let '(p', r) := m p in ((set_player (Some p') (fst w), snd w), r)
    | None => (w, raise AttributeError "'NoneType' object has no attribute")
    end.

(** Run code on [self.current_scene]; only used where the scene is set. *)
Definition on_scene {A} (m : M (Scene.t * heap) A) : M world A :=
  fun w =>
    match current_scene (fst w) with
    | Some sc =>
        let '((sc', h'), r) := m (sc, snd w) in
        ((set_current_scene (Some sc') (fst w), h'), r)
    | None => (w, raise AttributeError "'NoneType' object has no attribute")
    end.

(** [character = scene.get_character(character_name)
     if character: character.update(updates)]. *)
Definition update_character (character_name : string) (updates : json)
  : M (Scene.t * heap) unit :=
  fun sh =>
    let sc := fst sh in
    match Scene.index_of (JStr character_name) (Scene.characters sc) with
    | None => (sh, inr tt)
    | Some i =>
        match Scene.characters sc !! i with
        | None => (sh, inr tt)
        | Some npc =>
            let '(npc', r) := NPC.update updates npc in
            ((Scene.set_characters (<[i := npc']> (Scene.characters sc)) sc, snd sh), r)
        end
    end.

(** [NPC(name=char_data['name'], description=char_data['description'],
         attitude=char_data.get('attitude', 'neutral'))]. *)
Definition make_npc (char_data : json) : res NPC.t :=
  match py_getitem char_data "name" with
  | inl e => inl e
  | inr n =>
      match py_getitem char_data "description" with
      | inl e => inl e
      | inr d =>
          match py_get char_data "attitude" (JStr "neutral") with
          | inl e => inl e
          | inr a => inr (NPC.new n d a [] [])
          end
      end
  end.

Definition apply_scene_updates (scene_updates : json) : M (Scene.t * heap) unit :=
  has_add <- lift (py_in "add_characters" scene_updates);;
  when has_add
    (src <- lift (py_getitem scene_updates "add_characters");;
     datas <- lift (py_iter src);;
     for_each datas
       (fun char_data =>
          npc <- lift (make_npc char_data);;
          on_fst (modify (Scene.add_character npc))));;;
  has_remove <- lift (py_in "remove_characters" scene_updates);;
  when has_remove
    (src <- lift (py_getitem scene_updates "remove_characters");;
     names <- lift (py_iter src);;
     for_each names
       (fun character_name => on_fst (modify (Scene.remove_character character_name))));;;
  has_conn <- lift (py_in "new_connections" scene_updates);;
  when has_conn
    (src <- lift (py_getitem scene_updates "new_connections");;
     entries <- lift (py_items src);;
     for_each entries
       (fun kv =>
          sc <- on_fst get;;
          on_snd (Scene.add_connection (fst kv) (snd kv) sc))).

Definition has_player (g : t) : bool :=
  match player g with Some _ => true | None => false end.
Definition has_scene (g : t) : bool :=
  match current_scene g with Some _ => true | None => false end.

(** The five blocks of [update], in order. *)
Definition player_block (result : json) : M world unit :=
  w <- get;;
  when (has_player (fst w))
    (has <- lift (py_in "player_updates" result);;
     when has
       (u <- lift (py_getitem result "player_updates");;
        on_player (Player.update u))).

Definition characters_block (result : json) : M world unit :=
  w <- get;;
  when (has_scene (fst w))
    (has <- lift (py_in "character_updates" result);;
     when has
       (cu <- lift (py_getitem result "character_updates");;
        entries <- lift (py_items cu);;
        for_each entries
          (fun kv => on_scene (update_character (fst kv) (snd kv))))).

Definition scene_block (result : json) : M world unit :=
  w <- get;;
  when (has_scene (fst w))
    (has <- lift (py_in "scene_updates" result);;
     when has
       (su <- lift (py_getitem result "scene_updates");;
        on_scene (apply_scene_updates su))).

(** [if 'move_to_scene' in result and result['move_to_scene']: ...];
    the scene itself is created afterwards by the dungeon master. *)
Definition move_block (result : json) : M world unit :=
  has_move <- lift (py_in "move_to_scene" result);;
  target <- (if has_move then lift (py_getitem result "move_to_scene") else ret JNull);;
  when (has_move && truthy target)
    (modify (fun w' =>
               match current_scene (fst w') with
               | Some _ => (push_history (fst w'), snd w')
               | None => w'
               end)).

Definition game_over_block (result : json) : M world unit :=
  has_over <- lift (py_in "game_over" result);;
  over <- (if has_over then lift (py_getitem result "game_over") else ret JNull);;
  when (has_over && truthy over)
    (msg <- lift (py_get result "ending_message" (JStr "Game Over"));;
     modify (fun w' => (end_game msg (fst w'), snd w'))).

Definition update (result : json) : M world unit :=
  player_block result;;;
  characters_block result;;;
  scene_block result;;;
  move_block result;;;
  game_over_block result.
End GameState.

(** ** Generator gateway: [app/utils/llm_utils.py]

    The transport and [json.loads] are outside the repository.  What one
    call to [call_llm_with_json_response] gets from them is one of: an
    exception before or during the API call, a response text that
    [extract_json] cannot parse, or the parsed value. *)

Inductive llm_outcome :=
  | TransportError (msg : string)
  | Unparseable (msg : string)
  | Parsed (j : json).

(** The requests the dungeon master sends, in the order it sent them. *)
Inductive request :=
  | ReqScene (scene_id : string) (location_name : option string)
  | ReqAction (action : string).

(** The generator: the n-th call of a session gets [llm n]. *)
Definition oracle := nat -> llm_outcome.

Definition llm_error {A} (m : string) : res A := raise LLMResponseError m.

(** [call_llm_with_json_response], from the point where the transport has
    answered: [list(json_data.keys())] is evaluated for the debug line, so a
    parsed value that is not a dict fails; then the validator runs; every
    exception leaves as [LLMResponseError]. *)
Definition call_llm_with_json_response
    (outcome : llm_outcome) (response_validator : json -> res unit) : res json :=
  match outcome with
  | TransportError m => llm_error ("Error making LLM call: " ++ m)%string
  | Unparseable m => llm_error ("Failed to parse JSON response: " ++ m)%string
  | Parsed j =>
      match j with
      | JObj _ =>
          match response_validator j with
          | inl e => llm_error ("Error making LLM call: " ++ exn_msg e)%string
          | inr _ => inr j
          end
      | _ => llm_error "Error making LLM call: object has no attribute 'keys'"
      end
  end.

(** [try: body  except ...: handler e]; the state reached when the
    exception was raised is the one the handler starts from. *)
Definition try_except {S A} (body : M S A) (handler : exn -> M S A) : M S A :=
  fun s =>
    match body s with
    | (s', inl e) => handler e s'
    | (s', inr a) => (s', inr a)
    end.

(** ** Dungeon master: [app/ai/dungeon_master.py] *)

Module DungeonMaster.
(** A raw scene definition as the dungeon master keeps it (a value of
    the scenario's ["scenes"] dict or of [scene_memory]).  [rs_fields]
    is the definition without its ["connections"] entry; [rs_conn] is the
    address of the object under ["connections"], when the key is there. *)
Record raw_scene := Raw { rs_fields : json; rs_conn : option loc }.

(** [self.scenario].  A key that is missing (as in the initial [{}]) is
    [None]; the value under ["scenes"] is modelled in its dict shape. *)
Record scenario_t := Scenario {
  starting_scene_id : option json;
  scenes : option (list (string * raw_scene))
}.

Record t := mk {
  scenario : scenario_t;
  scene_memory : list (string * raw_scene);
  calls : list request
}.

(** [DungeonMaster(provider)]: [scenario = {}], [scene_memory = {}]. *)
Definition initial : t := mk (Scenario None None) [] [].

Definition session : Type := t * heap.

Definition log_call (r : request) (d : t) : t :=
  mk (scenario d) (scene_memory d) (calls d ++ [r]).
Definition remember (scene_id : string) (r : raw_scene) (d : t) : t :=
  mk (scenario d) (dict_set (scene_memory d) scene_id r) (calls d).

(** Place a parsed scene definition in the store. *)
Definition load (j : json) : M heap raw_scene :=
  match j with
  | JObj kv =>
      match dict_get kv "connections" with
      | Some c => l <- alloc c;; ret (Raw (JObj (dict_del kv "connections")) (Some l))
      | None => ret (Raw j None)
      end
  | _ => ret (Raw j None)
  end.

Definition build_item (item_data : json) : res Item.t :=
  Character.make_item item_data.

Definition build_skill (skill_data : json) : res Skill.t :=
  match py_getitem skill_data "name" with
  | inl e => inl e
  | inr n =>
      match py_getitem skill_data "description" with
      | inl e => inl e
      | inr d =>
          match py_getitem skill_data "cost" with
          | inl e => inl e
          | inr c =>
              match py_get skill_data "properties" (JObj []) with
              | inl e => inl e
              | inr p => inr (Skill.mk n d c p)
              end
          end
      end
  end.

Definition res_bind {A B} (r : res A) (f : A -> res B) : res B :=
  match r with inl e => inl e | inr a => f a end.

(** The body of the loop over [scene_data.get("characters", [])]. *)
Definition build_npc (char_data : json) : res NPC.t :=
  res_bind (py_get char_data "inventory" (JArr [])) (fun inv_src =>
  res_bind (py_iter inv_src) (fun item_datas =>
  res_bind (map_res build_item item_datas) (fun inventory =>
  res_bind (py_get char_data "skills" (JArr [])) (fun skill_src =>
  res_bind (py_iter skill_src) (fun skill_datas =>
  res_bind (map_res build_skill skill_datas) (fun skills =>
  res_bind (py_getitem char_data "name") (fun n =>
  res_bind (py_getitem char_data "description") (fun d =>
  res_bind (py_get char_data "attitude" (JStr "neutral")) (fun a =>
  inr (NPC.new n d a inventory skills)))))))))).

Definition build_characters (fields : json) : res (list NPC.t) :=
  res_bind (py_get fields "characters" (JArr [])) (fun src =>
  res_bind (py_iter src) (fun datas => map_res build_npc datas)).

(** [_create_scene_from_data(scene_data, scene_id)]; [scene_id] is
    [JNull] when the argument is left out. *)
Definition _create_scene_from_data (scene_data : raw_scene) (scene_id : json)
  : M heap Scene.t :=
  sid <- (if truthy scene_id then ret scene_id
          else lift (py_get (rs_fields scene_data) "id" JNull));;
  npcs <- lift (build_characters (rs_fields scene_data));;
  when (negb (truthy sid)) (lift (raise ValueError "Scene ID is required"));;;
  title <- lift (py_getitem (rs_fields scene_data) "title");;
  description <- lift (py_getitem (rs_fields scene_data) "description");;
  conn <- match rs_conn scene_data with
          | Some l => ret l
          | None => alloc (JObj [])
          end;;
  ret (Scene.mk sid title description npcs conn []).

(** [self.scenario["scenes"][scene_id]], then [_create_scene_from_data]. *)
Definition _create_scene_from_scenario (scene_id : json) : M session Scene.t :=
  s <- get;;
  match scenes (scenario (fst s)) with
  | None => lift (raise KeyError "scenes")
  | Some sc =>
      match scene_id with
      | JStr k =>
          match dict_get sc k with
          | Some scene_data => on_snd (_create_scene_from_data scene_data scene_id)
          | None => lift (raise KeyError k)
          end
      | JArr _ | JObj _ => lift (raise TypeError "unhashable type")
      | _ => lift (raise KeyError "scene id")
      end
  end.

Definition _validate_scene_data (data : json) : res unit :=
  res_bind (py_in "title" data) (fun has_title =>
  if negb has_title then raise ValueError "Missing 'title' field in scene data"
  else
    res_bind (py_in "description" data) (fun has_description =>
    if negb has_description
    then raise ValueError "Missing 'description' field in scene data"
    else inr tt)).

Definition _validate_action_result (result : json) : res unit :=
  res_bind (py_in "success" result) (fun has_success =>
  if negb has_success then raise ValueError "Missing 'success' field in action result"
  else
    res_bind (py_in "description" result) (fun has_description =>
    if negb has_description
    then raise ValueError "Missing 'description' field in action result"
    else inr tt)).

(** The loop that looks for the location name leading to [scene_id]:
    the first entry of the current scene's connections whose target is
    [== scene_id]. *)
Fixpoint find_location (entries : dict) (scene_id : string) : option string :=
  match entries with
  | [] => None
  | (location, sid) :: r =>
      if py_eq sid (JStr scene_id) then Some location else find_location r scene_id
  end.

Definition location_name_for (game_state : GameState.t) (scene_id : string)
  : M heap (option string) :=
  match GameState.current_scene game_state with
  | None => ret None
  | Some sc =>
      h <- get;;
      match h !! Scene.connections sc with
      | Some c =>
          entries <- lift (py_items c);;
          ret (find_location entries scene_id)
      | None => lift (raise AttributeError "no connections object")
      end
  end.

(** Both [except] branches: a placeholder definition with no
    characters whose connections hold ["Path Back"] when there is a
    current scene, then [_create_scene_from_data(fallback_scene, scene_id)]. *)
Definition fallback_scene (title description : string)
    (game_state : GameState.t) (scene_id : string) : M heap Scene.t :=
  let back :=
    match GameState.current_scene game_state with
    | Some sc => [("Path Back", Scene.id sc)]
    | None => []
    end in
  l <- alloc (JObj back);;
  _create_scene_from_data
    (Raw (JObj [("id", JStr scene_id); ("title", JStr title);
                ("description", JStr description); ("characters", JArr [])])
         (Some l))
    (JStr scene_id).

Definition mysterious_area : string := "Mysterious Area".
Definition mysterious_text : string :=
  "You've arrived at a mysterious area that seems to shift and change before your eyes. The path behind you is clear, but the rest is shrouded in mist.".
Definition unexpected_area : string := "Unexpected Area".
Definition unexpected_text : string :=
  "You've arrived at an unexpected area. There seems to be some strange energy interfering with your senses. The path back is clear, but moving forward might be risky.".

(** [except (json.JSONDecodeError, ValueError, LLMResponseError)]. *)
Definition caught_first (e : exn) : bool :=
  match exn_kind_of e with
  | JSONDecodeError | ValueError | LLMResponseError => true
  | _ => false
  end.

(** The body of the [try] of [_generate_new_scene]. *)
Definition generation_attempt (llm : oracle) (scene_id : string)
    (location_name : option string) : M session Scene.t :=
  s <- get;;
  modify (fun s' => (log_call (ReqScene scene_id location_name) (fst s'), snd s'));;;
  scene_data <- lift (call_llm_with_json_response
                        (llm (List.length (calls (fst s)))) _validate_scene_data);;
  raw <- on_snd (load scene_data);;
  modify (fun s' => (remember scene_id raw (fst s'), snd s'));;;
  on_snd (_create_scene_from_data raw (JStr scene_id)).

(** Its two [except] clauses. *)
Definition generation_fallback (game_state : GameState.t) (scene_id : string)
    (e : exn) : M session Scene.t :=
  if caught_first e
  then on_snd (fallback_scene mysterious_area mysterious_text game_state scene_id)
  else on_snd (fallback_scene unexpected_area unexpected_text game_state scene_id).

Definition _generate_new_scene (llm : oracle) (game_state : GameState.t)
    (scene_id : string) : M session Scene.t :=
  location_name <- on_snd (location_name_for game_state scene_id);;
  try_except
    (generation_attempt llm scene_id location_name)
    (generation_fallback game_state scene_id).

(** [not target_scene_id] is true for [None] and for the empty string. *)
Definition given (target_scene_id : option string) : option string :=
  match target_scene_id with
  | Some s => if String.eqb s "" then None else Some s
  | None => None
  end.

(** The [if target_scene_id:] block of [create_scene]. *)
Definition resolve_target (llm : oracle) (game_state : GameState.t)
    (target : string) : M session Scene.t :=
  s <- get;;
  let predefined :=
    match scenes (scenario (fst s)) with Some sc => sc | None => [] end in
  if dict_has predefined target
  then _create_scene_from_scenario (JStr target)
  else
    match dict_get (scene_memory (fst s)) target with
    | Some scene_data => on_snd (_create_scene_from_data scene_data JNull)
    | None => _generate_new_scene llm game_state target
    end.

Definition create_scene (llm : oracle) (game_state : GameState.t)
    (target_scene_id : option string) : M session Scene.t :=
  match GameState.current_scene game_state, given target_scene_id with
  | None, None =>
      s <- get;;
      match starting_scene_id (scenario (fst s)) with
      | Some sid => _create_scene_from_scenario sid
      | None => lift (raise KeyError "starting_scene_id")
      end
  | _, Some target => resolve_target llm game_state target
  | Some sc, None => ret sc
  end.

(** The two dicts [resolve_action] returns from its [except] branches. *)
Definition parse_failure (msg : string) : json :=
  JObj [("success", JBool false);
        ("description",
         JStr ("I'm having trouble understanding what happened. Let's try again. Error: "
               ++ msg)%string);
        ("error", JStr msg)].
Definition api_failure (msg : string) : json :=
  JObj [("success", JBool false);
        ("description", JStr "Something went wrong. Please try your action again.");
        ("error", JStr msg)].

Definition resolve_action (llm : oracle) (action : string)
    (game_state : GameState.t) : M session json :=
  try_except
    (s <- get;;
     modify (fun s' => (log_call (ReqAction action) (fst s'), snd s'));;;
     lift (call_llm_with_json_response
             (llm (List.length (calls (fst s)))) _validate_action_result))
    (fun e =>
       match exn_kind_of e with
       | LLMResponseError => ret (parse_failure (exn_msg e))
       | _ => ret (api_failure (exn_msg e))
       end).
End DungeonMaster.

(** ** Vocabulary of the proofs *)

(** A projection of the state that a computation leaves alone, whether
    it ends or raises. *)
Definition keeps {S T A} (f : S -> T) (m : M S A) : Prop :=
  forall s, f (fst (m s)) = f s.

(** Every run of [m] takes a state to one related to it by [R], whether
    it ends or raises. *)
Definition respects {S A} (R : S -> S -> Prop) (m : M S A) : Prop :=
  forall s, R s (fst (m s)).

(** The part of the state the last block of [update] writes. *)
Definition ending (w : GameState.world) : bool * json :=
  (GameState.is_game_over (fst w), GameState.ending_message (fst w)).

(** The names of the current scene's characters. *)
Definition scene_names (w : GameState.world) : option (list json) :=
  option_map Scene.names (GameState.current_scene (fst w)).

(** The names a list of character definitions brings. *)
Fixpoint added_names (datas : list json) : list json :=
  match datas with
  | [] => []
  | d :: r =>
      match py_getitem d "name" with
      | inr n => n :: added_names r
      | inl _ => added_names r
      end
  end.

(** The names under [scene_updates['add_characters']]. *)
Definition su_names (scene_updates : json) : list json :=
  match py_getitem scene_updates "add_characters" with
  | inr src =>
      match py_iter src with
      | inr datas => added_names datas
      | inl _ => []
      end
  | inl _ => []
  end.

(** The names under [result['scene_updates']['add_characters']]. *)
Definition new_names (result : json) : list json :=
  match py_getitem result "scene_updates" with
  | inr su => su_names su
  | inl _ => []
  end.

(** ** Sample data *)

Definition c5_character : Character.t :=
  Character.mk (JStr "Ayla") (JStr "a ranger") (JStr "healthy") (JStr "energized")
    [("poisoned", JStr "mild")] [] [].
Definition c5_status : dict := [("poisoned", JNull); ("blessed", JStr "yes")].
Definition c5_delta : dict := [("status", JObj c5_status)].

Definition c9_character : Character.t :=
  Character.mk (JStr "Ayla") (JStr "a ranger") (JStr "healthy") (JStr "energized")
    [("blessed", JStr "yes")] [] [].
Definition c9_status : dict := [("poisoned", JNull)].
Definition c9_delta : dict := [("status", JObj c9_status)].

(** The items [remove_items] leaves: those whose name is [!=] every
    listed name. *)
Definition survives (names : list json) (it : Item.t) : bool :=
  forallb (fun n => negb (py_eq (Item.name it) n)) names.

Definition rope : Item.t := Item.mk (JStr "rope") (JStr "ten metres of hemp") (JObj []).
Definition lamp : Item.t := Item.mk (JStr "lamp") (JStr "an oil lamp") (JObj []).
Definition c6_character : Character.t :=
  Character.mk (JStr "Ayla") (JStr "a ranger") (JStr "healthy") (JStr "energized")
    [] [rope; lamp; rope] [].
Definition c6_delta : dict := [("remove_items", JArr [JStr "rope"])].
(** A delta whose [status] is a string instead of a map. *)
Definition c6_bad_delta : dict :=
  [("status", JStr "poisoned"); ("remove_items", JArr [JStr "rope"])].

Definition c7_state : GameState.world :=
  (GameState.mk (Some c5_character) None [] false (JStr ""), []).
Definition c7_result : dict :=
  [("success", JBool true); ("description", JStr "The blade finds you.");
   ("game_over", JBool true); ("ending_message", JStr "You died.")].
Definition c7_result_no_message : dict :=
  [("success", JBool true); ("description", JStr "The blade finds you.");
   ("game_over", JBool true)].
(** A result whose player delta carries [status] as a string. *)
Definition c7_bad_result : dict :=
  [("success", JBool true); ("description", JStr "The blade finds you.");
   ("player_updates", JObj [("status", JStr "dead")]);
   ("game_over", JBool true); ("ending_message", JStr "You died.")].

Definition bob : NPC.t := NPC.new (JStr "Bob") (JStr "a guard") (JStr "neutral") [] [].
Definition gate : Scene.t :=
  Scene.mk (JStr "gate") (JStr "The Gate") (JStr "A heavy gate.") [bob] O [].
Definition c8_state : GameState.world :=
  (GameState.mk None (Some gate) [] false (JStr ""), [JObj []]).
Definition c8_result : json :=
  JObj [("success", JBool true); ("description", JStr "A merchant arrives.");
        ("scene_updates",
         JObj [("add_characters",
                JArr [JObj [("name", JStr "Mira"); ("description", JStr "a merchant")]])])].
(** A result that brings a second character called Bob. *)
Definition c8_bad_result : json :=
  JObj [("success", JBool true); ("description", JStr "Another guard arrives.");
        ("scene_updates",
         JObj [("add_characters",
                JArr [JObj [("name", JStr "Bob"); ("description", JStr "another guard")]])])].

(** A generator that is never reachable. *)
Definition unreachable_llm : oracle := fun _ => TransportError "connection refused".
Definition fresh_session : DungeonMaster.session := (DungeonMaster.initial, []).

(** The current scene, when there is one, holds a connections dict. *)
Definition connections_ok (game_state : GameState.t) (h : heap) : Prop :=
  match GameState.current_scene game_state with
  | None => True
  | Some sc => exists kv, h !! Scene.connections sc = Some (JObj kv)
  end.

(** The connections of a fallback scene. *)
Definition path_back (game_state : GameState.t) : dict :=
  match GameState.current_scene game_state with
  | Some sc => [("Path Back", Scene.id sc)]
  | None => []
  end.

Definition at_gate : GameState.t := GameState.mk None (Some gate) [] false (JStr "").
Definition gate_session : DungeonMaster.session :=
  (DungeonMaster.initial, [JObj [("Dark Cave", JStr "cave")]]).

(** Shapes on which scene construction goes through: every item has a
    name and a description, every skill also a cost, every character a
    name, a description and, when given, lists of such items and skills;
    the definition has a title, a description and, when given, a list of
    such characters. *)
Definition item_ok (d : json) : bool :=
  match d with
  | JObj kv => dict_has kv "name" && dict_has kv "description"
  | _ => false
  end.

Definition skill_ok (d : json) : bool :=
  match d with
  | JObj kv => dict_has kv "name" && dict_has kv "description" && dict_has kv "cost"
  | _ => false
  end.

Definition list_ok (p : json -> bool) (j : option json) : bool :=
  match j with
  | None => true
  | Some (JArr l) => forallb p l
  | Some _ => false
  end.

Definition npc_ok (d : json) : bool :=
  match d with
  | JObj kv =>
      dict_has kv "name" && dict_has kv "description"
      && list_ok item_ok (dict_get kv "inventory")
      && list_ok skill_ok (dict_get kv "skills")
  | _ => false
  end.

Definition definition_ok (fields : json) : bool :=
  match fields with
  | JObj kv =>
      dict_has kv "title" && dict_has kv "description"
      && list_ok npc_ok (dict_get kv "characters")
  | _ => false
  end.

Definition is_scene_with_id (r : res Scene.t) (scene_id : json) : Prop :=
  exists sc, r = inr sc /\ Scene.id sc = scene_id.

Definition library_fields : json :=
  JObj [("title", JStr "Ancient Library"); ("description", JStr "Dusty shelves.");
        ("characters",
         JArr [JObj [("name", JStr "Archivist"); ("description", JStr "an old scholar");
                     ("inventory",
                      JArr [JObj [("name", JStr "quill"); ("description", JStr "a pen")]])]])].
Definition library_scenes : list (string * DungeonMaster.raw_scene) :=
  [("entrance",
    DungeonMaster.Raw
      (JObj [("title", JStr "Entrance"); ("description", JStr "A doorway.")])
      (Some O));
   ("library", DungeonMaster.Raw library_fields (Some 1%nat))].
Definition library_session : DungeonMaster.session :=
  (DungeonMaster.mk
     (DungeonMaster.Scenario (Some (JStr "entrance")) (Some library_scenes))
     [] [],
   [JObj [("Ancient Library", JStr "library")]; JObj [("Entrance", JStr "entrance")]]).

(** A scenario whose library has no description, and one whose scene map
    has the empty string as a key. *)
Definition broken_library_session : DungeonMaster.session :=
  (DungeonMaster.mk
     (DungeonMaster.Scenario (Some (JStr "library"))
        (Some [("library",
                DungeonMaster.Raw (JObj [("title", JStr "Ancient Library")]) None)]))
     [] [],
   []).
Definition nameless_session : DungeonMaster.session :=
  (DungeonMaster.mk
     (DungeonMaster.Scenario (Some (JStr ""))
        (Some [("",
                DungeonMaster.Raw
                  (JObj [("title", JStr "Nowhere"); ("description", JStr "Fog.")]) None)]))
     [] [],
   [JObj []]).

(** The target is neither predefined nor remembered. *)
Definition unknown_scene (target : string) (d : DungeonMaster.t) : Prop :=
  dict_has
    (match DungeonMaster.scenes (DungeonMaster.scenario d) with
     | Some sc => sc
     | None => []
     end) target = false
  /\ dict_get (DungeonMaster.scene_memory d) target = None.

(** The log grew by one scene request for [target]. *)
Definition one_more_scene_call (target : string) (before after : DungeonMaster.t) : Prop :=
  exists loc,
    DungeonMaster.calls after = DungeonMaster.calls before ++ [ReqScene target loc].

(** A generator whose answer passes validation but has a character
    without a description. *)
Definition bat_cave : json :=
  JObj [("id", JStr "cave"); ("title", JStr "Bat Cave"); ("description", JStr "Dark.");
        ("connections", JObj [("Gate", JStr "gate")]);
        ("characters", JArr [JObj [("name", JStr "Bat")]])].
Definition bat_llm : oracle := fun _ => Parsed bat_cave.

(** A generator that answers with a well-formed cave. *)
Definition cave : json :=
  JObj [("id", JStr "cave"); ("title", JStr "Cave"); ("description", JStr "Dark.");
        ("connections", JObj [("Gate", JStr "gate")]);
        ("characters",
         JArr [JObj [("name", JStr "Bat"); ("description", JStr "a small bat")]])].
Definition cave_llm : oracle := fun _ => Parsed cave.

(** The session after the cave has been generated once from the gate. *)
Definition cave_session : DungeonMaster.session :=
  fst (DungeonMaster.create_scene cave_llm at_gate (Some "cave") gate_session).

(** An action result that opens a tunnel in the current scene. *)
Definition dig_result : json :=
  JObj [("success", JBool true); ("description", JStr "You dig a tunnel.");
        ("scene_updates", JObj [("new_connections", JObj [("Tunnel", JStr "deep")])])].

Definition in_scene (sc : Scene.t) : GameState.t :=
  GameState.mk None (Some sc) [GameState.Kept gate] false (JStr "").


(** ** More vocabulary and sample data *)

(** Two names that [==] tells apart, either way round. *)
Definition differs (x y : json) : bool := negb (py_eq x y) && negb (py_eq y x).

(** No two names of the list are [==]. *)
Fixpoint unique_names (l : list json) : bool :=
  match l with
  | [] => true
  | x :: r => forallb (differs x) r && unique_names r
  end.

(** Uniqueness of the names of a scene is not lost from one state to the
    next. *)
Definition unique_step (s s' : Scene.t * heap) : Prop :=
  unique_names (Scene.names (fst s)) = true ->
  unique_names (Scene.names (fst s')) = true.

(** The names in the character list of a raw scene definition. *)
Definition definition_names (fields : json) : list json :=
  match py_get fields "characters" (JArr []) with
  | inr src =>
      match py_iter src with
      | inr datas => added_names datas
      | inl _ => []
      end
  | inl _ => []
  end.

(** The remembered definition [raw] is the generator's answer [j]: its
    fields are those of [j] without ["connections"], and the object [j]
    has under ["connections"], when it has one, is the one the store
    holds at [rs_conn]. *)
Definition holds_answer (j : json) (raw : DungeonMaster.raw_scene) (h : heap) : Prop :=
  match j with
  | JObj kv =>
      match dict_get kv "connections" with
      | Some c =>
          DungeonMaster.rs_fields raw = JObj (dict_del kv "connections")
          /\ exists l, DungeonMaster.rs_conn raw = Some l /\ h !! l = Some c
      | None => raw = DungeonMaster.Raw j None
      end
  | _ => raw = DungeonMaster.Raw j None
  end.

(** A definition with two characters called Bob. *)
Definition twins : DungeonMaster.raw_scene :=
  DungeonMaster.Raw
    (JObj [("title", JStr "Barracks"); ("description", JStr "Bunks.");
           ("characters",
            JArr [JObj [("name", JStr "Bob"); ("description", JStr "a guard")];
                  JObj [("name", JStr "Bob"); ("description", JStr "his brother")]])])
    None.

(** A raw definition from which no scene can be built: it is not a dict,
    or it has no title, or it has no description. *)
Definition lacks_required (fields : json) : bool :=
  match fields with
  | JObj kv => negb (dict_has kv "title" && dict_has kv "description")
  | _ => true
  end.

Definition raises {A} (r : res A) : Prop := exists e, r = inl e.

(** A delta that has none of the keys [Character.update] looks at. *)
Definition no_character_keys (u : dict) : Prop :=
  dict_has u "health" = false /\ dict_has u "energy" = false
  /\ dict_has u "status" = false /\ dict_has u "add_items" = false
  /\ dict_has u "remove_items" = false.

(** What [Character.update] never writes. *)
Definition identity_of (c : Character.t) : json * json * list Skill.t :=
  (Character.name c, Character.description c, Character.skills c).

Definition x1_delta : dict := [("mood", JStr "grim"); ("attitude", JStr "hostile")].
Definition x3_delta : dict :=
  [("add_items",
    JArr [JObj [("name", JStr "rope"); ("description", JStr "more rope")];
          JObj [("name", JStr "key"); ("description", JStr "a brass key")]])].
Definition x4_delta : dict :=
  [("health", JStr "wounded"); ("status", JStr "not a map")].

Definition x5_npc : NPC.t :=
  NPC.mk (Character.new (JStr "Bob") (JStr "a guard") [] [])
    (JStr "neutral") [("bribed", JBool true); ("post", JStr "gate")].
Definition x5_delta : dict :=
  [("health", JStr "wounded"); ("attitude", JStr "hostile");
   ("properties", JObj [("bribed", JNull); ("alarmed", JBool true)])].
(** The same delta with a malformed [add_items]. *)
Definition x5_bad_delta : dict :=
  [("add_items", JInt 3); ("attitude", JStr "hostile")].

(** The two blocks [NPC.update] runs after [super().update(updates)]. *)
Definition npc_attitude_block (updates : json) : M NPC.t unit :=
  has_attitude <- lift (py_in "attitude" updates);;
  when has_attitude
    (v <- lift (py_getitem updates "attitude");; modify (NPC.set_attitude v)).

Definition npc_properties_block (updates : json) : M NPC.t unit :=
  has_props <- lift (py_in "properties" updates);;
  when has_props
    (ps <- lift (py_getitem updates "properties");;
     entries <- lift (py_items ps);;
     for_each entries
       (fun kv => modify (fun n => NPC.set_properties (merge_entry (NPC.properties n) kv) n))).

(** [", ".join(l)]. *)
Fixpoint join_comma (l : list string) : string :=
  match l with
  | [] => ""
  | [x] => x
  | x :: r => (x ++ ", " ++ join_comma r)%string
  end.

(** [Scene.get_connections_description], in [app/world/scene.py]: the
    sentinel when the connections object is falsy, else the keys of the
    dict joined in insertion order. *)
Definition get_connections_description (s : Scene.t) (h : heap) : res string :=
  match h !! Scene.connections s with
  | Some c =>
      if negb (truthy c) then inr "There are no visible paths from here."
      else
        match c with
        | JObj kv => inr ("You can go to: " ++ join_comma (dict_keys kv))%string
        | _ => raise AttributeError "object has no attribute 'keys'"
        end
  | None => raise AttributeError "no connections object"
  end.

Definition mira : NPC.t :=
  NPC.new (JStr "Mira") (JStr "a merchant") (JStr "friendly") [] [].
Definition gate_heap : heap := [JObj [("Dark Cave", JStr "cave")]].

(** A result that has none of the keys [GameState.update] looks at. *)
Definition no_update_keys (r : dict) : Prop :=
  dict_has r "player_updates" = false /\ dict_has r "character_updates" = false
  /\ dict_has r "scene_updates" = false /\ dict_has r "move_to_scene" = false
  /\ dict_has r "game_over" = false.




Definition quiet_result : dict :=
  [("success", JBool true); ("description", JStr "Nothing happens.")].
Definition gate_world : GameState.world :=
  (GameState.mk (Some c6_character) (Some gate) [] false (JStr ""), gate_heap).

(** Everything of a scene but its characters. *)
Definition frame_of (s : Scene.t) : json * json * json * loc * dict :=
  (Scene.id s, Scene.title s, Scene.description s, Scene.connections s,
   Scene.properties s).

(** Who is there and where: whether there is a player, and the frame of
    the current scene, if any. *)
Definition cast_of (w : GameState.world) : bool * option (json * json * json * loc * dict) :=
  (GameState.has_player (fst w), option_map frame_of (GameState.current_scene (fst w))).

(** Updates for a character who is not at the gate; the delta is not
    even a dict. *)
Definition ghost_result : dict :=
  [("success", JBool true); ("description", JStr "You wave at nobody.");
   ("character_updates", JObj [("Ghost", JInt 7)])].

Definition setup_world : GameState.world := (GameState.initial, []).
(** A result with a malformed player delta and an ending. *)
Definition early_result : dict :=
  [("success", JBool false); ("description", JStr "It ends before it begins.");
   ("player_updates", JInt 0); ("scene_updates", JStr "none");
   ("game_over", JBool true)].

(** What [remove_characters] leaves of a list of characters. *)
Definition without_names (names : list json) (l : list NPC.t) : list NPC.t :=
  fold_left (fun l n => List.filter (fun c => negb (py_eq (NPC.name c) n)) l) names l.

(** Mira arrives and Bob and Mira leave, in one result. *)
Definition swap_result : dict :=
  [("success", JBool true); ("description", JStr "They come and go.");
   ("scene_updates",
    JObj [("add_characters",
           JArr [JObj [("name", JStr "Mira"); ("description", JStr "a merchant")]]);
          ("remove_characters", JArr [JStr "Bob"; JStr "Mira"])])].

(** The dungeon master's part of an outcome. *)
Definition dm_of {A} (out : DungeonMaster.session * res A) : DungeonMaster.t :=
  fst (fst out).

(** A generator that answers a request for any scene with a definition
    that calls itself "grotto", and one whose definition has no id. *)
Definition grotto : json :=
  JObj [("id", JStr "grotto"); ("title", JStr "Grotto"); ("description", JStr "Damp.");
        ("connections", JObj [("Gate", JStr "gate")])].
Definition grotto_llm : oracle := fun _ => Parsed grotto.
Definition grotto_session : DungeonMaster.session :=
  fst (DungeonMaster.create_scene grotto_llm at_gate (Some "cave") gate_session).
Definition grotto_raw : DungeonMaster.raw_scene :=
  DungeonMaster.Raw
    (JObj [("id", JStr "grotto"); ("title", JStr "Grotto"); ("description", JStr "Damp.")])
    (Some 1%nat).

(** ** The other requests of the dungeon master

    [x in c] for an arbitrary left operand. *)
Definition py_contains (x c : json) : res bool :=
  match c with
  | JObj kv =>
      match x with
      | JStr k => inr (dict_has kv k)
      | JArr _ | JObj _ => raise TypeError "unhashable type"
      | _ => inr false
      end
  | JArr l => inr (existsb (fun e => py_eq e x) l)
  | JStr t =>
      match x with
      | JStr k => inr (is_substring k t)
      | _ => raise TypeError "'in <string>' requires string as left operand"
      end
  | _ => raise TypeError "argument is not iterable"
  end.

(** [for x in l: check x], stopping at the first exception. *)
Fixpoint check_each (check : json -> res unit) (l : list json) : res unit :=
  match l with
  | [] => inr tt
  | x :: r =>
      match check x with
      | inl e => inl e
      | inr _ => check_each check r
      end
  end.

(** [DungeonMaster._validate_scenario]. *)
Definition _validate_scenario (scenario : json) : res unit :=
  DungeonMaster.res_bind (py_in "title" scenario) (fun has_title =>
  DungeonMaster.res_bind
    (if has_title then py_in "scenes" scenario else inr false) (fun has_scenes =>
  DungeonMaster.res_bind
    (if has_scenes then py_in "starting_scene_id" scenario else inr false) (fun has_start =>
  if negb has_start then raise ValueError "Missing required fields in scenario"
  else
    DungeonMaster.res_bind (py_getitem scenario "starting_scene_id") (fun sid =>
    DungeonMaster.res_bind (py_getitem scenario "scenes") (fun scs =>
    DungeonMaster.res_bind (py_contains sid scs) (fun found =>
    if negb found then raise ValueError "Starting scene ID not found in scenes"
    else inr tt)))))).

(** The checks of [_validate_character_data] on one item and one skill:
    ["name" not in item or "description" not in item], and the same with
    ["cost"]. *)
Definition check_item (item : json) : res unit :=
  DungeonMaster.res_bind (py_in "name" item) (fun has_name =>
  DungeonMaster.res_bind
    (if has_name then py_in "description" item else inr false) (fun ok =>
  if negb ok then raise ValueError "Invalid item: missing name or description"
  else inr tt)).

Definition check_skill (skill : json) : res unit :=
  DungeonMaster.res_bind (py_in "name" skill) (fun has_name =>
  DungeonMaster.res_bind
    (if has_name then py_in "description" skill else inr false) (fun has_description =>
  DungeonMaster.res_bind
    (if has_description then py_in "cost" skill else inr false) (fun ok =>
  if negb ok then raise ValueError "Invalid skill: missing required fields"
  else inr tt))).

(** [DungeonMaster._validate_character_data]. *)
Definition _validate_character_data (data : json) : res unit :=
  DungeonMaster.res_bind (py_in "inventory" data) (fun has_inventory =>
  DungeonMaster.res_bind
    (if has_inventory then py_in "skills" data else inr false) (fun ok =>
  if negb ok then raise ValueError "Missing inventory or skills in character data"
  else
    DungeonMaster.res_bind (py_getitem data "inventory") (fun inv_src =>
    DungeonMaster.res_bind (py_iter inv_src) (fun items =>
    DungeonMaster.res_bind (check_each check_item items) (fun _ =>
    DungeonMaster.res_bind (py_getitem data "skills") (fun skill_src =>
    DungeonMaster.res_bind (py_iter skill_src) (fun skills =>
    check_each check_skill skills))))))).

(** The body of the [try] of [setup_player] after the call: the two
    loops and [Player(name=name, description=profile, ...)]. *)
Definition build_player (name profile : string) (character_data : json) : res Player.t :=
  DungeonMaster.res_bind (py_getitem character_data "inventory") (fun inv_src =>
  DungeonMaster.res_bind (py_iter inv_src) (fun item_datas =>
  DungeonMaster.res_bind (map_res Character.make_item item_datas) (fun inventory =>
  DungeonMaster.res_bind (py_getitem character_data "skills") (fun skill_src =>
  DungeonMaster.res_bind (py_iter skill_src) (fun skill_datas =>
  DungeonMaster.res_bind (map_res DungeonMaster.build_skill skill_datas) (fun skills =>
  inr (Character.new (JStr name) (JStr profile) inventory skills))))))).

(** [DungeonMaster.setup_player], given what its one call to the
    generator came back with.  It touches neither the scenario nor
    [scene_memory].  Both [except] clauses re-raise a plain [Exception]. *)
Definition setup_player (outcome : llm_outcome) (name profile : string) : res Player.t :=
  match DungeonMaster.res_bind
          (call_llm_with_json_response outcome _validate_character_data)
          (build_player name profile) with
  | inr player => inr player
  | inl e =>
      match exn_kind_of e with
      | LLMResponseError => raise OtherError ("Error creating character: " ++ exn_msg e)%string
      | _ => raise OtherError ("Unexpected error: " ++ exn_msg e)%string
      end
  end.

Definition is_dict (j : json) : bool :=
  match j with JObj _ => true | _ => false end.

Definition ranger_data : dict :=
  [("inventory",
    JArr [JObj [("name", JStr "bow"); ("description", JStr "a short bow")]]);
   ("skills",
    JArr [JObj [("name", JStr "Track"); ("description", JStr "follow a trail");
                ("cost", JStr "low")]])].
Definition two_room_scenario : dict :=
  [("title", JStr "The Keep"); ("starting_scene_id", JStr "entrance");
   ("scenes",
    JObj [("entrance", JObj [("title", JStr "Entrance"); ("description", JStr "A doorway.")]);
          ("library", library_fields)])].

(** ** Extracting the JSON text: [extract_json] in [app/utils/llm_utils.py]

    A response text is a sequence of characters.  [json.loads],
    [str.strip], [str.lower] and [re.search] belong to Python's library:
    the first three are parameters of the model, and the search for
    [\{.*\}] with [re.DOTALL] is written out (the leftmost open brace that
    has a closing brace after it, up to the last closing brace). *)

Definition text := list ascii.

Definition lit (s : string) : text := list_ascii_of_string s.

Fixpoint starts_with (p s : text) : bool :=
  match p, s with
  | [], _ => true
  | _ :: _, [] => false
  | a :: p', b :: s' => Ascii.eqb a b && starts_with p' s'
  end.

(** [s.find(sep)], [None] for -1. *)
Fixpoint find_sub (sep s : text) : option nat :=
  if starts_with sep s then Some O
  else match s with
       | [] => None
       | _ :: r => option_map S (find_sub sep r)
       end.

(** [sep in s]. *)
Definition contains (sep s : text) : bool :=
  match find_sub sep s with Some _ => true | None => false end.

(** [s.split(sep, 1)] for a separator that is not empty. *)
Definition split_once (sep s : text) : list text :=
  match find_sub sep s with
  | Some i => [take i s; drop (i + List.length sep) s]
  | None => [s]
  end.

(** [parts[1]]. *)
Definition second (parts : list text) : res text :=
  match parts with
  | _ :: x :: _ => inr x
  | _ => raise OtherError "IndexError: list index out of range"
  end.

(** [parts[0]] under [if parts:]. *)
Definition first_or (default : text) (parts : list text) : text :=
  match parts with
  | x :: _ => x
  | [] => default
  end.

Fixpoint find_char (c : ascii) (s : text) : option nat :=
  match s with
  | [] => None
  | x :: r => if Ascii.eqb x c then Some O else option_map S (find_char c r)
  end.

(** [s.rfind(c)], [None] for -1. *)
Fixpoint rfind_char (c : ascii) (s : text) : option nat :=
  match s with
  | [] => None
  | x :: r =>
      match rfind_char c r with
      | Some i => Some (S i)
      | None => if Ascii.eqb x c then Some O else None
      end
  end.

(** [s[i:j]] for indices that are not negative. *)
Definition slice (i j : nat) (s : text) : text := take (j - i) (drop i s).

Definition open_brace : ascii := "{"%char.
Definition close_brace : ascii := "}"%char.
Definition fence : text := lit "```".
Definition fence_json : text := lit "```json".

(** The text between the code fences, if any. *)
Definition unfenced (lower : text -> text) (t : text) : res text :=
  if contains fence_json (lower t) then
    match second (split_once fence_json t) with
    | inl e => inl e
    | inr rest => inr (first_or t (split_once fence rest))
    end
  else if contains fence t then
    match second (split_once fence t) with
    | inl e => inl e
    | inr rest => inr (first_or t (split_once fence rest))
    end
  else inr t.

(** From the first open brace to the last closing brace, when the text
    has both. *)
Definition isolate (json_text : text) : text :=
  match find_char open_brace json_text, rfind_char close_brace json_text with
  | Some start, Some last => slice start (S last) json_text
  | _, _ => json_text
  end.

(** [re.search(r'\{.*\}', json_text, re.DOTALL)]. *)
Definition search_braces (json_text : text) : option text :=
  match find_char open_brace json_text with
  | Some start =>
      match rfind_char close_brace (drop start json_text) with
      | Some last => Some (take (S last) (drop start json_text))
      | None => None
      end
  | None => None
  end.

Definition is_decode_error (e : exn) : bool :=
  match exn_kind_of e with JSONDecodeError => true | _ => false end.

Section ExtractJson.
Variable loads : text -> res json.
Variable strip : text -> text.
Variable lower : text -> text.

(** What [extract_json] first hands to [json.loads]. *)
Definition json_candidate (t : text) : res text :=
  match unfenced lower t with
  | inl e => inl e
  | inr json_text => inr (isolate json_text)
  end.

Definition extract_json (t : text) : res json :=
  match json_candidate t with
  | inl e => inl e
  | inr json_text =>
      match loads (strip json_text) with
      | inr result => inr result
      | inl e =>
          if is_decode_error e then
            match search_braces json_text with
            | Some m =>
                match loads m with
                | inr result => inr result
                | inl e2 => if is_decode_error e2 then inl e else inl e2
                end
            | None => inl e
            end
          else inl e
      end
  end.
End ExtractJson.

(** Instances for running the model: an ASCII [lower], an ASCII [strip]
    and a parser that only knows the empty object. *)
Definition lower_char (c : ascii) : ascii :=
  let n := nat_of_ascii c in
  if (65 <=? n)%nat && (n <=? 90)%nat then ascii_of_nat (n + 32) else c.
Definition ascii_lower (t : text) : text := map lower_char t.

Definition is_space (c : ascii) : bool :=
  let n := nat_of_ascii c in
  ((9 <=? n)%nat && (n <=? 13)%nat) || ((28 <=? n)%nat && (n <=? 32)%nat).
Fixpoint lstrip (t : text) : text :=
  match t with
  | c :: r => if is_space c then lstrip r else t
  | [] => []
  end.
Definition ascii_strip (t : text) : text := rev (lstrip (rev (lstrip t))).

Definition toy_loads (t : text) : res json :=
  if starts_with (lit "{}") t && Nat.eqb (List.length t) 2 then inr (JObj [])
  else raise JSONDecodeError "Expecting value".

Definition fenced_answer : text := lit "Here you go: ```json {} ``` Enjoy.".
Definition shouting_answer : text := lit "```JSON {} ```".
(** * Properties *)

(** ** Dicts *)

Section DictFacts.
Context {V : Type}.
Implicit Types (d : list (string * V)) (k : string) (v : V).

Lemma dict_get_set_eq d k v : dict_get (dict_set d k v) k = Some v.
Proof.
  induction d as [|[k' v'] r IH]; simpl.
  - now rewrite String.eqb_refl.
  - destruct (String.eqb k' k) eqn:E; simpl; rewrite E; auto.
Qed.

Lemma dict_get_set_ne d k k' v :
  k <> k' -> dict_get (dict_set d k v) k' = dict_get d k'.
Proof.
  intros Hne. induction d as [|[k0 v0] r IH]; simpl.
  - destruct (String.eqb k k') eqn:E; auto.
    apply String.eqb_eq in E. contradiction.
  - destruct (String.eqb k0 k) eqn:E; simpl.
    + apply String.eqb_eq in E. subst k0.
      destruct (String.eqb k k') eqn:E'; auto.
      apply String.eqb_eq in E'. contradiction.
    + now rewrite IH.
Qed.

Lemma dict_get_del_eq d k : dict_get (dict_del d k) k = None.
Proof.
  unfold dict_del. induction d as [|[k' v'] r IH]; simpl; auto.
  destruct (String.eqb k' k) eqn:E; simpl; auto. now rewrite E.
Qed.

Lemma dict_get_del_ne d k k' :
  k <> k' -> dict_get (dict_del d k) k' = dict_get d k'.
Proof.
  intros Hne. unfold dict_del. induction d as [|[k0 v0] r IH]; simpl; auto.
  destruct (String.eqb k0 k) eqn:E; simpl.
  - apply String.eqb_eq in E. subst k0.
    destruct (String.eqb k k') eqn:E'; auto.
    apply String.eqb_eq in E'. contradiction.
  - now rewrite IH.
Qed.

End DictFacts.

Lemma merge_entry_other (d : dict) (kv : string * json) (k : string) :
  fst kv <> k -> dict_get (merge_entry d kv) k = dict_get d k.
Proof.
  intros Hne. unfold merge_entry.
  destruct (is_none (snd kv) && dict_has d (fst kv)).
  - now apply dict_get_del_ne.
  - now apply dict_get_set_ne.
Qed.

Lemma merge_all_other (st d : dict) (k : string) :
  k ∉ dict_keys st -> dict_get (fold_left merge_entry st d) k = dict_get d k.
Proof.
  revert d. induction st as [|kv r IH]; intros d Hn; simpl; auto.
  rewrite IH.
  - apply merge_entry_other. intros E. apply Hn. simpl. rewrite E. left.
  - intros Hin. apply Hn. now right.
Qed.

(** What a whole status map does to one of its keys. *)
Lemma merge_all_lookup (st d : dict) (k : string) (v : json) :
  NoDup (dict_keys st) ->
  dict_get st k = Some v ->
  dict_get (fold_left merge_entry st d) k =
    if is_none v && dict_has d k then None else Some v.
Proof.
  revert d. induction st as [|[k1 v1] r IH]; intros d Hnd Hget; simpl in *.
  - discriminate.
  - inversion Hnd as [|? ? Hnotin Hnd']; subst.
    destruct (String.eqb k1 k) eqn:E.
    + apply String.eqb_eq in E. subst k1. injection Hget as ->.
      rewrite merge_all_other by exact Hnotin.
      unfold merge_entry; simpl.
      destruct (is_none v && dict_has d k).
      * apply dict_get_del_eq.
      * apply dict_get_set_eq.
    + rewrite (IH _ Hnd' Hget).
      assert (Hne : k1 <> k) by (intros ->; rewrite String.eqb_refl in E; discriminate).
      unfold dict_has.
      now rewrite (merge_entry_other d (k1, v1) k Hne).
Qed.

(** ** The state-and-exception monad *)

Section MonadFacts.
Context {S : Type}.

Lemma for_each_modify {A} (f : A -> S -> S) (l : list A) (s : S) :
  for_each l (fun x => modify (f x)) s = (fold_left (fun s x => f x s) l s, inr tt).
Proof.
  revert s. induction l as [|x r IH]; intros s; simpl; auto.
  unfold bind, modify at 1. apply IH.
Qed.

Context {T : Type} (f : S -> T).

Lemma keeps_ret {A} (a : A) : keeps f (ret a).
Proof. now intros s. Qed.

Lemma keeps_lift {A} (r : res A) : keeps f (lift r).
Proof. now intros s. Qed.

Lemma keeps_get : keeps f get.
Proof. now intros s. Qed.

Lemma keeps_bind {A B} (m : M S A) (k : A -> M S B) :
  keeps f m -> (forall a, keeps f (k a)) -> keeps f (bind m k).
Proof.
  intros Hm Hk s. unfold bind. specialize (Hm s).
  destruct (m s) as [s' [e|a]]; simpl in *; auto.
  now rewrite Hk.
Qed.

Lemma keeps_when (b : bool) (m : M S unit) : keeps f m -> keeps f (when b m).
Proof. destruct b; simpl; auto using keeps_ret. Qed.

Lemma keeps_modify (g : S -> S) : (forall s, f (g s) = f s) -> keeps f (modify g).
Proof. intros H s. apply H. Qed.

Lemma keeps_for_each {A} (l : list A) (body : A -> M S unit) :
  (forall x, keeps f (body x)) -> keeps f (for_each l body).
Proof.
  intros Hb. induction l as [|x r IH]; simpl.
  - apply keeps_ret.
  - apply keeps_bind; auto.
Qed.

Lemma keeps_if {A} (b : bool) (m1 m2 : M S A) :
  keeps f m1 -> keeps f m2 -> keeps f (if b then m1 else m2).
Proof. now destruct b. Qed.
End MonadFacts.

Ltac keeps_tac :=
  repeat first
    [ apply keeps_ret | apply keeps_lift | apply keeps_get
    | apply keeps_when | apply keeps_for_each; intros ?
    | apply keeps_bind; [|intros ?]
    | apply keeps_if
    | apply keeps_modify; intros ?; reflexivity ].

(** ** Entity model *)

Lemma bind_ok {S A B} (m : M S A) (k : A -> M S B) (s s' : S) (a : A) :
  m s = (s', inr a) -> bind m k s = k a s'.
Proof. intros H. unfold bind. now rewrite H. Qed.

Lemma apply_health_dict (u : dict) (c : Character.t) :
  exists c', Character.apply_health (JObj u) c = (c', inr tt)
             /\ Character.status c' = Character.status c
             /\ Character.inventory c' = Character.inventory c.
Proof.
  unfold Character.apply_health, bind, lift, py_in, py_getitem, dict_has.
  destruct (dict_get u "health"); simpl; eauto.
Qed.

Lemma apply_energy_dict (u : dict) (c : Character.t) :
  exists c', Character.apply_energy (JObj u) c = (c', inr tt)
             /\ Character.status c' = Character.status c
             /\ Character.inventory c' = Character.inventory c.
Proof.
  unfold Character.apply_energy, bind, lift, py_in, py_getitem, dict_has.
  destruct (dict_get u "energy"); simpl; eauto.
Qed.

Lemma fold_status_entries (st : dict) (c : Character.t) :
  fold_left (fun s kv => Character.set_status (merge_entry (Character.status s) kv) s) st c
  = Character.set_status (fold_left merge_entry st (Character.status c)) c.
Proof.
  revert c. induction st as [|kv r IH]; intros c; simpl.
  - now destruct c.
  - now rewrite IH.
Qed.

Lemma apply_status_dict (u st : dict) (c : Character.t) :
  dict_get u "status" = Some (JObj st) ->
  Character.apply_status (JObj u) c
  = (Character.set_status (fold_left merge_entry st (Character.status c)) c, inr tt).
Proof.
  intros H.
  unfold Character.apply_status, bind, lift, py_in, py_getitem, dict_has.
  rewrite H. simpl. rewrite for_each_modify. now rewrite fold_status_entries.
Qed.

Lemma apply_add_items_keeps_status (updates : json) :
  keeps Character.status (Character.apply_add_items updates).
Proof. unfold Character.apply_add_items. keeps_tac. Qed.

Lemma apply_remove_items_keeps_status (updates : json) :
  keeps Character.status (Character.apply_remove_items updates).
Proof. unfold Character.apply_remove_items. keeps_tac. Qed.

(** The status a character ends with, whatever the later blocks do. *)
Lemma update_status (u st : dict) (c : Character.t) :
  dict_get u "status" = Some (JObj st) ->
  Character.status (fst (Character.update (JObj u) c))
  = fold_left merge_entry st (Character.status c).
Proof.
  intros H. unfold Character.update.
  destruct (apply_health_dict u c) as (c1 & E1 & S1 & _).
  rewrite (bind_ok _ _ _ _ _ E1).
  destruct (apply_energy_dict u c1) as (c2 & E2 & S2 & _).
  rewrite (bind_ok _ _ _ _ _ E2).
  rewrite (bind_ok _ _ _ _ _ (apply_status_dict u st c2 H)).
  assert (K : keeps Character.status
                (Character.apply_add_items (JObj u);;;
                 Character.apply_remove_items (JObj u))).
  { apply keeps_bind; [apply apply_add_items_keeps_status|].
    intros _. apply apply_remove_items_keeps_status. }
  rewrite K. simpl. now rewrite S2, S1.
Qed.

(** C5.  When the delta's status map gives [null] to a key the character
    has, [Character.update] leaves the status map without that key; when
    it gives a key any other value, the status map ends with that value
    under the key. *)
Theorem C5_status_null_removes_value_upserts
    (c : Character.t) (u st : dict) (k : string) (v : json)
    (Hstatus : dict_get u "status" = Some (JObj st))
    (Hmap : NoDup (dict_keys st))
    (Hentry : dict_get st k = Some v) :
  let c' := fst (Character.update (JObj u) c) in
  (v = JNull -> dict_has (Character.status c) k = true ->
     dict_has (Character.status c') k = false)
  /\ (v <> JNull -> dict_get (Character.status c') k = Some v).
Proof.
  cbv zeta. rewrite (update_status u st c Hstatus). split.
  - intros -> Hhas. unfold dict_has.
    rewrite (merge_all_lookup st _ k JNull Hmap Hentry). simpl.
    now rewrite Hhas.
  - intros Hv. rewrite (merge_all_lookup st _ k v Hmap Hentry).
    destruct v; simpl; try reflexivity. contradiction.
Qed.

(** Closes [NoDup] goals over explicit lists of string literals. *)
Ltac nodup_literals :=
  repeat first
    [ apply NoDup_nil_2
    | apply NoDup_cons_2;
      [ rewrite ?elem_of_cons, ?elem_of_nil; intuition discriminate | ] ].

Lemma C5_witness :
  dict_has (Character.status (fst (Character.update (JObj c5_delta) c5_character)))
    "poisoned" = false.
Proof.
  refine (proj1 (C5_status_null_removes_value_upserts
                   c5_character c5_delta c5_status "poisoned" JNull _ _ _) _ _).
  - reflexivity.
  - unfold c5_status. simpl. nodup_literals.
  - reflexivity.
  - reflexivity.
  - reflexivity.
Defined.

(** C9.  When the delta's status map gives [null] to a key the character
    does not have, [Character.update] stores the key with value [None]. *)
Theorem C9_null_for_absent_key_is_stored
    (c : Character.t) (u st : dict) (k : string)
    (Hstatus : dict_get u "status" = Some (JObj st))
    (Hmap : NoDup (dict_keys st))
    (Hentry : dict_get st k = Some JNull)
    (Habsent : dict_has (Character.status c) k = false) :
  dict_get (Character.status (fst (Character.update (JObj u) c))) k = Some JNull.
Proof.
  rewrite (update_status u st c Hstatus).
  rewrite (merge_all_lookup st _ k JNull Hmap Hentry).
  simpl. now rewrite Habsent.
Qed.

Lemma C9_witness :
  dict_get (Character.status (fst (Character.update (JObj c9_delta) c9_character)))
    "poisoned" = Some JNull.
Proof.
  apply (C9_null_for_absent_key_is_stored c9_character c9_delta c9_status "poisoned").
  - reflexivity.
  - unfold c9_status. simpl. nodup_literals.
  - reflexivity.
  - reflexivity.
Defined.

(** *** Inventory *)

Lemma filter_twice {A} (f g : A -> bool) (l : list A) :
  List.filter f (List.filter g l) = List.filter (fun x => g x && f x) l.
Proof.
  induction l as [|x r IH]; simpl; auto.
  destruct (g x); simpl; [destruct (f x)|]; now rewrite IH.
Qed.

Lemma fold_drop_named (names : list json) (inv : list Item.t) :
  fold_left (fun inv n => Character.drop_named n inv) names inv
  = List.filter (survives names) inv.
Proof.
  revert inv. induction names as [|n r IH]; intros inv; simpl.
  - induction inv as [|x l IHl]; simpl; auto. now rewrite <- IHl.
  - rewrite IH. unfold Character.drop_named. rewrite filter_twice.
    reflexivity.
Qed.

Lemma fold_inventory_drops (names : list json) (c : Character.t) :
  fold_left
    (fun s n => Character.set_inventory (Character.drop_named n (Character.inventory s)) s)
    names c
  = Character.set_inventory
      (fold_left (fun inv n => Character.drop_named n inv) names (Character.inventory c)) c.
Proof.
  revert c. induction names as [|n r IH]; intros c; simpl.
  - now destruct c.
  - now rewrite IH.
Qed.

Lemma apply_remove_items_list (u : dict) (names : list json) (c : Character.t) :
  dict_get u "remove_items" = Some (JArr names) ->
  Character.apply_remove_items (JObj u) c
  = (Character.set_inventory (List.filter (survives names) (Character.inventory c)) c,
     inr tt).
Proof.
  intros H.
  unfold Character.apply_remove_items, bind, lift, py_in, py_getitem, dict_has.
  rewrite H. simpl. rewrite for_each_modify, fold_inventory_drops.
  now rewrite fold_drop_named.
Qed.

Lemma apply_status_keeps_inventory (updates : json) :
  keeps Character.inventory (Character.apply_status updates).
Proof. unfold Character.apply_status. keeps_tac. Qed.

(** [add_items] only appends, also when it stops at a malformed item. *)
Lemma add_loop_extends (datas : list json) (c : Character.t) :
  exists added : list Item.t,
    Character.inventory
      (fst (for_each datas
              (fun item_data =>
                 item <- lift (Character.make_item item_data);;
                 modify (fun c => Character.set_inventory
                                    (Character.inventory c ++ [item]) c)) c))
    = Character.inventory c ++ added.
Proof.
  revert c. induction datas as [|x r IH]; intros c; simpl.
  - exists []. now rewrite app_nil_r.
  - unfold bind at 1. unfold bind at 1. unfold lift at 1.
    destruct (Character.make_item x) as [e|item]; simpl.
    + exists []. now rewrite app_nil_r.
    + destruct (IH (Character.set_inventory (Character.inventory c ++ [item]) c))
        as [added Hadd].
      exists (item :: added). rewrite Hadd. simpl.
      now rewrite <- app_assoc.
Qed.

Lemma apply_add_items_extends (updates : json) (c : Character.t) :
  exists added : list Item.t,
    Character.inventory (fst (Character.apply_add_items updates c))
    = Character.inventory c ++ added.
Proof.
  unfold Character.apply_add_items, bind at 1, lift at 1.
  destruct (py_in "add_items" updates) as [e|[|]]; simpl;
    try (exists []; now rewrite app_nil_r).
  unfold bind at 1, lift at 1.
  destruct (py_getitem updates "add_items") as [e|src]; simpl;
    try (exists []; now rewrite app_nil_r).
  unfold bind at 1, lift at 1.
  destruct (py_iter src) as [e|datas]; simpl;
    try (exists []; now rewrite app_nil_r).
  apply add_loop_extends.
Qed.

Lemma survives_in (names : list json) (it : Item.t) (n : json) :
  survives names it = true -> In n names -> py_eq (Item.name it) n = false.
Proof.
  unfold survives. rewrite forallb_forall. intros H Hin.
  specialize (H n Hin). now destruct (py_eq (Item.name it) n).
Qed.

(** C6, as the code has it.  When [Character.update] runs to its end on
    a delta whose [remove_items] is a list, no item left in the inventory
    has a listed name, and the items of the old inventory whose name is
    not listed stay, in their order, at the front of the new one (what
    follows them is what [add_items] appended). *)
Theorem C6_remove_items_removes_every_match
    (c c' : Character.t) (u : dict) (names : list json)
    (Hnames : dict_get u "remove_items" = Some (JArr names))
    (Hdone : Character.update (JObj u) c = (c', inr tt)) :
  (forall n it, In n names -> In it (Character.inventory c') ->
                py_eq (Item.name it) n = false)
  /\ exists rest,
       Character.inventory c'
       = List.filter (survives names) (Character.inventory c) ++ rest.
Proof.
  unfold Character.update in Hdone.
  destruct (apply_health_dict u c) as (c1 & E1 & _ & I1).
  rewrite (bind_ok _ _ _ _ _ E1) in Hdone.
  destruct (apply_energy_dict u c1) as (c2 & E2 & _ & I2).
  rewrite (bind_ok _ _ _ _ _ E2) in Hdone.
  pose proof (apply_status_keeps_inventory (JObj u) c2) as I3.
  unfold bind at 1 in Hdone.
  destruct (Character.apply_status (JObj u) c2) as [c3 [e|[]]];
    [discriminate|]. simpl in I3.
  destruct (apply_add_items_extends (JObj u) c3) as [added I4].
  unfold bind at 1 in Hdone.
  destruct (Character.apply_add_items (JObj u) c3) as [c4 [e|[]]];
    [discriminate|]. simpl in I4.
  rewrite (apply_remove_items_list u names c4 Hnames) in Hdone.
  injection Hdone as <-. simpl.
  rewrite I4, I3, I2, I1. split.
  - intros n it Hn Hit. apply List.filter_In in Hit as [_ Hs].
    now apply (survives_in names).
  - exists (List.filter (survives names) added). apply List.filter_app.
Qed.

Lemma C6_witness :
  let c' := fst (Character.update (JObj c6_delta) c6_character) in
  (forall n it, In n [JStr "rope"] -> In it (Character.inventory c') ->
                py_eq (Item.name it) n = false)
  /\ exists rest,
       Character.inventory c'
       = List.filter (survives [JStr "rope"]) (Character.inventory c6_character) ++ rest.
Proof.
  apply (C6_remove_items_removes_every_match c6_character _ c6_delta [JStr "rope"]);
    reflexivity.
Defined.

(** The claim of C6 read for every delta fails: a delta whose [status] is
    not a map makes [update] raise before it reaches [remove_items], and
    both ropes stay. *)
Lemma C6_counterexample :
  dict_get c6_bad_delta "remove_items" = Some (JArr [JStr "rope"])
  /\ Character.update (JObj c6_bad_delta) c6_character
     = (c6_character,
        raise AttributeError "object has no attribute 'items'")
  /\ ~ (forall it,
          In it (Character.inventory
                   (fst (Character.update (JObj c6_bad_delta) c6_character))) ->
          py_eq (Item.name it) (JStr "rope") = false).
Proof.
  split; [reflexivity|]. split; [reflexivity|].
  intros H. specialize (H rope (or_introl eq_refl)). discriminate H.
Qed.

(** ** Game state *)

Lemma bind_keeps_inv {S T A B} (f : S -> T) (m : M S A) (k : A -> M S B)
    (s s' : S) (b : B) :
  keeps f m -> bind m k s = (s', inr b) ->
  exists a s1, f s1 = f s /\ k a s1 = (s', inr b).
Proof.
  intros Hk H. unfold bind in H. specialize (Hk s).
  destruct (m s) as [s1 [e|a]]; [discriminate|]. eauto.
Qed.

Section GameStateFacts.
Context {T : Type} (f : GameState.world -> T).

Lemma keeps_on_player {A} (m : M Player.t A) :
  (forall p g h, f (GameState.set_player p g, h) = f (g, h)) ->
  keeps f (GameState.on_player m).
Proof.
  intros H [g h]. unfold GameState.on_player. simpl.
  destruct (GameState.player g) as [p|]; [|reflexivity].
  destruct (m p) as [p' r]. simpl. apply H.
Qed.

Lemma keeps_on_scene {A} (m : M (Scene.t * heap) A) :
  (forall sc g h h', f (GameState.set_current_scene sc g, h') = f (g, h)) ->
  keeps f (GameState.on_scene m).
Proof.
  intros H [g h]. unfold GameState.on_scene. simpl.
  destruct (GameState.current_scene g) as [sc|]; [|reflexivity].
  destruct (m (sc, h)) as [[sc' h'] r]. simpl. apply H.
Qed.
End GameStateFacts.

Lemma player_block_keeps_ending (result : json) :
  keeps ending (GameState.player_block result).
Proof.
  unfold GameState.player_block. keeps_tac.
  apply keeps_on_player. reflexivity.
Qed.

Lemma characters_block_keeps_ending (result : json) :
  keeps ending (GameState.characters_block result).
Proof.
  unfold GameState.characters_block. keeps_tac.
  apply keeps_on_scene. reflexivity.
Qed.

Lemma scene_block_keeps_ending (result : json) :
  keeps ending (GameState.scene_block result).
Proof.
  unfold GameState.scene_block. keeps_tac.
  apply keeps_on_scene. reflexivity.
Qed.

Lemma move_block_keeps_ending (result : json) :
  keeps ending (GameState.move_block result).
Proof.
  unfold GameState.move_block. keeps_tac.
  apply keeps_modify. intros [g h]. simpl.
  now destruct (GameState.current_scene g).
Qed.

(** The last block never clears the flag. *)
Lemma game_over_block_monotone (result : json) (w : GameState.world) :
  GameState.is_game_over (fst w) = true ->
  GameState.is_game_over (fst (fst (GameState.game_over_block result w))) = true.
Proof.
  intros H. unfold GameState.game_over_block, bind, lift, ret, when, modify.
  destruct (py_in "game_over" result) as [e|[|]]; simpl; auto.
  destruct (py_getitem result "game_over") as [e|over]; simpl; auto.
  destruct (truthy over); simpl; auto.
  destruct (py_get result "ending_message" (JStr "Game Over")); simpl; auto.
Qed.

Lemma update_monotone (result : json) (w : GameState.world) :
  GameState.is_game_over (fst w) = true ->
  GameState.is_game_over (fst (fst (GameState.update result w))) = true.
Proof.
  intros H. unfold GameState.update.
  assert (step : forall (m k : M GameState.world unit) s,
            keeps ending m ->
            (forall s1, GameState.is_game_over (fst s1) = true ->
                        GameState.is_game_over (fst (fst (k s1))) = true) ->
            GameState.is_game_over (fst s) = true ->
            GameState.is_game_over (fst (fst (bind m (fun _ => k) s))) = true).
  { intros m k s Hm Hk Hs. unfold bind. specialize (Hm s).
    unfold ending in Hm. destruct (m s) as [s1 [e|[]]]; simpl in *.
    - injection Hm as -> _. exact Hs.
    - apply Hk. injection Hm as -> _. exact Hs. }
  revert w H.
  intros w H. apply step; [apply player_block_keeps_ending| |exact H].
  intros w1 H1. apply step; [apply characters_block_keeps_ending| |exact H1].
  intros w2 H2. apply step; [apply scene_block_keeps_ending| |exact H2].
  intros w3 H3. apply step; [apply move_block_keeps_ending| |exact H3].
  intros w4 H4. now apply game_over_block_monotone.
Qed.

(** C7, as the code has it.  When [GameState.update] runs to its end on
    a result whose [game_over] is [true], the flag is set and the ending
    message is the one supplied, or ["Game Over"] when the result has
    none; and no [update], finished or not, clears a flag that is set. *)
Theorem C7_game_over_is_terminal
    (w w' : GameState.world) (r : dict)
    (Hover : dict_get r "game_over" = Some (JBool true))
    (Hdone : GameState.update (JObj r) w = (w', inr tt)) :
  GameState.is_game_over (fst w') = true
  /\ GameState.ending_message (fst w')
     = match dict_get r "ending_message" with
       | Some msg => msg
       | None => JStr "Game Over"
       end
  /\ forall (result : json) (w0 : GameState.world),
       GameState.is_game_over (fst w0) = true ->
       GameState.is_game_over (fst (fst (GameState.update result w0))) = true.
Proof.
  unfold GameState.update in Hdone.
  apply (bind_keeps_inv ending) in Hdone as (_ & w1 & _ & Hdone);
    [|apply player_block_keeps_ending].
  apply (bind_keeps_inv ending) in Hdone as (_ & w2 & _ & Hdone);
    [|apply characters_block_keeps_ending].
  apply (bind_keeps_inv ending) in Hdone as (_ & w3 & _ & Hdone);
    [|apply scene_block_keeps_ending].
  apply (bind_keeps_inv ending) in Hdone as (_ & w4 & _ & Hdone);
    [|apply move_block_keeps_ending].
  unfold GameState.game_over_block, bind, lift, ret, when, modify,
    py_in, py_getitem, py_get, dict_has in Hdone.
  rewrite Hover in Hdone. simpl in Hdone.
  split; [|split].
  - destruct (dict_get r "ending_message"); injection Hdone as <-; reflexivity.
  - destruct (dict_get r "ending_message"); injection Hdone as <-; reflexivity.
  - apply update_monotone.
Qed.

Lemma C7_witness :
  let w' := fst (GameState.update (JObj c7_result) c7_state) in
  GameState.is_game_over (fst w') = true
  /\ GameState.ending_message (fst w') = JStr "You died."
  /\ forall (result : json) (w0 : GameState.world),
       GameState.is_game_over (fst w0) = true ->
       GameState.is_game_over (fst (fst (GameState.update result w0))) = true.
Proof.
  apply (C7_game_over_is_terminal c7_state _ c7_result); reflexivity.
Defined.

(** The claim of C7 read for every result fails: a player delta whose
    [status] is not a map makes [update] raise in its first block, and
    the game is not over although the result says [game_over: true]. *)
Lemma C7_counterexample :
  dict_get c7_bad_result "game_over" = Some (JBool true)
  /\ snd (GameState.update (JObj c7_bad_result) c7_state)
     = raise AttributeError "object has no attribute 'items'"
  /\ GameState.is_game_over (fst (fst (GameState.update (JObj c7_bad_result) c7_state)))
     = false.
Proof. repeat split. Qed.

(** ** Character names within a scene *)

Section Respects.
Context {S : Type} (R : S -> S -> Prop).
Hypothesis R_refl : forall s, R s s.
Hypothesis R_trans : forall s1 s2 s3, R s1 s2 -> R s2 s3 -> R s1 s3.

Lemma respects_ret {A} (a : A) : respects R (ret a).
Proof. intros s. apply R_refl. Qed.

Lemma respects_lift {A} (r : res A) : respects R (lift r).
Proof. intros s. apply R_refl. Qed.

Lemma respects_bind {A B} (m : M S A) (k : A -> M S B) :
  respects R m -> (forall a, respects R (k a)) -> respects R (bind m k).
Proof.
  intros Hm Hk s. unfold bind. specialize (Hm s).
  destruct (m s) as [s' [e|a]]; simpl in *; auto.
  eapply R_trans; [exact Hm|apply Hk].
Qed.

Lemma respects_when (b : bool) (m : M S unit) :
  respects R m -> respects R (when b m).
Proof. destruct b; simpl; auto using respects_ret. Qed.

Lemma respects_for_each {A} (l : list A) (body : A -> M S unit) :
  (forall x, respects R (body x)) -> respects R (for_each l body).
Proof.
  intros Hb. induction l as [|x r IH]; simpl.
  - apply respects_ret.
  - apply respects_bind; auto.
Qed.
End Respects.

Lemma character_update_keeps_name (updates : json) :
  keeps Character.name (Character.update updates).
Proof.
  unfold Character.update, Character.apply_health, Character.apply_energy,
    Character.apply_status, Character.apply_add_items, Character.apply_remove_items.
  keeps_tac.
Qed.

Lemma npc_update_keeps_name (updates : json) :
  keeps NPC.name (NPC.update updates).
Proof.
  unfold NPC.update. apply keeps_bind.
  - intros n. unfold zoom.
    pose proof (character_update_keeps_name updates (NPC.base n)) as H.
    destruct (Character.update updates (NPC.base n)) as [c' r]. exact H.
  - intros _. keeps_tac.
Qed.

Lemma names_insert_same (l : list NPC.t) (i : nat) (npc npc' : NPC.t) :
  l !! i = Some npc -> NPC.name npc' = NPC.name npc ->
  map NPC.name (<[i := npc']> l) = map NPC.name l.
Proof.
  revert i. induction l as [|x r IH]; intros [|i] Hl Hn; simpl in *; try discriminate.
  - injection Hl as ->. now rewrite Hn.
  - f_equal. now apply IH.
Qed.

Lemma update_character_keeps_names (character_name : string) (updates : json) :
  keeps (fun sh : Scene.t * heap => Scene.names (fst sh))
        (GameState.update_character character_name updates).
Proof.
  intros [sc h]. unfold GameState.update_character. simpl.
  destruct (Scene.index_of (JStr character_name) (Scene.characters sc)) as [i|];
    [|reflexivity].
  destruct (Scene.characters sc !! i) as [npc|] eqn:El; [|reflexivity].
  pose proof (npc_update_keeps_name updates npc) as Hn.
  destruct (NPC.update updates npc) as [npc' r]. simpl in *.
  unfold Scene.names. simpl. now apply (names_insert_same _ _ npc).
Qed.

Lemma on_scene_keeps_scene_names {A} (m : M (Scene.t * heap) A) :
  keeps (fun sh : Scene.t * heap => Scene.names (fst sh)) m ->
  keeps scene_names (GameState.on_scene m).
Proof.
  intros Hm [g h]. unfold GameState.on_scene, scene_names. simpl.
  destruct (GameState.current_scene g) as [sc|] eqn:E; simpl; [|now rewrite E].
  specialize (Hm (sc, h)). destruct (m (sc, h)) as [[sc' h'] r]. simpl in *.
  now rewrite Hm.
Qed.

Lemma player_block_keeps_scene_names (result : json) :
  keeps scene_names (GameState.player_block result).
Proof.
  unfold GameState.player_block. keeps_tac.
  apply keeps_on_player. reflexivity.
Qed.

Lemma characters_block_keeps_scene_names (result : json) :
  keeps scene_names (GameState.characters_block result).
Proof.
  unfold GameState.characters_block. keeps_tac.
  apply on_scene_keeps_scene_names, update_character_keeps_names.
Qed.

Lemma move_block_keeps_scene_names (result : json) :
  keeps scene_names (GameState.move_block result).
Proof.
  unfold GameState.move_block. keeps_tac.
  apply keeps_modify. intros [g h]. unfold scene_names. simpl.
  destruct (GameState.current_scene g) eqn:E; simpl; now rewrite ?E.
Qed.

Lemma game_over_block_keeps_scene_names (result : json) :
  keeps scene_names (GameState.game_over_block result).
Proof. unfold GameState.game_over_block. keeps_tac. Qed.

Lemma unique_step_refl s : unique_step s s.
Proof. now intros H. Qed.

Lemma unique_step_trans s1 s2 s3 :
  unique_step s1 s2 -> unique_step s2 s3 -> unique_step s1 s3.
Proof. unfold unique_step. auto. Qed.

Lemma make_npc_name (char_data : json) (npc : NPC.t) :
  GameState.make_npc char_data = inr npc ->
  py_getitem char_data "name" = inr (NPC.name npc).
Proof.
  unfold GameState.make_npc.
  destruct (py_getitem char_data "name") as [e|n]; [discriminate|].
  destruct (py_getitem char_data "description") as [e|d]; [discriminate|].
  destruct (py_get char_data "attitude" (JStr "neutral")) as [e|a]; [discriminate|].
  intros H. injection H as <-. reflexivity.
Qed.

Lemma unique_app_l (l1 l2 : list json) :
  unique_names (l1 ++ l2) = true -> unique_names l1 = true.
Proof.
  induction l1 as [|x r IH]; simpl; auto.
  rewrite forallb_app. intros H.
  apply andb_true_iff in H as [H Hr]. apply andb_true_iff in H as [Hx _].
  now rewrite Hx, IH.
Qed.

Lemma unique_snoc (l : list json) (n : json) :
  unique_names l = true ->
  forallb (fun x => differs x n) l = true ->
  unique_names (l ++ [n]) = true.
Proof.
  induction l as [|x r IH]; simpl; auto.
  intros H Hn. apply andb_true_iff in H as [Hx Hr].
  apply andb_true_iff in Hn as [Hxn Hrn].
  rewrite forallb_app. simpl. now rewrite Hx, Hxn, IH.
Qed.

Lemma forallb_map_filter {A B} (q : B -> bool) (f : A -> B) (p : A -> bool)
    (l : list A) :
  forallb q (map f l) = true -> forallb q (map f (List.filter p l)) = true.
Proof.
  induction l as [|x r IH]; simpl; auto.
  intros H. apply andb_true_iff in H as [Hx Hr].
  destruct (p x); simpl; auto. now rewrite Hx, IH.
Qed.

Lemma unique_map_filter {A} (f : A -> json) (p : A -> bool) (l : list A) :
  unique_names (map f l) = true -> unique_names (map f (List.filter p l)) = true.
Proof.
  induction l as [|x r IH]; simpl; auto.
  intros H. apply andb_true_iff in H as [Hx Hr].
  destruct (p x); simpl; auto.
  now rewrite (forallb_map_filter _ f p r Hx), IH.
Qed.

(** The [add_characters] loop, also when it stops at a malformed entry. *)
Lemma add_loop_names (datas : list json) (sh : Scene.t * heap) :
  unique_names (Scene.names (fst sh) ++ added_names datas) = true ->
  unique_names
    (Scene.names
       (fst (fst (for_each datas
                    (fun char_data =>
                       npc <- lift (GameState.make_npc char_data);;
                       on_fst (modify (Scene.add_character npc))) sh)))) = true.
Proof.
  revert sh. induction datas as [|d r IH]; intros [sc h] H; simpl in *.
  - now rewrite app_nil_r in H.
  - unfold bind at 1. unfold bind at 1. unfold lift at 1.
    destruct (GameState.make_npc d) as [e|npc] eqn:E; simpl.
    + destruct (py_getitem d "name"); now apply unique_app_l in H.
    + rewrite (make_npc_name d npc E) in H.
      apply IH. simpl. unfold Scene.names, Scene.add_character. simpl.
      rewrite map_app. simpl. now rewrite <- app_assoc.
Qed.

Lemma bind_post {S A B} (Q : S -> Prop) (m : M S A) (k : A -> M S B) (s : S) :
  Q (fst (m s)) ->
  (forall a, respects (fun s1 s2 => Q s1 -> Q s2) (k a)) ->
  Q (fst (bind m k s)).
Proof.
  intros Hm Hk. unfold bind. destruct (m s) as [s1 [e|a]]; simpl in *; auto.
  now apply Hk.
Qed.

Ltac unique_steps :=
  repeat first
    [ apply (respects_ret unique_step unique_step_refl)
    | apply (respects_lift unique_step unique_step_refl)
    | apply (respects_when unique_step unique_step_refl)
    | apply (respects_for_each unique_step unique_step_refl unique_step_trans); intros ?
    | apply (respects_bind unique_step unique_step_trans); [|intros ?] ].

Lemma scene_updates_names (su : json) (sh : Scene.t * heap) :
  unique_names (Scene.names (fst sh) ++ su_names su) = true ->
  unique_names (Scene.names (fst (fst (GameState.apply_scene_updates su sh)))) = true.
Proof.
  intros H. unfold GameState.apply_scene_updates, su_names in *.
  unfold bind at 1, lift at 1.
  destruct (py_in "add_characters" su) as [e|has]; simpl;
    [now apply unique_app_l in H|].
  apply (bind_post (fun s => unique_names (Scene.names (fst s)) = true)).
  - destruct has; simpl; [|now apply unique_app_l in H].
    unfold bind at 1, lift at 1.
    destruct (py_getitem su "add_characters") as [e|src]; simpl;
      [now apply unique_app_l in H|].
    unfold bind at 1, lift at 1.
    destruct (py_iter src) as [e|datas]; simpl; [now apply unique_app_l in H|].
    now apply add_loop_names.
  - intros _. fold unique_step. unique_steps.
    + intros [sc h] Hn. unfold on_fst, zoom, modify. simpl.
      unfold Scene.names, Scene.remove_character in *. simpl.
      now apply unique_map_filter.
    + intros [sc h] Hn. unfold on_fst, zoom, get. simpl. exact Hn.
    + intros [sc h] Hn. unfold on_snd, zoom. simpl.
      destruct (Scene.add_connection _ _ _ h). simpl. exact Hn.
Qed.

Lemma scene_block_names (result : json) (w : GameState.world) (l : list json) :
  scene_names w = Some l ->
  unique_names (l ++ new_names result) = true ->
  exists l', scene_names (fst (GameState.scene_block result w)) = Some l'
             /\ unique_names l' = true.
Proof.
  destruct w as [g h]. unfold scene_names. simpl.
  destruct (GameState.current_scene g) as [sc|] eqn:E; [|discriminate].
  simpl. intros Hl Hnd. injection Hl as <-.
  assert (Hsame : exists l', option_map Scene.names (GameState.current_scene g) = Some l'
                             /\ unique_names l' = true).
  { rewrite E. simpl. eexists; split; eauto using unique_app_l. }
  unfold GameState.scene_block, bind at 1, get at 1. simpl.
  unfold GameState.has_scene. rewrite E. simpl.
  unfold bind at 1, lift at 1.
  destruct (py_in "scene_updates" result) as [e|[|]]; simpl; auto.
  unfold new_names in Hnd. unfold bind at 1, lift at 1.
  destruct (py_getitem result "scene_updates") as [e|su]; simpl; auto.
  unfold GameState.on_scene. simpl. rewrite E.
  pose proof (scene_updates_names su (sc, h) Hnd) as Hsu.
  destruct (GameState.apply_scene_updates su (sc, h)) as [[sc' h'] r]. simpl in *.
  eauto.
Qed.

Lemma keeps_scene_names_step {A} (m : M GameState.world A) (w : GameState.world) :
  keeps scene_names m ->
  (exists l, scene_names w = Some l /\ unique_names l = true) ->
  exists l, scene_names (fst (m w)) = Some l /\ unique_names l = true.
Proof. intros Hk H. now rewrite Hk. Qed.

(** *** Names of a constructed scene *)

Lemma build_npc_name (char_data : json) (npc : NPC.t) :
  DungeonMaster.build_npc char_data = inr npc ->
  py_getitem char_data "name" = inr (NPC.name npc).
Proof.
  unfold DungeonMaster.build_npc, DungeonMaster.res_bind.
  destruct (py_get char_data "inventory" (JArr [])); [discriminate|].
  destruct (py_iter _); [discriminate|].
  destruct (map_res DungeonMaster.build_item _); [discriminate|].
  destruct (py_get char_data "skills" (JArr [])); [discriminate|].
  destruct (py_iter _); [discriminate|].
  destruct (map_res DungeonMaster.build_skill _); [discriminate|].
  destruct (py_getitem char_data "name") as [e|n]; [discriminate|].
  destruct (py_getitem char_data "description"); [discriminate|].
  destruct (py_get char_data "attitude" (JStr "neutral")); [discriminate|].
  intros H. injection H as <-. reflexivity.
Qed.

Lemma built_names (datas : list json) (npcs : list NPC.t) :
  map_res DungeonMaster.build_npc datas = inr npcs ->
  map NPC.name npcs = added_names datas.
Proof.
  revert npcs. induction datas as [|d r IH]; simpl; intros npcs H.
  - now injection H as <-.
  - destruct (DungeonMaster.build_npc d) as [e|npc] eqn:E; [discriminate|].
    destruct (map_res DungeonMaster.build_npc r) as [e|rest]; [discriminate|].
    injection H as <-. rewrite (build_npc_name d npc E). simpl.
    now rewrite (IH rest).
Qed.

(** A scene built from a definition has the names of the definition's
    character list, in order: nothing is checked or dropped. *)
Lemma constructed_names (scene_data : DungeonMaster.raw_scene) (scene_id : json)
    (h h' : heap) (sc : Scene.t) :
  DungeonMaster._create_scene_from_data scene_data scene_id h = (h', inr sc) ->
  Scene.names sc = definition_names (DungeonMaster.rs_fields scene_data).
Proof.
  unfold DungeonMaster._create_scene_from_data, definition_names.
  unfold bind at 1.
  destruct ((if truthy scene_id then ret scene_id
             else lift (py_get (DungeonMaster.rs_fields scene_data) "id" JNull)) h)
    as [h0 [e|sid]]; [discriminate|].
  unfold bind at 1, lift at 1.
  destruct (DungeonMaster.build_characters _) as [e|npcs] eqn:Eb; [discriminate|].
  unfold DungeonMaster.build_characters, DungeonMaster.res_bind in Eb.
  destruct (py_get _ "characters" (JArr [])) as [e|src]; [discriminate|].
  destruct (py_iter src) as [e|datas]; [discriminate|].
  apply built_names in Eb. rewrite <- Eb. clear Eb.
  unfold bind, ret, lift, when.
  destruct (negb (truthy sid)); simpl; [discriminate|].
  destruct (py_getitem _ "title"); [discriminate|].
  destruct (py_getitem _ "description"); [discriminate|].
  destruct (DungeonMaster.rs_conn scene_data); simpl;
    intros H; injection H as _ <-; reflexivity.
Qed.

(** C8, as the code has it.  No code path checks a character's name.
    A scene built from a definition has exactly the names of the
    definition's character list; [Scene.add_character] appends the name it
    is given.  So the names of a scene, compared with [==], are unique
    after construction exactly when the definition's are; they stay
    unique through [Scene.add_character] when the new name is [==] to none
    of them; and they stay unique through [GameState.update] when they
    were unique and the names under [add_characters] are [==] neither to
    one another nor to a name already there. *)
Theorem C8_names_unique_when_added_names_are_new
    (result : json) (w : GameState.world) (l : list json)
    (Hscene : scene_names w = Some l)
    (Hnew : unique_names (l ++ new_names result) = true) :
  (exists l', scene_names (fst (GameState.update result w)) = Some l'
              /\ unique_names l' = true)
  /\ (forall (sc : Scene.t) (npc : NPC.t),
        Scene.names (Scene.add_character npc sc) = Scene.names sc ++ [NPC.name npc]
        /\ (unique_names (Scene.names sc) = true ->
            forallb (fun x => differs x (NPC.name npc)) (Scene.names sc) = true ->
            unique_names (Scene.names (Scene.add_character npc sc)) = true))
  /\ (forall (scene_data : DungeonMaster.raw_scene) (scene_id : json)
             (h h' : heap) (sc : Scene.t),
        DungeonMaster._create_scene_from_data scene_data scene_id h = (h', inr sc) ->
        Scene.names sc = definition_names (DungeonMaster.rs_fields scene_data)).
Proof.
  split; [|split].
  - unfold GameState.update.
    assert (tail : forall (m k : M GameState.world unit) s,
              (exists l, scene_names (fst (m s)) = Some l /\ unique_names l = true) ->
              (forall s1, (exists l, scene_names s1 = Some l /\ unique_names l = true) ->
                          exists l, scene_names (fst (k s1)) = Some l
                                    /\ unique_names l = true) ->
              exists l, scene_names (fst (bind m (fun _ => k) s)) = Some l
                        /\ unique_names l = true).
    { intros m k s Hm Hk. unfold bind.
      destruct (m s) as [s1 [e|[]]]; simpl in *; auto. }
    pose proof (player_block_keeps_scene_names result w) as E1.
    pose proof (characters_block_keeps_scene_names result
                  (fst (GameState.player_block result w))) as E2.
    unfold bind at 1.
    destruct (GameState.player_block result w) as [w1 [e|[]]]; simpl in *.
    { rewrite E1, Hscene. eauto using unique_app_l. }
    unfold bind at 1.
    destruct (GameState.characters_block result w1) as [w2 [e|[]]]; simpl in *.
    { rewrite E2, E1, Hscene. eauto using unique_app_l. }
    assert (Hw2 : scene_names w2 = Some l) by now rewrite E2, E1.
    apply tail; [now apply (scene_block_names result w2 l)|].
    intros w3 H3. apply tail.
    + now apply keeps_scene_names_step; [apply move_block_keeps_scene_names|].
    + intros w4 H4.
      now apply keeps_scene_names_step; [apply game_over_block_keeps_scene_names|].
  - intros sc npc.
    assert (E : Scene.names (Scene.add_character npc sc)
                = Scene.names sc ++ [NPC.name npc]).
    { unfold Scene.names, Scene.add_character. simpl. now rewrite map_app. }
    split; [exact E|]. rewrite E. apply unique_snoc.
  - apply constructed_names.
Qed.

Lemma C8_witness :
  (exists l', scene_names (fst (GameState.update c8_result c8_state)) = Some l'
              /\ unique_names l' = true)
  /\ (forall (sc : Scene.t) (npc : NPC.t),
        Scene.names (Scene.add_character npc sc) = Scene.names sc ++ [NPC.name npc]
        /\ (unique_names (Scene.names sc) = true ->
            forallb (fun x => differs x (NPC.name npc)) (Scene.names sc) = true ->
            unique_names (Scene.names (Scene.add_character npc sc)) = true))
  /\ (forall (scene_data : DungeonMaster.raw_scene) (scene_id : json)
             (h h' : heap) (sc : Scene.t),
        DungeonMaster._create_scene_from_data scene_data scene_id h = (h', inr sc) ->
        Scene.names sc = definition_names (DungeonMaster.rs_fields scene_data)).
Proof.
  apply (C8_names_unique_when_added_names_are_new c8_result c8_state [JStr "Bob"]).
  - reflexivity.
  - reflexivity.
Defined.

(** The claim of C8 fails on each of its three paths: [add_characters]
    with a name the scene already has leaves two characters called Bob,
    so does [add_character], and so does the construction of a scene from
    a definition that lists Bob twice. *)
Lemma C8_counterexample :
  scene_names (fst (GameState.update c8_bad_result c8_state))
    = Some [JStr "Bob"; JStr "Bob"]
  /\ Scene.names (Scene.add_character bob gate) = [JStr "Bob"; JStr "Bob"]
  /\ (exists h' sc,
        DungeonMaster._create_scene_from_data twins (JStr "barracks") [] = (h', inr sc)
        /\ Scene.names sc = [JStr "Bob"; JStr "Bob"])
  /\ unique_names [JStr "Bob"; JStr "Bob"] = false.
Proof.
  split; [reflexivity|]. split; [reflexivity|]. split; [|reflexivity].
  do 2 eexists. split; reflexivity.
Qed.

(** ** Dungeon master *)

(** C3.  [resolve_action] always returns a dict and never raises; when
    the generation call fails, the dict has [success] false and a
    description that is not empty. *)
Theorem C3_resolve_action_never_raises
    (llm : oracle) (action : string) (game_state : GameState.t)
    (s : DungeonMaster.session) :
  exists s' r,
    DungeonMaster.resolve_action llm action game_state s = (s', inr r)
    /\ forall e,
         call_llm_with_json_response
           (llm (List.length (DungeonMaster.calls (fst s))))
           DungeonMaster._validate_action_result = inl e ->
         py_getitem r "success" = inr (JBool false)
         /\ exists d, py_getitem r "description" = inr (JStr d) /\ d <> "".
Proof.
  unfold DungeonMaster.resolve_action, try_except, bind, get, modify, lift. simpl.
  destruct (call_llm_with_json_response _ _) as [e|j].
  - destruct (exn_kind_of e); simpl; do 2 eexists; (split; [reflexivity|]);
      intros _ _; (split; [reflexivity|]); eexists; (split; [reflexivity|]);
      discriminate.
  - do 2 eexists. split; [reflexivity|]. discriminate.
Qed.

Lemma C3_witness :
  exists s' r,
    DungeonMaster.resolve_action unreachable_llm "open the door" GameState.initial
      fresh_session = (s', inr r)
    /\ py_getitem r "success" = inr (JBool false)
    /\ exists d, py_getitem r "description" = inr (JStr d) /\ d <> "".
Proof.
  destruct (C3_resolve_action_never_raises unreachable_llm "open the door"
              GameState.initial fresh_session) as (s' & r & Hrun & Hfail).
  exists s', r. split; [exact Hrun|].
  exact (Hfail _ eq_refl).
Defined.

Lemma location_name_for_ok (game_state : GameState.t) (scene_id : string) (h : heap) :
  connections_ok game_state h ->
  exists loc, DungeonMaster.location_name_for game_state scene_id h = (h, inr loc).
Proof.
  unfold connections_ok, DungeonMaster.location_name_for.
  destruct (GameState.current_scene game_state) as [sc|].
  - intros [kv Hkv]. unfold bind, get. simpl. rewrite Hkv. simpl. eauto.
  - intros _. unfold ret. eauto.
Qed.

Lemma lookup_snoc {A} (l : list A) (x : A) : (l ++ [x]) !! List.length l = Some x.
Proof. induction l; simpl; auto. Qed.

(** What both [except] branches return. *)
Lemma fallback_scene_spec (title description : string) (game_state : GameState.t)
    (scene_id : string) (h : heap) :
  scene_id <> "" ->
  DungeonMaster.fallback_scene title description game_state scene_id h
  = (h ++ [JObj (path_back game_state)],
     inr (Scene.mk (JStr scene_id) (JStr title) (JStr description) []
            (List.length h) [])).
Proof.
  intros Hid.
  assert (E : String.eqb scene_id "" = false).
  { destruct (String.eqb scene_id "") eqn:E; auto.
    apply String.eqb_eq in E. contradiction. }
  unfold DungeonMaster.fallback_scene, DungeonMaster._create_scene_from_data,
    bind, alloc, lift, ret, when, truthy. simpl.
  rewrite E. simpl. rewrite E. reflexivity.
Qed.

(** C1, as the code has it.  When the generation call fails,
    [_generate_new_scene] returns a placeholder scene with the requested
    id and no characters; its connections hold exactly ["Path Back"],
    targeting the current scene's id, when there is a current scene, and
    are empty when there is none.  Nothing is written to [scene_memory]. *)
Theorem C1_fallback_scene_on_failure
    (llm : oracle) (game_state : GameState.t) (scene_id : string)
    (s : DungeonMaster.session) (e : exn)
    (Hid : scene_id <> "")
    (Hconn : connections_ok game_state (snd s))
    (Hfail : call_llm_with_json_response
               (llm (List.length (DungeonMaster.calls (fst s))))
               DungeonMaster._validate_scene_data = inl e) :
  exists s' sc,
    DungeonMaster._generate_new_scene llm game_state scene_id s = (s', inr sc)
    /\ Scene.id sc = JStr scene_id
    /\ Scene.characters sc = []
    /\ Scene.connections_of (snd s') sc = Some (JObj (path_back game_state))
    /\ DungeonMaster.scene_memory (fst s') = DungeonMaster.scene_memory (fst s).
Proof.
  destruct s as [d h]. simpl in *.
  destruct (location_name_for_ok game_state scene_id h Hconn) as [loc Hloc].
  unfold DungeonMaster._generate_new_scene.
  unfold bind at 1, on_snd at 1, zoom. simpl. rewrite Hloc. simpl.
  unfold try_except, DungeonMaster.generation_attempt, bind, get, modify, lift.
  simpl. rewrite Hfail. simpl.
  unfold DungeonMaster.generation_fallback, on_snd, zoom. simpl.
  destruct (DungeonMaster.caught_first e);
    rewrite fallback_scene_spec by exact Hid; simpl;
    do 2 eexists; (split; [reflexivity|]); simpl;
    repeat split; apply lookup_snoc.
Qed.

Lemma C1_witness :
  exists s' sc,
    DungeonMaster._generate_new_scene unreachable_llm at_gate "cave" gate_session
      = (s', inr sc)
    /\ Scene.id sc = JStr "cave"
    /\ Scene.characters sc = []
    /\ Scene.connections_of (snd s') sc = Some (JObj [("Path Back", JStr "gate")])
    /\ DungeonMaster.scene_memory (fst s') = [].
Proof.
  apply (C1_fallback_scene_on_failure unreachable_llm at_gate "cave" gate_session
           (Exn LLMResponseError "Error making LLM call: connection refused")).
  - discriminate.
  - exists [("Dark Cave", JStr "cave")]. reflexivity.
  - reflexivity.
Defined.

(** The claim of C1 fails when there is no current scene: the fallback
    scene is returned with an empty connections dict. *)
Lemma C1_counterexample :
  DungeonMaster._generate_new_scene unreachable_llm GameState.initial "cave"
    fresh_session
  = ((DungeonMaster.mk (DungeonMaster.Scenario None None) []
        [ReqScene "cave" None], [JObj []]),
     inr (Scene.mk (JStr "cave") (JStr DungeonMaster.mysterious_area)
            (JStr DungeonMaster.mysterious_text) [] O []))
  /\ Scene.connections_of [JObj []]
       (Scene.mk (JStr "cave") (JStr DungeonMaster.mysterious_area)
          (JStr DungeonMaster.mysterious_text) [] O [])
     = Some (JObj []).
Proof. split; reflexivity. Qed.

(** *** Building a scene from a definition *)

Lemma map_res_ok {A B} (p : A -> bool) (f : A -> res B) (l : list A) :
  (forall x, p x = true -> exists y, f x = inr y) ->
  forallb p l = true -> exists ys, map_res f l = inr ys.
Proof.
  intros Hp. induction l as [|x r IH]; simpl; intros H.
  - eauto.
  - apply andb_true_iff in H as [Hx Hr].
    destruct (Hp x Hx) as [y ->]. destruct (IH Hr) as [ys ->]. eauto.
Qed.

Lemma dict_has_get {V} (d : list (string * V)) (k : string) :
  dict_has d k = true -> exists v, dict_get d k = Some v.
Proof. unfold dict_has. destruct (dict_get d k); eauto. discriminate. Qed.

Lemma build_item_ok (d : json) :
  item_ok d = true -> exists it, DungeonMaster.build_item d = inr it.
Proof.
  destruct d as [| | | | |kv]; simpl; try discriminate.
  intros H. apply andb_true_iff in H as [Hn Hd].
  apply dict_has_get in Hn as [n Hn]. apply dict_has_get in Hd as [dd Hd].
  unfold DungeonMaster.build_item, Character.make_item. simpl.
  rewrite Hn, Hd. destruct (dict_get kv "properties"); eauto.
Qed.

Lemma build_skill_ok (d : json) :
  skill_ok d = true -> exists sk, DungeonMaster.build_skill d = inr sk.
Proof.
  destruct d as [| | | | |kv]; simpl; try discriminate.
  intros H. apply andb_true_iff in H as [H Hc]. apply andb_true_iff in H as [Hn Hd].
  apply dict_has_get in Hn as [n Hn]. apply dict_has_get in Hd as [dd Hd].
  apply dict_has_get in Hc as [c Hc].
  unfold DungeonMaster.build_skill. simpl.
  rewrite Hn, Hd, Hc. destruct (dict_get kv "properties"); eauto.
Qed.

(** [c.get(k, [])] followed by the loop over it, on a well-formed list. *)
Lemma build_list_ok {B} (p : json -> bool) (f : json -> res B) (kv : dict)
    (k : string) {C} (rest : list B -> res C) :
  (forall x, p x = true -> exists y, f x = inr y) ->
  list_ok p (dict_get kv k) = true ->
  exists ys,
    DungeonMaster.res_bind (py_get (JObj kv) k (JArr []))
      (fun src => DungeonMaster.res_bind (py_iter src)
         (fun datas => DungeonMaster.res_bind (map_res f datas) rest))
    = rest ys.
Proof.
  intros Hp H. unfold list_ok in H. simpl.
  destruct (dict_get kv k) as [[| | | |l|]|]; try discriminate; simpl.
  - destruct (map_res_ok p f l Hp H) as [ys ->]. simpl. eauto.
  - eauto.
Qed.

Lemma build_npc_ok (d : json) :
  npc_ok d = true -> exists npc, DungeonMaster.build_npc d = inr npc.
Proof.
  destruct d as [| | | | |kv]; simpl; try discriminate.
  intros H. apply andb_true_iff in H as [H Hsk]. apply andb_true_iff in H as [H Hinv].
  apply andb_true_iff in H as [Hn Hd].
  apply dict_has_get in Hn as [n Hn]. apply dict_has_get in Hd as [dd Hd].
  unfold DungeonMaster.build_npc.
  destruct (build_list_ok item_ok DungeonMaster.build_item kv "inventory"
              (fun inventory =>
    DungeonMaster.res_bind (py_get (JObj kv) "skills" (JArr [])) (fun skill_src =>
    DungeonMaster.res_bind (py_iter skill_src) (fun skill_datas =>
    DungeonMaster.res_bind (map_res DungeonMaster.build_skill skill_datas) (fun skills =>
    DungeonMaster.res_bind (py_getitem (JObj kv) "name") (fun n =>
    DungeonMaster.res_bind (py_getitem (JObj kv) "description") (fun d =>
    DungeonMaster.res_bind (py_get (JObj kv) "attitude" (JStr "neutral")) (fun a =>
    inr (NPC.new n d a inventory skills))))))))
              build_item_ok Hinv) as [inv ->].
  destruct (build_list_ok skill_ok DungeonMaster.build_skill kv "skills"
              (fun skills =>
    DungeonMaster.res_bind (py_getitem (JObj kv) "name") (fun n =>
    DungeonMaster.res_bind (py_getitem (JObj kv) "description") (fun d =>
    DungeonMaster.res_bind (py_get (JObj kv) "attitude" (JStr "neutral")) (fun a =>
    inr (NPC.new n d a inv skills)))))
              build_skill_ok Hsk) as [sk ->].
  simpl. rewrite Hn, Hd. simpl. destruct (dict_get kv "attitude"); simpl; eauto.
Qed.

Lemma build_characters_ok (kv : dict) :
  list_ok npc_ok (dict_get kv "characters") = true ->
  exists npcs, DungeonMaster.build_characters (JObj kv) = inr npcs.
Proof.
  intros H. unfold DungeonMaster.build_characters.
  destruct (build_list_ok npc_ok DungeonMaster.build_npc kv "characters"
              (fun npcs => inr npcs) build_npc_ok H) as [npcs Hn].
  exists npcs. rewrite <- Hn. simpl.
  destruct (dict_get kv "characters"); simpl; auto;
    destruct (py_iter _); simpl; auto; destruct (map_res _ _); auto.
Qed.

(** A scene built with an id that is given carries that id. *)
Lemma create_from_data_id (scene_data : DungeonMaster.raw_scene) (scene_id : json)
    (h h' : heap) (sc : Scene.t) :
  truthy scene_id = true ->
  DungeonMaster._create_scene_from_data scene_data scene_id h = (h', inr sc) ->
  Scene.id sc = scene_id.
Proof.
  intros Ht. unfold DungeonMaster._create_scene_from_data.
  rewrite Ht. unfold bind, ret, lift, when. rewrite Ht. simpl.
  destruct (DungeonMaster.build_characters _); [discriminate|].
  destruct (py_getitem _ "title"); [discriminate|].
  destruct (py_getitem _ "description"); [discriminate|].
  destruct (DungeonMaster.rs_conn scene_data); simpl;
    intros H; injection H as _ <-; reflexivity.
Qed.

Lemma create_from_data_ok (scene_data : DungeonMaster.raw_scene) (scene_id : json)
    (h : heap) :
  truthy scene_id = true ->
  definition_ok (DungeonMaster.rs_fields scene_data) = true ->
  exists h' sc, DungeonMaster._create_scene_from_data scene_data scene_id h = (h', inr sc).
Proof.
  intros Ht Hok. unfold DungeonMaster._create_scene_from_data.
  rewrite Ht. unfold bind, ret, lift, when. rewrite Ht. simpl.
  destruct (DungeonMaster.rs_fields scene_data) as [| | | | |kv]; try discriminate.
  simpl in Hok. apply andb_true_iff in Hok as [Hok Hc].
  apply andb_true_iff in Hok as [Htitle Hdesc].
  destruct (build_characters_ok kv Hc) as [npcs ->].
  apply dict_has_get in Htitle as [t Htitle].
  apply dict_has_get in Hdesc as [dd Hdesc].
  simpl. rewrite Htitle, Hdesc.
  destruct (DungeonMaster.rs_conn scene_data); simpl; eauto.
Qed.

Lemma given_nonempty (target : string) :
  target <> "" -> DungeonMaster.given (Some target) = Some target.
Proof.
  intros H. unfold DungeonMaster.given.
  destruct (String.eqb target "") eqn:E; auto.
  apply String.eqb_eq in E. contradiction.
Qed.

Lemma truthy_nonempty (target : string) : target <> "" -> truthy (JStr target) = true.
Proof.
  intros H. simpl. destruct (String.eqb target "") eqn:E; auto.
  apply String.eqb_eq in E. contradiction.
Qed.

(** A predefined target: the outcome of [create_scene] is the outcome of
    building its definition, and the session only changes in the store. *)
Lemma create_scene_predefined (llm : oracle) (game_state : GameState.t)
    (target : string) (s : DungeonMaster.session)
    (sc : list (string * DungeonMaster.raw_scene)) (raw : DungeonMaster.raw_scene) :
  target <> "" ->
  DungeonMaster.scenes (DungeonMaster.scenario (fst s)) = Some sc ->
  dict_get sc target = Some raw ->
  DungeonMaster.create_scene llm game_state (Some target) s
  = let '(h', r) := DungeonMaster._create_scene_from_data raw (JStr target) (snd s) in
    ((fst s, h'), r).
Proof.
  intros Hid Hsc Hraw. destruct s as [d h]. simpl in *.
  unfold DungeonMaster.create_scene. rewrite (given_nonempty target Hid).
  assert (E : DungeonMaster.resolve_target llm game_state target (d, h)
              = let '(h', r) :=
                  DungeonMaster._create_scene_from_data raw (JStr target) h in
                ((d, h'), r)).
  { unfold DungeonMaster.resolve_target, bind at 1, get at 1. simpl.
    rewrite Hsc. unfold dict_has. rewrite Hraw.
    unfold DungeonMaster._create_scene_from_scenario, bind, get. simpl.
    rewrite Hsc, Hraw. unfold on_snd, zoom. simpl. reflexivity. }
  destruct (GameState.current_scene game_state); exact E.
Qed.

Lemma create_from_data_raises (scene_data : DungeonMaster.raw_scene) (scene_id : json)
    (h : heap) :
  lacks_required (DungeonMaster.rs_fields scene_data) = true ->
  raises (snd (DungeonMaster._create_scene_from_data scene_data scene_id h)).
Proof.
  intros Hlack. unfold raises, DungeonMaster._create_scene_from_data.
  unfold bind, ret, lift, when.
  destruct (DungeonMaster.rs_fields scene_data) as [| | | | |kv] eqn:Ef;
    try (destruct (truthy scene_id); simpl; eauto).
  - simpl in Hlack.
    destruct (DungeonMaster.build_characters (JObj kv)); simpl; eauto.
    destruct (negb (truthy scene_id)); simpl; eauto.
    unfold dict_has in Hlack.
    destruct (dict_get kv "title"); simpl; eauto.
    destruct (dict_get kv "description"); simpl; eauto. discriminate.
  - simpl in Hlack. destruct (dict_get kv "id") as [sid|]; simpl.
    + destruct (DungeonMaster.build_characters (JObj kv)); simpl; eauto.
      destruct (negb (truthy sid)); simpl; eauto.
      unfold dict_has in Hlack.
      destruct (dict_get kv "title"); simpl; eauto.
      destruct (dict_get kv "description"); simpl; eauto. discriminate.
    + destruct (DungeonMaster.build_characters (JObj kv)); simpl; eauto.
Qed.

(** C4, as the code has it.  For a non-empty target that is a key of the
    scenario's scene map, [create_scene] sends no request to the
    generator and leaves [scene_memory] alone; whenever it returns a
    scene, the scene's id is the target; it does return one when the
    predefined definition is well formed; and it raises instead of
    returning a scene when the definition is not a dict or lacks its title
    or its description. *)
Theorem C4_predefined_scene_without_generation
    (llm : oracle) (game_state : GameState.t) (target : string)
    (s : DungeonMaster.session)
    (sc : list (string * DungeonMaster.raw_scene)) (raw : DungeonMaster.raw_scene)
    (Hid : target <> "")
    (Hscenes : DungeonMaster.scenes (DungeonMaster.scenario (fst s)) = Some sc)
    (Hkey : dict_get sc target = Some raw) :
  let out := DungeonMaster.create_scene llm game_state (Some target) s in
  DungeonMaster.calls (fst (fst out)) = DungeonMaster.calls (fst s)
  /\ DungeonMaster.scene_memory (fst (fst out)) = DungeonMaster.scene_memory (fst s)
  /\ (forall scene, snd out = inr scene -> Scene.id scene = JStr target)
  /\ (definition_ok (DungeonMaster.rs_fields raw) = true ->
      is_scene_with_id (snd out) (JStr target))
  /\ (lacks_required (DungeonMaster.rs_fields raw) = true -> raises (snd out)).
Proof.
  cbv zeta. rewrite (create_scene_predefined llm game_state target s sc raw Hid Hscenes Hkey).
  pose proof (create_from_data_id raw (JStr target) (snd s)) as Hsame.
  pose proof (create_from_data_ok raw (JStr target) (snd s)
                (truthy_nonempty target Hid)) as Hok.
  pose proof (create_from_data_raises raw (JStr target) (snd s)) as Hraise.
  destruct (DungeonMaster._create_scene_from_data raw (JStr target) (snd s))
    as [h' r]. simpl in *.
  split; [reflexivity|]. split; [reflexivity|]. split; [|split].
  - intros scene ->. apply (Hsame h' scene (truthy_nonempty target Hid) eq_refl).
  - intros Hdef. destruct (Hok Hdef) as (h2 & scene & E).
    injection E as _ ->. exists scene. split; [reflexivity|].
    apply (Hsame h' scene (truthy_nonempty target Hid) eq_refl).
  - exact Hraise.
Qed.

Lemma C4_witness :
  let out := DungeonMaster.create_scene unreachable_llm GameState.initial
               (Some "library") library_session in
  DungeonMaster.calls (fst (fst out)) = []
  /\ DungeonMaster.scene_memory (fst (fst out)) = []
  /\ (forall scene, snd out = inr scene -> Scene.id scene = JStr "library")
  /\ (definition_ok library_fields = true ->
      is_scene_with_id (snd out) (JStr "library"))
  /\ (lacks_required library_fields = true -> raises (snd out)).
Proof.
  apply (C4_predefined_scene_without_generation unreachable_llm GameState.initial
           "library" library_session library_scenes
           (DungeonMaster.Raw library_fields (Some 1%nat))).
  - discriminate.
  - reflexivity.
  - reflexivity.
Defined.

(** The claim of C4 fails in two ways.  A predefined definition that
    lacks its description makes [create_scene] raise [KeyError] instead of
    returning a scene; and a scene map that has the empty string as a key
    is never consulted for it, so the current scene comes back. *)
Lemma C4_counterexample :
  snd (DungeonMaster.create_scene unreachable_llm GameState.initial
         (Some "library") broken_library_session)
    = raise KeyError "description"
  /\ snd (DungeonMaster.create_scene unreachable_llm at_gate (Some "")
            nameless_session)
     = inr gate
  /\ Scene.id gate <> JStr "".
Proof. repeat split. discriminate. Qed.

(** *** Scene memory *)

Lemma call_ok_inv (o : llm_outcome) (v : json -> res unit) (j : json) :
  call_llm_with_json_response o v = inr j -> o = Parsed j /\ v j = inr tt.
Proof.
  unfold call_llm_with_json_response, llm_error, raise.
  destruct o as [m|m|j']; try discriminate.
  destruct j'; try discriminate.
  destruct (v (JObj kv)) as [e|[]] eqn:E; [discriminate|].
  intros H. injection H as <-. auto.
Qed.

Lemma on_snd_fst {S T A} (m : M T A) (s : S * T) : fst (fst (on_snd m s)) = fst s.
Proof. unfold on_snd, zoom. now destruct (m (snd s)). Qed.

(** Both fallbacks only allocate. *)
Lemma fallback_keeps_dm (game_state : GameState.t) (scene_id : string) (e : exn)
    (s : DungeonMaster.session) :
  fst (fst (DungeonMaster.generation_fallback game_state scene_id e s)) = fst s.
Proof.
  unfold DungeonMaster.generation_fallback.
  destruct (DungeonMaster.caught_first e); apply on_snd_fst.
Qed.

Lemma load_ok (j : json) (h : heap) :
  exists h1 raw, DungeonMaster.load j h = (h1, inr raw).
Proof.
  unfold DungeonMaster.load. destruct j; try (unfold ret; eauto).
  destruct (dict_get kv "connections"); unfold bind, alloc, ret; simpl; eauto.
Qed.

Lemma generate_run (llm : oracle) (game_state : GameState.t) (scene_id : string)
    (s : DungeonMaster.session) :
  connections_ok game_state (snd s) ->
  exists loc,
    DungeonMaster._generate_new_scene llm game_state scene_id s
    = try_except (DungeonMaster.generation_attempt llm scene_id loc)
        (DungeonMaster.generation_fallback game_state scene_id) s.
Proof.
  destruct s as [d h]. simpl. intros Hconn.
  destruct (location_name_for_ok game_state scene_id h Hconn) as [loc Hloc].
  exists loc. unfold DungeonMaster._generate_new_scene.
  unfold bind at 1, on_snd at 1, zoom. simpl. now rewrite Hloc.
Qed.

Lemma load_holds (j : json) (h h1 : heap) (raw : DungeonMaster.raw_scene) :
  DungeonMaster.load j h = (h1, inr raw) -> holds_answer j raw h1.
Proof.
  unfold DungeonMaster.load, holds_answer.
  destruct j; try (unfold ret; intros H; injection H as _ <-; reflexivity).
  destruct (dict_get kv "connections") as [c|].
  - unfold bind, alloc, ret. simpl. intros H. injection H as <- <-. simpl.
    split; [reflexivity|]. exists (List.length h). split; [reflexivity|].
    apply lookup_snoc.
  - unfold ret. intros H. injection H as _ <-. reflexivity.
Qed.

Lemma holds_answer_app (j : json) (raw : DungeonMaster.raw_scene) (h ext : heap) :
  holds_answer j raw h -> holds_answer j raw (h ++ ext).
Proof.
  unfold holds_answer. destruct j; auto.
  destruct (dict_get kv "connections"); auto.
  intros (Hf & l & Hl & Hc). split; [exact Hf|]. exists l. split; [exact Hl|].
  now apply lookup_app_l_Some.
Qed.

(** Building a scene only ever appends to the store. *)
Lemma create_from_data_heap (scene_data : DungeonMaster.raw_scene) (scene_id : json)
    (h : heap) :
  exists ext, fst (DungeonMaster._create_scene_from_data scene_data scene_id h) = h ++ ext.
Proof.
  assert (Hsame : h = h ++ []) by now rewrite app_nil_r.
  unfold DungeonMaster._create_scene_from_data, bind, ret, lift, when, alloc.
  destruct (truthy scene_id); simpl.
  - destruct (DungeonMaster.build_characters _); simpl; eauto.
    destruct (negb (truthy scene_id)); simpl; eauto.
    destruct (py_getitem _ "title"); simpl; eauto.
    destruct (py_getitem _ "description"); simpl; eauto.
    destruct (DungeonMaster.rs_conn scene_data); simpl; eauto.
  - destruct (py_get _ "id" JNull) as [e|sid]; simpl; eauto.
    destruct (DungeonMaster.build_characters _); simpl; eauto.
    destruct (negb (truthy sid)); simpl; eauto.
    destruct (py_getitem _ "title"); simpl; eauto.
    destruct (py_getitem _ "description"); simpl; eauto.
    destruct (DungeonMaster.rs_conn scene_data); simpl; eauto.
Qed.

Lemma fallback_scene_heap (title description : string) (game_state : GameState.t)
    (scene_id : string) (h : heap) :
  exists ext,
    fst (DungeonMaster.fallback_scene title description game_state scene_id h) = h ++ ext.
Proof.
  unfold DungeonMaster.fallback_scene. unfold bind at 1, alloc at 1.
  cbv beta iota zeta.
  match goal with
  | |- context [DungeonMaster._create_scene_from_data ?r ?i (h ++ [?v])] =>
      destruct (create_from_data_heap r i (h ++ [v])) as [ext E]; exists ([v] ++ ext);
      rewrite E
  end.
  now rewrite <- app_assoc.
Qed.

Lemma fallback_heap (game_state : GameState.t) (scene_id : string) (e : exn)
    (s : DungeonMaster.session) :
  exists ext,
    snd (fst (DungeonMaster.generation_fallback game_state scene_id e s)) = snd s ++ ext.
Proof.
  unfold DungeonMaster.generation_fallback, on_snd, zoom.
  destruct (DungeonMaster.caught_first e).
  - destruct (fallback_scene_heap DungeonMaster.mysterious_area
                DungeonMaster.mysterious_text game_state scene_id (snd s)) as [ext E].
    exists ext. destruct (DungeonMaster.fallback_scene _ _ _ _ _). exact E.
  - destruct (fallback_scene_heap DungeonMaster.unexpected_area
                DungeonMaster.unexpected_text game_state scene_id (snd s)) as [ext E].
    exists ext. destruct (DungeonMaster.fallback_scene _ _ _ _ _). exact E.
Qed.

(** What [_generate_new_scene] does to the dungeon master's own fields,
    once the lookup of the location name is through: one request more,
    and [scene_memory] either as it was, or with the generator's validated
    answer under the requested id. *)
Lemma generate_dm_shape (llm : oracle) (game_state : GameState.t) (scene_id : string)
    (s : DungeonMaster.session) :
  connections_ok game_state (snd s) ->
  exists loc,
    let d1 := DungeonMaster.log_call (ReqScene scene_id loc) (fst s) in
    fst (fst (DungeonMaster._generate_new_scene llm game_state scene_id s)) = d1
    \/ exists j raw,
         call_llm_with_json_response
           (llm (List.length (DungeonMaster.calls (fst s))))
           DungeonMaster._validate_scene_data = inr j
         /\ holds_answer j raw
              (snd (fst (DungeonMaster._generate_new_scene llm game_state scene_id s)))
         /\ fst (fst (DungeonMaster._generate_new_scene llm game_state scene_id s))
            = DungeonMaster.remember scene_id raw d1.
Proof.
  intros Hconn. destruct (generate_run llm game_state scene_id s Hconn) as [loc ->].
  exists loc. destruct s as [d h]. cbv zeta. cbn [fst snd].
  destruct (call_llm_with_json_response (llm (List.length (DungeonMaster.calls d)))
              DungeonMaster._validate_scene_data) as [e|j] eqn:Hcall.
  - left. unfold try_except, DungeonMaster.generation_attempt, bind, get, modify, lift.
    simpl. rewrite Hcall. now rewrite fallback_keeps_dm.
  - right. exists j. destruct (load_ok j h) as (h1 & raw & Hload). exists raw.
    split; [reflexivity|].
    assert (E : try_except (DungeonMaster.generation_attempt llm scene_id loc)
                  (DungeonMaster.generation_fallback game_state scene_id) (d, h)
                = match DungeonMaster._create_scene_from_data raw (JStr scene_id) h1 with
                  | (h2, inl e) =>
                      DungeonMaster.generation_fallback game_state scene_id e
                        (DungeonMaster.remember scene_id raw
                           (DungeonMaster.log_call (ReqScene scene_id loc) d), h2)
                  | (h2, inr sc) =>
                      ((DungeonMaster.remember scene_id raw
                          (DungeonMaster.log_call (ReqScene scene_id loc) d), h2), inr sc)
                  end).
    { unfold try_except, DungeonMaster.generation_attempt, bind, get, modify, lift.
      simpl. rewrite Hcall.
      unfold on_snd at 1, zoom. simpl. rewrite Hload. simpl.
      unfold on_snd at 1, zoom. simpl.
      destruct (DungeonMaster._create_scene_from_data raw (JStr scene_id) h1)
        as [h2 [e|sc]]; reflexivity. }
    rewrite E. clear E.
    pose proof (load_holds j h h1 raw Hload) as Hh.
    destruct (create_from_data_heap raw (JStr scene_id) h1) as [ext Hext].
    destruct (DungeonMaster._create_scene_from_data raw (JStr scene_id) h1)
      as [h2 [e|sc]]; simpl in Hext; subst h2.
    + destruct (fallback_heap game_state scene_id e
                  (DungeonMaster.remember scene_id raw
                     (DungeonMaster.log_call (ReqScene scene_id loc) d), h1 ++ ext))
        as [ext2 Hext2].
      cbn [snd] in Hext2. cbv beta iota. rewrite fallback_keeps_dm.
      split; [|reflexivity].
      exact (eq_ind_r (holds_answer j raw)
               (holds_answer_app _ _ _ ext2 (holds_answer_app _ _ _ ext Hh)) Hext2).
    + simpl. split; [now apply holds_answer_app|reflexivity].
Qed.

Lemma generate_failure (llm : oracle) (game_state : GameState.t) (scene_id : string)
    (s : DungeonMaster.session) (e : exn) :
  scene_id <> "" ->
  connections_ok game_state (snd s) ->
  call_llm_with_json_response
    (llm (List.length (DungeonMaster.calls (fst s))))
    DungeonMaster._validate_scene_data = inl e ->
  exists loc h' sc,
    DungeonMaster._generate_new_scene llm game_state scene_id s
    = ((DungeonMaster.log_call (ReqScene scene_id loc) (fst s), h'), inr sc).
Proof.
  intros Hid Hconn Hfail.
  destruct (generate_run llm game_state scene_id s Hconn) as [loc ->].
  exists loc. destruct s as [d h]. simpl in *.
  unfold try_except, DungeonMaster.generation_attempt, bind, get, modify, lift.
  simpl. rewrite Hfail.
  unfold DungeonMaster.generation_fallback, on_snd, zoom. simpl.
  destruct (DungeonMaster.caught_first e);
    rewrite fallback_scene_spec by exact Hid; simpl; eauto.
Qed.

Lemma create_scene_unknown (llm : oracle) (game_state : GameState.t)
    (target : string) (s : DungeonMaster.session) :
  target <> "" ->
  unknown_scene target (fst s) ->
  DungeonMaster.create_scene llm game_state (Some target) s
  = DungeonMaster._generate_new_scene llm game_state target s.
Proof.
  intros Hid [Hpre Hmem]. destruct s as [d h]. simpl in *.
  unfold DungeonMaster.create_scene. rewrite (given_nonempty target Hid).
  destruct (GameState.current_scene game_state);
    unfold DungeonMaster.resolve_target, bind at 1, get at 1; simpl;
    rewrite Hpre, Hmem; reflexivity.
Qed.

Lemma from_scenario_keeps_dm (scene_id : json) (s : DungeonMaster.session) :
  fst (fst (DungeonMaster._create_scene_from_scenario scene_id s)) = fst s.
Proof.
  unfold DungeonMaster._create_scene_from_scenario, bind, get. simpl.
  destruct (DungeonMaster.scenes _); [|reflexivity].
  destruct scene_id; try reflexivity.
  destruct (dict_get _ _); [apply on_snd_fst|reflexivity].
Qed.

(** An entry of [scene_memory] is only ever written with the answer the
    generator returned and the validator accepted, under the requested
    id. *)
Lemma memory_after_generate (llm : oracle) (game_state : GameState.t)
    (scene_id : string) (s : DungeonMaster.session) :
  let out := DungeonMaster._generate_new_scene llm game_state scene_id s in
  DungeonMaster.scene_memory (fst (fst out)) = DungeonMaster.scene_memory (fst s)
  \/ exists j raw,
       llm (List.length (DungeonMaster.calls (fst s))) = Parsed j
       /\ DungeonMaster._validate_scene_data j = inr tt
       /\ holds_answer j raw (snd (fst out))
       /\ DungeonMaster.scene_memory (fst (fst out))
          = dict_set (DungeonMaster.scene_memory (fst s)) scene_id raw.
Proof.
  cbv zeta.
  destruct (DungeonMaster.location_name_for game_state scene_id (snd s))
    as [h0 [e|loc]] eqn:Hloc.
  - left. unfold DungeonMaster._generate_new_scene, bind, on_snd, zoom.
    rewrite Hloc. reflexivity.
  - assert (Hc : connections_ok game_state (snd s)).
    { unfold connections_ok. unfold DungeonMaster.location_name_for in Hloc.
      destruct (GameState.current_scene game_state) as [sc|]; [|exact I].
      unfold bind, get, lift, ret in Hloc. simpl in Hloc.
      destruct (snd s !! Scene.connections sc) as [c|]; [|discriminate].
      destruct c; try discriminate. eauto. }
    destruct (generate_dm_shape llm game_state scene_id s Hc) as [l [-> | H]].
    + now left.
    + destruct H as (j & raw & Hcall & Hh & E). right. exists j, raw.
      apply call_ok_inv in Hcall as [Hp Hv]. rewrite E. auto.
Qed.

Lemma memory_after_create_scene (llm : oracle) (game_state : GameState.t)
    (target : option string) (s : DungeonMaster.session) :
  let out := DungeonMaster.create_scene llm game_state target s in
  DungeonMaster.scene_memory (fst (fst out)) = DungeonMaster.scene_memory (fst s)
  \/ exists j raw k,
       DungeonMaster.given target = Some k
       /\ unknown_scene k (fst s)
       /\ llm (List.length (DungeonMaster.calls (fst s))) = Parsed j
       /\ DungeonMaster._validate_scene_data j = inr tt
       /\ holds_answer j raw (snd (fst out))
       /\ DungeonMaster.scene_memory (fst (fst out))
          = dict_set (DungeonMaster.scene_memory (fst s)) k raw.
Proof.
  cbv zeta. unfold DungeonMaster.create_scene.
  assert (Hgen : forall t,
    let out := DungeonMaster.resolve_target llm game_state t s in
    DungeonMaster.scene_memory (fst (fst out)) = DungeonMaster.scene_memory (fst s)
    \/ exists j raw,
         unknown_scene t (fst s)
         /\ llm (List.length (DungeonMaster.calls (fst s))) = Parsed j
         /\ DungeonMaster._validate_scene_data j = inr tt
         /\ holds_answer j raw (snd (fst out))
         /\ DungeonMaster.scene_memory (fst (fst out))
            = dict_set (DungeonMaster.scene_memory (fst s)) t raw).
  { intros t. cbv zeta. unfold unknown_scene.
    unfold DungeonMaster.resolve_target, bind, get. cbv beta iota zeta.
    cbn [fst snd].
    destruct (dict_has _ t).
    - left. now rewrite from_scenario_keeps_dm.
    - destruct (dict_get (DungeonMaster.scene_memory (fst s)) t).
      + left. exact (f_equal DungeonMaster.scene_memory (on_snd_fst _ s)).
      + destruct (memory_after_generate llm game_state t s) as [H|(j & raw & H)].
        * now left.
        * right. exists j, raw. auto. }
  destruct (DungeonMaster.given target) as [t|].
  - assert (Ht : DungeonMaster.scene_memory
                   (fst (fst (DungeonMaster.resolve_target llm game_state t s)))
                 = DungeonMaster.scene_memory (fst s)
                 \/ exists j raw k,
                      Some t = Some k
                      /\ unknown_scene k (fst s)
                      /\ llm (List.length (DungeonMaster.calls (fst s))) = Parsed j
                      /\ DungeonMaster._validate_scene_data j = inr tt
                      /\ holds_answer j raw
                           (snd (fst (DungeonMaster.resolve_target llm game_state t s)))
                      /\ DungeonMaster.scene_memory
                           (fst (fst (DungeonMaster.resolve_target llm game_state t s)))
                         = dict_set (DungeonMaster.scene_memory (fst s)) k raw).
    { destruct (Hgen t) as [H|(j & raw & H)]; [now left|].
      right. exists j, raw, t. auto. }
    destruct (GameState.current_scene game_state); exact Ht.
  - left. destruct (GameState.current_scene game_state); [reflexivity|].
    unfold bind, get. simpl.
    destruct (DungeonMaster.starting_scene_id _); [|reflexivity].
    now rewrite from_scenario_keeps_dm.
Qed.

(** C10, as the code has it.  [create_scene] writes [scene_memory] only
    for a requested id that is neither predefined nor remembered, only
    under that id, and only with the answer the generator returned and the
    validator accepted.  When the generation call itself fails, a fallback
    scene is returned, nothing is stored, and a later request for the same
    id sends a new request to the generator. *)
Theorem C10_failed_generation_is_not_remembered
    (llm : oracle) (game_state : GameState.t) (target : string)
    (s : DungeonMaster.session) (e : exn)
    (Hid : target <> "")
    (Hunknown : unknown_scene target (fst s))
    (Hconn : connections_ok game_state (snd s))
    (Hfail : call_llm_with_json_response
               (llm (List.length (DungeonMaster.calls (fst s))))
               DungeonMaster._validate_scene_data = inl e) :
  let out := DungeonMaster.create_scene llm game_state (Some target) s in
  (exists sc, snd out = inr sc)
  /\ DungeonMaster.scene_memory (fst (fst out)) = DungeonMaster.scene_memory (fst s)
  /\ one_more_scene_call target (fst s) (fst (fst out))
  /\ (forall llm2 game_state2,
        connections_ok game_state2 (snd (fst out)) ->
        one_more_scene_call target (fst (fst out))
          (fst (fst (DungeonMaster.create_scene llm2 game_state2 (Some target)
                       (fst out)))))
  /\ (forall llm0 game_state0 target0 s0,
        let out0 := DungeonMaster.create_scene llm0 game_state0 target0 s0 in
        DungeonMaster.scene_memory (fst (fst out0)) = DungeonMaster.scene_memory (fst s0)
        \/ exists j raw k,
             DungeonMaster.given target0 = Some k
             /\ unknown_scene k (fst s0)
             /\ llm0 (List.length (DungeonMaster.calls (fst s0))) = Parsed j
             /\ DungeonMaster._validate_scene_data j = inr tt
             /\ holds_answer j raw (snd (fst out0))
             /\ DungeonMaster.scene_memory (fst (fst out0))
                = dict_set (DungeonMaster.scene_memory (fst s0)) k raw).
Proof.
  cbv zeta. rewrite (create_scene_unknown llm game_state target s Hid Hunknown).
  destruct (generate_failure llm game_state target s e Hid Hconn Hfail)
    as (loc & h' & sc & ->).
  cbn [fst snd]. split; [eauto|]. split; [reflexivity|].
  split; [exists loc; reflexivity|]. split.
  - intros llm2 game_state2 Hconn2.
    assert (Hunknown2 : unknown_scene target
                          (DungeonMaster.log_call (ReqScene target loc) (fst s))).
    { exact Hunknown. }
    rewrite (create_scene_unknown llm2 game_state2 target
               (DungeonMaster.log_call (ReqScene target loc) (fst s), h')
               Hid Hunknown2).
    destruct (generate_dm_shape llm2 game_state2 target
                (DungeonMaster.log_call (ReqScene target loc) (fst s), h') Hconn2)
      as [loc2 [-> | (j & raw & _ & _ & ->)]]; exists loc2; reflexivity.
  - intros llm0 game_state0 target0 s0.
    apply memory_after_create_scene.
Qed.

Lemma C10_witness :
  let out := DungeonMaster.create_scene unreachable_llm at_gate (Some "cave")
               gate_session in
  (exists sc, snd out = inr sc)
  /\ DungeonMaster.scene_memory (fst (fst out)) = []
  /\ one_more_scene_call "cave" (fst gate_session) (fst (fst out))
  /\ (forall llm2 game_state2,
        connections_ok game_state2 (snd (fst out)) ->
        one_more_scene_call "cave" (fst (fst out))
          (fst (fst (DungeonMaster.create_scene llm2 game_state2 (Some "cave")
                       (fst out)))))
  /\ (forall llm0 game_state0 target0 s0,
        let out0 := DungeonMaster.create_scene llm0 game_state0 target0 s0 in
        DungeonMaster.scene_memory (fst (fst out0)) = DungeonMaster.scene_memory (fst s0)
        \/ exists j raw k,
             DungeonMaster.given target0 = Some k
             /\ unknown_scene k (fst s0)
             /\ llm0 (List.length (DungeonMaster.calls (fst s0))) = Parsed j
             /\ DungeonMaster._validate_scene_data j = inr tt
             /\ holds_answer j raw (snd (fst out0))
             /\ DungeonMaster.scene_memory (fst (fst out0))
                = dict_set (DungeonMaster.scene_memory (fst s0)) k raw).
Proof.
  apply (C10_failed_generation_is_not_remembered unreachable_llm at_gate "cave"
           gate_session
           (Exn LLMResponseError "Error making LLM call: connection refused")).
  - discriminate.
  - split; reflexivity.
  - exists [("Dark Cave", JStr "cave")]. reflexivity.
  - reflexivity.
Defined.

(** The claim of C10 fails when the generator's answer passes validation
    but a scene cannot be built from it: the fallback scene is returned,
    yet the answer is already stored under the id; the next request for
    the id finds it in memory, sends nothing to the generator, and raises. *)
Lemma C10_counterexample :
  let out := DungeonMaster.create_scene bat_llm at_gate (Some "cave") gate_session in
  let again := DungeonMaster.create_scene bat_llm at_gate (Some "cave") (fst out) in
  (exists sc, snd out = inr sc
              /\ Scene.title sc = JStr DungeonMaster.unexpected_area
              /\ Scene.characters sc = [])
  /\ dict_has (DungeonMaster.scene_memory (fst (fst out))) "cave" = true
  /\ DungeonMaster.calls (fst (fst again)) = DungeonMaster.calls (fst (fst out))
  /\ snd again = raise KeyError "description".
Proof.
  cbv zeta. split; [|repeat split].
  eexists. split; [reflexivity|]. split; reflexivity.
Qed.

(** What does not depend on the store: two scenes built from the same
    remembered definition have the same id, title, description and
    characters. *)
Lemma remembered_scene_stable (scene_data : DungeonMaster.raw_scene) (scene_id : json)
    (h1 h2 h1' h2' : heap) (sc1 sc2 : Scene.t) :
  DungeonMaster._create_scene_from_data scene_data scene_id h1 = (h1', inr sc1) ->
  DungeonMaster._create_scene_from_data scene_data scene_id h2 = (h2', inr sc2) ->
  Scene.id sc1 = Scene.id sc2
  /\ Scene.title sc1 = Scene.title sc2
  /\ Scene.description sc1 = Scene.description sc2
  /\ Scene.characters sc1 = Scene.characters sc2.
Proof.
  unfold DungeonMaster._create_scene_from_data, bind, ret, lift, when, alloc.
  destruct (truthy scene_id); simpl.
  - destruct (DungeonMaster.build_characters _); [discriminate|].
    destruct (negb (truthy scene_id)); simpl; [discriminate|].
    destruct (py_getitem _ "title"); [discriminate|].
    destruct (py_getitem _ "description"); [discriminate|].
    destruct (DungeonMaster.rs_conn scene_data); simpl;
      intros H1 H2; injection H1 as _ <-; injection H2 as _ <-; auto.
  - destruct (py_get _ "id" JNull) as [e|sid]; [discriminate|]. simpl.
    destruct (DungeonMaster.build_characters _); [discriminate|].
    destruct (negb (truthy sid)); simpl; [discriminate|].
    destruct (py_getitem _ "title"); [discriminate|].
    destruct (py_getitem _ "description"); [discriminate|].
    destruct (DungeonMaster.rs_conn scene_data); simpl;
      intros H1 H2; injection H1 as _ <-; injection H2 as _ <-; auto.
Qed.

(** C2 at a failing input.  The cave is in [scene_memory].  It is resolved
    once; the player digs a tunnel there ([new_connections] applied by
    [GameState.update] to the scene just returned); it is resolved again.
    The characters are the same both times, the connections are not: the
    scene's connections dict is the one inside the remembered definition,
    so the tunnel was written into [scene_memory]. *)
Theorem C2_remembered_connections_follow_scene_updates :
  exists (sc1 sc2 : Scene.t) (s1 s2 : DungeonMaster.session) (g : GameState.t)
         (h : heap) (c1 c2 : json),
    dict_has (DungeonMaster.scene_memory (fst cave_session)) "cave" = true
    /\ DungeonMaster.create_scene cave_llm at_gate (Some "cave") cave_session
       = (s1, inr sc1)
    /\ GameState.update dig_result (in_scene sc1, snd s1) = ((g, h), inr tt)
    /\ DungeonMaster.create_scene cave_llm g (Some "cave") (fst s1, h) = (s2, inr sc2)
    /\ Scene.characters sc1 = Scene.characters sc2
    /\ Scene.connections_of (snd s1) sc1 = Some c1
    /\ Scene.connections_of (snd s2) sc2 = Some c2
    /\ c1 = JObj [("Gate", JStr "gate")]
    /\ c2 = JObj [("Gate", JStr "gate"); ("Tunnel", JStr "deep")]
    /\ DungeonMaster.calls (fst s2) = DungeonMaster.calls (fst cave_session).
Proof.
  do 8 eexists.
  split; [reflexivity|]. split; [vm_compute; reflexivity|].
  split; [vm_compute; reflexivity|]. split; [vm_compute; reflexivity|].
  repeat split.
Qed.

(** * Further properties of the code *)

(** ** [Character.update] and [NPC.update] *)

(** X1.  A delta that has none of the five keys [Character.update] looks
    at changes nothing and raises nothing: unknown keys are ignored. *)
Theorem X1_update_ignores_unknown_keys (c : Character.t) (u : dict)
    (Hnone : no_character_keys u) :
  Character.update (JObj u) c = (c, inr tt).
Proof.
  destruct Hnone as (H1 & H2 & H3 & H4 & H5).
  unfold Character.update, Character.apply_health, Character.apply_energy,
    Character.apply_status, Character.apply_add_items, Character.apply_remove_items,
    bind, lift, py_in.
  now rewrite H1, H2, H3, H4, H5.
Qed.

Lemma X1_witness : Character.update (JObj x1_delta) c6_character = (c6_character, inr tt).
Proof.
  apply (X1_update_ignores_unknown_keys c6_character x1_delta).
  repeat split.
Defined.

(** X2.  Whatever the delta, and whether or not it raises,
    [Character.update] leaves the name, the description and the skills of
    the character as they were. *)
Theorem X2_update_keeps_identity (updates : json) (c : Character.t) :
  identity_of (fst (Character.update updates c)) = identity_of c.
Proof.
  revert c.
  change (keeps identity_of (Character.update updates)).
  unfold Character.update, Character.apply_health, Character.apply_energy,
    Character.apply_status, Character.apply_add_items, Character.apply_remove_items.
  keeps_tac.
Qed.

Lemma apply_health_keeps_inventory (updates : json) :
  keeps Character.inventory (Character.apply_health updates).
Proof. unfold Character.apply_health. keeps_tac. Qed.

Lemma apply_energy_keeps_inventory (updates : json) :
  keeps Character.inventory (Character.apply_energy updates).
Proof. unfold Character.apply_energy. keeps_tac. Qed.

Lemma bind_done {S A B} (m : M S A) (k : A -> M S B) (s s' : S) (b : B) :
  bind m k s = (s', inr b) ->
  exists a s1, m s = (s1, inr a) /\ k a s1 = (s', inr b).
Proof.
  unfold bind. destruct (m s) as [s1 [e|a]]; [discriminate|]. eauto.
Qed.

(** The [add_items] loop, when it gets to its end. *)
Lemma add_loop_done (datas : list json) (c c' : Character.t) :
  for_each datas
    (fun item_data =>
       item <- lift (Character.make_item item_data);;
       modify (fun c => Character.set_inventory (Character.inventory c ++ [item]) c)) c
  = (c', inr tt) ->
  exists items,
    map_res Character.make_item datas = inr items
    /\ Character.inventory c' = Character.inventory c ++ items.
Proof.
  revert c. induction datas as [|d r IH]; intros c; simpl.
  - intros H. injection H as <-. exists []. now rewrite app_nil_r.
  - intros H. apply bind_done in H as ([] & c1 & H1 & H2).
    unfold bind, lift, modify in H1.
    destruct (Character.make_item d) as [e|item]; [discriminate|].
    injection H1 as <-.
    destruct (IH _ H2) as (items & -> & Hinv).
    exists (item :: items). split; [reflexivity|].
    rewrite Hinv. simpl. now rewrite <- app_assoc.
Qed.

(** X3.  When [Character.update] runs to its end on a delta that has a
    list under [add_items] and no [remove_items], the new inventory is the
    old one followed by one item per entry, in the order of the list;
    nothing is merged or dropped because of an equal name. *)
Theorem X3_add_items_appends_in_order
    (c c' : Character.t) (u : dict) (datas : list json)
    (Hadd : dict_get u "add_items" = Some (JArr datas))
    (Hkeep : dict_has u "remove_items" = false)
    (Hdone : Character.update (JObj u) c = (c', inr tt)) :
  exists items,
    map_res Character.make_item datas = inr items
    /\ Character.inventory c' = Character.inventory c ++ items
    /\ List.length (Character.inventory c')
       = (List.length (Character.inventory c) + List.length datas)%nat.
Proof.
  unfold Character.update in Hdone.
  apply (bind_keeps_inv Character.inventory) in Hdone as (_ & c1 & I1 & Hdone);
    [|apply apply_health_keeps_inventory].
  apply (bind_keeps_inv Character.inventory) in Hdone as (_ & c2 & I2 & Hdone);
    [|apply apply_energy_keeps_inventory].
  apply (bind_keeps_inv Character.inventory) in Hdone as (_ & c3 & I3 & Hdone);
    [|apply apply_status_keeps_inventory].
  apply bind_done in Hdone as ([] & c4 & Hadd4 & Hrem).
  unfold Character.apply_remove_items, bind, lift, py_in in Hrem.
  rewrite Hkeep in Hrem. simpl in Hrem. injection Hrem as <-.
  unfold Character.apply_add_items, bind at 1, lift at 1, py_in, dict_has in Hadd4.
  rewrite Hadd in Hadd4. simpl in Hadd4.
  unfold bind at 1, lift at 1, py_getitem in Hadd4. rewrite Hadd in Hadd4.
  unfold bind at 1, lift at 1 in Hadd4. simpl in Hadd4.
  destruct (add_loop_done datas c3 c4 Hadd4) as (items & Hitems & Hinv).
  exists items. split; [exact Hitems|].
  rewrite Hinv, I3, I2, I1. split; [reflexivity|].
  rewrite length_app. f_equal.
  clear - Hitems. revert items Hitems.
  induction datas as [|d r IH]; simpl; intros items H.
  - now injection H as <-.
  - destruct (Character.make_item d); [discriminate|].
    destruct (map_res Character.make_item r); [discriminate|].
    injection H as <-. simpl. f_equal. now apply IH.
Qed.

Lemma X3_witness :
  exists items,
    map_res Character.make_item
      [JObj [("name", JStr "rope"); ("description", JStr "more rope")];
       JObj [("name", JStr "key"); ("description", JStr "a brass key")]] = inr items
    /\ Character.inventory (fst (Character.update (JObj x3_delta) c6_character))
       = Character.inventory c6_character ++ items
    /\ List.length (Character.inventory
                      (fst (Character.update (JObj x3_delta) c6_character)))
       = (List.length (Character.inventory c6_character) + 2)%nat.
Proof.
  apply (X3_add_items_appends_in_order c6_character _ x3_delta); reflexivity.
Defined.

Lemma keeps_health_after_first (updates : json) :
  keeps Character.health
    (Character.apply_energy updates;;;
     Character.apply_status updates;;;
     Character.apply_add_items updates;;;
     Character.apply_remove_items updates).
Proof.
  unfold Character.apply_energy, Character.apply_status,
    Character.apply_add_items, Character.apply_remove_items.
  keeps_tac.
Qed.

(** X4.  The blocks of [Character.update] that ran before an exception
    stay applied.  A delta with a [health] entry replaces the health even
    when a later block raises; a delta without one leaves the health, and
    with it [is_alive], as it was. *)
Theorem X4_health_is_replaced_first (c : Character.t) (u : dict) :
  let c' := fst (Character.update (JObj u) c) in
  Character.health c'
  = match dict_get u "health" with
    | Some v => v
    | None => Character.health c
    end
  /\ (dict_has u "health" = false -> Character.is_alive c' = Character.is_alive c).
Proof.
  cbv zeta.
  assert (H : Character.health (fst (Character.update (JObj u) c))
              = match dict_get u "health" with
                | Some v => v
                | None => Character.health c
                end).
  { unfold Character.update.
    assert (E : exists c1, Character.apply_health (JObj u) c = (c1, inr tt)
                           /\ Character.health c1
                              = match dict_get u "health" with
                                | Some v => v
                                | None => Character.health c
                                end).
    { unfold Character.apply_health, bind, lift, py_in, py_getitem, dict_has.
      destruct (dict_get u "health"); simpl; eauto. }
    destruct E as (c1 & E1 & Hh).
    rewrite (bind_ok _ _ _ _ _ E1).
    now rewrite keeps_health_after_first. }
  split; [exact H|].
  intros Hno. unfold Character.is_alive. rewrite H.
  unfold dict_has in Hno. now destruct (dict_get u "health").
Qed.

Lemma X4_witness :
  snd (Character.update (JObj x4_delta) c6_character)
    = raise AttributeError "object has no attribute 'items'"
  /\ Character.health (fst (Character.update (JObj x4_delta) c6_character))
     = JStr "wounded".
Proof.
  split; [reflexivity|].
  exact (proj1 (X4_health_is_replaced_first c6_character x4_delta)).
Defined.

Lemma bind_assoc {S A B C} (m : M S A) (f : A -> M S B) (g : B -> M S C) (s : S) :
  bind (bind m f) g s = bind m (fun a => bind (f a) g) s.
Proof. unfold bind. destruct (m s) as [s1 [e|a]]; reflexivity. Qed.

Lemma bind_cong {S A B} (m : M S A) (f g : A -> M S B) (s : S) :
  (forall a s1, f a s1 = g a s1) -> bind m f s = bind m g s.
Proof. intros H. unfold bind. destruct (m s) as [s1 [e|a]]; auto. Qed.

Lemma npc_update_blocks (updates : json) (n : NPC.t) :
  NPC.update updates n
  = (zoom NPC.base NPC.set_base (Character.update updates);;;
     npc_attitude_block updates;;;
     npc_properties_block updates) n.
Proof.
  unfold NPC.update, npc_attitude_block, npc_properties_block.
  apply bind_cong. intros _ s. symmetry. apply bind_assoc.
Qed.

Lemma npc_attitude_block_dict (u : dict) (n : NPC.t) :
  npc_attitude_block (JObj u) n
  = (match dict_get u "attitude" with
     | Some v => NPC.set_attitude v n
     | None => n
     end, inr tt).
Proof.
  unfold npc_attitude_block, bind, lift, py_in, py_getitem, dict_has.
  now destruct (dict_get u "attitude").
Qed.

Lemma npc_properties_block_keeps (updates : json) :
  keeps (fun n => (NPC.base n, NPC.attitude n)) (npc_properties_block updates).
Proof. unfold npc_properties_block. keeps_tac. Qed.

(** X5.  [NPC.update] applies the character delta first.  When that
    raises, the exception leaves [NPC.update] with attitude and properties
    untouched; when it goes through, the attitude is the delta's, if the
    delta has one, also when the properties block raises afterwards. *)
Theorem X5_npc_update_base_first
    (u : dict) (n : NPC.t) (c' : Character.t) (r : res unit)
    (Hbase : Character.update (JObj u) (NPC.base n) = (c', r)) :
  let n' := fst (NPC.update (JObj u) n) in
  NPC.base n' = c'
  /\ match r with
     | inl e =>
         snd (NPC.update (JObj u) n) = inl e
         /\ NPC.attitude n' = NPC.attitude n
         /\ NPC.properties n' = NPC.properties n
     | inr _ =>
         NPC.attitude n'
         = match dict_get u "attitude" with
           | Some v => v
           | None => NPC.attitude n
           end
     end.
Proof.
  cbv zeta. rewrite npc_update_blocks. destruct r as [e|[]].
  - assert (E : (zoom NPC.base NPC.set_base (Character.update (JObj u));;;
                 npc_attitude_block (JObj u);;;
                 npc_properties_block (JObj u)) n
                = (NPC.set_base c' n, inl e)).
    { unfold bind at 1, zoom. now rewrite Hbase. }
    rewrite E. simpl. auto.
  - assert (E : (zoom NPC.base NPC.set_base (Character.update (JObj u));;;
                 npc_attitude_block (JObj u);;;
                 npc_properties_block (JObj u)) n
                = npc_properties_block (JObj u)
                    match dict_get u "attitude" with
                    | Some v => NPC.set_attitude v (NPC.set_base c' n)
                    | None => NPC.set_base c' n
                    end).
    { unfold bind at 1, zoom. rewrite Hbase. cbv beta iota.
      unfold bind at 1. now rewrite npc_attitude_block_dict. }
    rewrite E.
    pose proof (npc_properties_block_keeps (JObj u)
                  match dict_get u "attitude" with
                  | Some v => NPC.set_attitude v (NPC.set_base c' n)
                  | None => NPC.set_base c' n
                  end) as K.
    injection K as K1 K2. rewrite K1, K2.
    now destruct (dict_get u "attitude").
Qed.

Lemma X5_witness :
  let n' := fst (NPC.update (JObj x5_bad_delta) x5_npc) in
  NPC.base n' = NPC.base x5_npc
  /\ snd (NPC.update (JObj x5_bad_delta) x5_npc)
     = raise TypeError "object is not iterable"
  /\ NPC.attitude n' = JStr "neutral"
  /\ NPC.properties n' = NPC.properties x5_npc.
Proof.
  apply (X5_npc_update_base_first x5_bad_delta x5_npc (NPC.base x5_npc)
           (raise TypeError "object is not iterable")).
  reflexivity.
Defined.

Lemma fold_property_entries (ps : dict) (n : NPC.t) :
  fold_left (fun s kv => NPC.set_properties (merge_entry (NPC.properties s) kv) s) ps n
  = NPC.set_properties (fold_left merge_entry ps (NPC.properties n)) n.
Proof.
  revert n. induction ps as [|kv r IH]; intros n; simpl.
  - now destruct n.
  - now rewrite IH.
Qed.

Lemma npc_properties_block_dict (u ps : dict) (n : NPC.t) :
  dict_get u "properties" = Some (JObj ps) ->
  npc_properties_block (JObj u) n
  = (NPC.set_properties (fold_left merge_entry ps (NPC.properties n)) n, inr tt).
Proof.
  intros H. unfold npc_properties_block, bind, lift, py_in, py_getitem, dict_has.
  rewrite H. simpl. rewrite for_each_modify. now rewrite fold_property_entries.
Qed.

(** X6.  When the character part of [NPC.update] goes through, the NPC's
    property map is merged with the delta's key by key like the status
    map: [null] under a key the NPC has removes the key, any other entry
    is stored under its key. *)
Theorem X6_npc_properties_merge
    (u ps : dict) (n : NPC.t) (c' : Character.t) (k : string) (v : json)
    (Hbase : Character.update (JObj u) (NPC.base n) = (c', inr tt))
    (Hprops : dict_get u "properties" = Some (JObj ps))
    (Hmap : NoDup (dict_keys ps))
    (Hentry : dict_get ps k = Some v) :
  snd (NPC.update (JObj u) n) = inr tt
  /\ dict_get (NPC.properties (fst (NPC.update (JObj u) n))) k
     = if is_none v && dict_has (NPC.properties n) k then None else Some v.
Proof.
  rewrite npc_update_blocks.
  assert (E : (zoom NPC.base NPC.set_base (Character.update (JObj u));;;
               npc_attitude_block (JObj u);;;
               npc_properties_block (JObj u)) n
              = npc_properties_block (JObj u)
                  match dict_get u "attitude" with
                  | Some v => NPC.set_attitude v (NPC.set_base c' n)
                  | None => NPC.set_base c' n
                  end).
  { unfold bind at 1, zoom. rewrite Hbase. cbv beta iota.
    unfold bind at 1. now rewrite npc_attitude_block_dict. }
  rewrite E, (npc_properties_block_dict u ps _ Hprops). simpl.
  split; [reflexivity|].
  rewrite (merge_all_lookup ps _ k v Hmap Hentry).
  now destruct (dict_get u "attitude").
Qed.

Lemma X6_witness :
  snd (NPC.update (JObj x5_delta) x5_npc) = inr tt
  /\ dict_get (NPC.properties (fst (NPC.update (JObj x5_delta) x5_npc))) "bribed" = None.
Proof.
  apply (X6_npc_properties_merge x5_delta
           [("bribed", JNull); ("alarmed", JBool true)] x5_npc
           (fst (Character.update (JObj x5_delta) (NPC.base x5_npc))) "bribed" JNull).
  - reflexivity.
  - reflexivity.
  - simpl. nodup_literals.
  - reflexivity.
Defined.

(** ** Scenes *)

Lemma index_of_filtered (n : json) (l : list NPC.t) :
  Scene.index_of n (List.filter (fun c => negb (py_eq (NPC.name c) n)) l) = None.
Proof.
  induction l as [|c r IH]; simpl; auto.
  destruct (py_eq (NPC.name c) n) eqn:E; simpl; auto.
  now rewrite E, IH.
Qed.

Lemma index_of_none_filter (n : json) (l : list NPC.t) :
  Scene.index_of n l = None ->
  List.filter (fun c => negb (py_eq (NPC.name c) n)) l = l.
Proof.
  induction l as [|c r IH]; simpl; auto.
  destruct (py_eq (NPC.name c) n) eqn:E; simpl; [discriminate|].
  destruct (Scene.index_of n r); [discriminate|].
  intros _. now rewrite IH.
Qed.

Lemma index_of_some (n : json) (l : list NPC.t) (i : nat) :
  Scene.index_of n l = Some i ->
  exists c, l !! i = Some c /\ py_eq (NPC.name c) n = true.
Proof.
  revert i. induction l as [|c r IH]; simpl; [discriminate|].
  destruct (py_eq (NPC.name c) n) eqn:E.
  - intros i H. injection H as <-. eauto.
  - destruct (Scene.index_of n r) as [j|]; [|discriminate].
    intros i H. injection H as <-. simpl. now apply IH.
Qed.

(** X7.  After [remove_character] nobody in the scene answers to the
    name; and removing a name nobody answers to leaves the scene as it
    is. *)
Theorem X7_remove_then_get (character_name : json) (s : Scene.t) :
  Scene.get_character character_name (Scene.remove_character character_name s) = None
  /\ (Scene.get_character character_name s = None ->
      Scene.remove_character character_name s = s).
Proof.
  split.
  - unfold Scene.get_character, Scene.remove_character. simpl.
    now rewrite index_of_filtered.
  - unfold Scene.get_character, Scene.remove_character.
    destruct (Scene.index_of character_name (Scene.characters s)) as [i|] eqn:E.
    + destruct (index_of_some _ _ _ E) as (c & -> & _). discriminate.
    + intros _. rewrite (index_of_none_filter _ _ E). now destruct s.
Qed.

Lemma index_of_app (n : json) (l : list NPC.t) (c : NPC.t) :
  Scene.index_of n (l ++ [c])
  = match Scene.index_of n l with
    | Some i => Some i
    | None => if py_eq (NPC.name c) n then Some (List.length l) else None
    end.
Proof.
  induction l as [|x r IH]; simpl.
  - now destruct (py_eq (NPC.name c) n).
  - destruct (py_eq (NPC.name x) n); auto.
    rewrite IH. destruct (Scene.index_of n r); auto.
    now destruct (py_eq (NPC.name c) n).
Qed.

(** X8.  [add_character] puts the character last and [get_character]
    returns the first match: a lookup after an addition finds whoever it
    found before, and finds the newcomer only when nobody answered to the
    name before and the newcomer does. *)
Theorem X8_add_then_get (character_name : json) (c : NPC.t) (s : Scene.t) :
  Scene.get_character character_name (Scene.add_character c s)
  = match Scene.get_character character_name s with
    | Some c0 => Some c0
    | None => if py_eq (NPC.name c) character_name then Some c else None
    end.
Proof.
  unfold Scene.get_character, Scene.add_character. simpl.
  rewrite index_of_app.
  destruct (Scene.index_of character_name (Scene.characters s)) as [i|] eqn:E.
  - destruct (index_of_some _ _ _ E) as (c0 & Hc0 & _).
    rewrite Hc0. apply lookup_app_l_Some. exact Hc0.
  - destruct (py_eq (NPC.name c) character_name); auto.
    apply lookup_snoc.
Qed.

Lemma dict_keys_set {V} (d : list (string * V)) (k : string) (v : V) :
  dict_keys (dict_set d k v)
  = if dict_has d k then dict_keys d else dict_keys d ++ [k].
Proof.
  unfold dict_has. induction d as [|[k' v'] r IH]; simpl; auto.
  destruct (String.eqb k' k) eqn:E; simpl; auto.
  rewrite IH. now destruct (dict_get r k).
Qed.

Lemma add_connection_dict (location_name : string) (scene_id : json) (s : Scene.t)
    (h : heap) (kv : dict) :
  Scene.connections_of h s = Some (JObj kv) ->
  Scene.add_connection location_name scene_id s h
  = (<[Scene.connections s := JObj (dict_set kv location_name scene_id)]> h, inr tt)
  /\ Scene.connections_of
       (<[Scene.connections s := JObj (dict_set kv location_name scene_id)]> h) s
     = Some (JObj (dict_set kv location_name scene_id)).
Proof.
  unfold Scene.connections_of, Scene.add_connection. intros H. rewrite H.
  split; [reflexivity|].
  apply list_lookup_insert_eq. now apply lookup_lt_Some in H.
Qed.

Lemma string_append_assoc (a b c : string) :
  ((a ++ b) ++ c = a ++ (b ++ c))%string.
Proof. induction a as [|x a IH]; simpl; [reflexivity|]. now rewrite IH. Qed.

(** X9.  On a scene whose connections are a dict, [add_connection] never
    raises; afterwards the location leads to the given scene id, every
    other location leads where it led, no other object of the store has
    changed, and the order of the locations is kept: a location that was
    there keeps its place, a new one goes last. *)
Theorem X9_add_connection_then_lookup
    (location_name : string) (scene_id : json) (s : Scene.t) (h : heap) (kv : dict)
    (Hdict : Scene.connections_of h s = Some (JObj kv)) :
  exists h' kv',
    Scene.add_connection location_name scene_id s h = (h', inr tt)
    /\ Scene.connections_of h' s = Some (JObj kv')
    /\ dict_get kv' location_name = Some scene_id
    /\ (forall k, k <> location_name -> dict_get kv' k = dict_get kv k)
    /\ dict_keys kv'
       = (if dict_has kv location_name then dict_keys kv
          else dict_keys kv ++ [location_name])
    /\ (forall l : loc, l <> Scene.connections s -> h' !! l = h !! l).
Proof.
  destruct (add_connection_dict location_name scene_id s h kv Hdict) as [Hrun Hc].
  do 2 eexists. split; [exact Hrun|]. split; [exact Hc|].
  split; [apply dict_get_set_eq|]. split.
  - intros k Hk. apply dict_get_set_ne. congruence.
  - split; [apply dict_keys_set|].
    intros l Hl. apply list_lookup_insert_ne. congruence.
Qed.

Lemma X9_witness :
  exists h' kv',
    Scene.add_connection "Dark Cave" (JStr "pit") gate gate_heap = (h', inr tt)
    /\ Scene.connections_of h' gate = Some (JObj kv')
    /\ dict_get kv' "Dark Cave" = Some (JStr "pit")
    /\ (forall k, k <> "Dark Cave" ->
                  dict_get kv' k = dict_get [("Dark Cave", JStr "cave")] k)
    /\ dict_keys kv' = ["Dark Cave"]
    /\ (forall l : loc, l <> Scene.connections gate -> h' !! l = gate_heap !! l).
Proof.
  apply (X9_add_connection_then_lookup "Dark Cave" (JStr "pit") gate gate_heap
           [("Dark Cave", JStr "cave")]).
  reflexivity.
Defined.

(** X10.  On a scene whose connections are a dict, [remove_connection]
    never raises.  A location that is not there leaves the store as it
    is; one that is there is gone afterwards, and every other location
    leads where it led. *)
Theorem X10_remove_connection
    (location_name : string) (s : Scene.t) (h : heap) (kv : dict)
    (Hdict : Scene.connections_of h s = Some (JObj kv)) :
  exists h' kv',
    Scene.remove_connection location_name s h = (h', inr tt)
    /\ Scene.connections_of h' s = Some (JObj kv')
    /\ dict_get kv' location_name = None
    /\ (forall k, k <> location_name -> dict_get kv' k = dict_get kv k)
    /\ (dict_has kv location_name = false -> h' = h).
Proof.
  unfold Scene.connections_of in *. unfold Scene.remove_connection. rewrite Hdict.
  destruct (dict_has kv location_name) eqn:E.
  - do 2 eexists. split; [reflexivity|]. split.
    + apply list_lookup_insert_eq. now apply lookup_lt_Some in Hdict.
    + split; [apply dict_get_del_eq|]. split; [|discriminate].
      intros k Hk. apply dict_get_del_ne. congruence.
  - exists h, kv. split; [reflexivity|]. split; [exact Hdict|].
    split.
    + unfold dict_has in E. now destruct (dict_get kv location_name).
    + auto.
Qed.

Lemma X10_witness :
  exists h' kv',
    Scene.remove_connection "Dark Cave" gate gate_heap = (h', inr tt)
    /\ Scene.connections_of h' gate = Some (JObj kv')
    /\ dict_get kv' "Dark Cave" = None
    /\ (forall k, k <> "Dark Cave" ->
                  dict_get kv' k = dict_get [("Dark Cave", JStr "cave")] k)
    /\ (dict_has [("Dark Cave", JStr "cave")] "Dark Cave" = false -> h' = gate_heap).
Proof.
  apply (X10_remove_connection "Dark Cave" gate gate_heap [("Dark Cave", JStr "cave")]).
  reflexivity.
Defined.

Lemma join_comma_snoc (l : list string) (x : string) :
  join_comma (l ++ [x])
  = match l with
    | [] => x
    | _ => (join_comma l ++ ", " ++ x)%string
    end.
Proof.
  induction l as [|y r IH]; simpl; auto.
  destruct r as [|z r']; simpl in *.
  - reflexivity.
  - rewrite IH. now rewrite !string_append_assoc.
Qed.

(** X11.  The description of a scene's connections follows
    [add_connection]: a location that was already there leaves the text
    as it is; a new one is added at its end, after a comma when it is not
    the first; and the text is the "no visible paths" sentinel exactly
    when the dict is empty. *)
Theorem X11_description_follows_add_connection
    (location_name : string) (scene_id : json) (s : Scene.t) (h : heap) (kv : dict)
    (Hdict : Scene.connections_of h s = Some (JObj kv)) :
  let h' := fst (Scene.add_connection location_name scene_id s h) in
  get_connections_description s h
    = inr (match kv with
           | [] => "There are no visible paths from here."
           | _ => "You can go to: " ++ join_comma (dict_keys kv)
           end)%string
  /\ get_connections_description s h'
     = inr (if dict_has kv location_name
            then "You can go to: " ++ join_comma (dict_keys kv)
            else match kv with
                 | [] => "You can go to: " ++ location_name
                 | _ => "You can go to: " ++ join_comma (dict_keys kv)
                          ++ ", " ++ location_name
                 end)%string.
Proof.
  cbv zeta.
  destruct (add_connection_dict location_name scene_id s h kv Hdict) as [-> Hc'].
  unfold Scene.connections_of in *. unfold get_connections_description.
  rewrite Hdict. simpl fst. rewrite Hc'. split.
  - now destruct kv.
  - pose proof (dict_keys_set kv location_name scene_id) as Hkeys.
    destruct (dict_set kv location_name scene_id) as [|p r] eqn:Eset.
    { destruct kv as [|[k0 v0] r0]; simpl in Eset; [discriminate|].
      destruct (String.eqb k0 location_name); discriminate. }
    simpl truthy. simpl negb. cbv iota. rewrite Hkeys.
    destruct (dict_has kv location_name); auto.
    rewrite join_comma_snoc. destruct kv; simpl; try reflexivity.
    all: now rewrite ?string_append_assoc.
Qed.

Lemma X11_witness :
  get_connections_description gate gate_heap = inr "You can go to: Dark Cave"
  /\ get_connections_description gate
       (fst (Scene.add_connection "Old Well" (JStr "well") gate gate_heap))
     = inr "You can go to: Dark Cave, Old Well".
Proof.
  apply (X11_description_follows_add_connection "Old Well" (JStr "well") gate gate_heap
           [("Dark Cave", JStr "cave")]).
  reflexivity.
Defined.

(** ** More on [GameState.update] *)

(** X12.  A result that has none of [player_updates], [character_updates],
    [scene_updates], [move_to_scene] and [game_over] (for instance one with
    only [success] and [description]) leaves the game state and the store
    exactly as they are, and [update] does not raise. *)
Theorem X12_update_without_deltas_is_identity (w : GameState.world) (r : dict)
    (Hnone : no_update_keys r) :
  GameState.update (JObj r) w = (w, inr tt).
Proof.
  destruct Hnone as (H1 & H2 & H3 & H4 & H5). destruct w as [g h].
  unfold GameState.update, GameState.player_block, GameState.characters_block,
    GameState.scene_block, GameState.move_block, GameState.game_over_block,
    bind, get, lift, py_in. simpl.
  rewrite H1, H2, H3, H4, H5.
  destruct g as [[p|] [sc|] hist over msg]; reflexivity.
Qed.

Lemma X12_witness : GameState.update (JObj quiet_result) gate_world = (gate_world, inr tt).
Proof.
  apply (X12_update_without_deltas_is_identity gate_world quiet_result).
  repeat split.
Defined.





(** What the move block does, on a dict. *)
Lemma move_block_dict (r : dict) (w : GameState.world) :
  GameState.move_block (JObj r) w
  = (match dict_get r "move_to_scene", GameState.current_scene (fst w) with
     | Some t, Some _ =>
         if truthy t then (GameState.push_history (fst w), snd w) else w
     | _, _ => w
     end, inr tt).
Proof.
  unfold GameState.move_block, bind, lift, ret, when, modify, py_in, py_getitem, dict_has.
  destruct (dict_get r "move_to_scene") as [t|]; simpl; [|reflexivity].
  destruct (truthy t); [|now destruct (GameState.current_scene (fst w))].
  now destruct (GameState.current_scene (fst w)).
Qed.







Lemma on_player_keeps_cast {A} (m : M Player.t A) :
  keeps cast_of (GameState.on_player m).
Proof.
  intros [g h]. unfold GameState.on_player, cast_of, GameState.has_player. simpl.
  destruct (GameState.player g) as [p|] eqn:E; simpl; [|now rewrite E].
  destruct (m p) as [p' r]. reflexivity.
Qed.

Lemma on_scene_keeps_cast {A} (m : M (Scene.t * heap) A) :
  keeps (fun sh : Scene.t * heap => frame_of (fst sh)) m ->
  keeps cast_of (GameState.on_scene m).
Proof.
  intros Hm [g h]. unfold GameState.on_scene, cast_of. simpl.
  destruct (GameState.current_scene g) as [sc|] eqn:E; simpl; [|now rewrite E].
  specialize (Hm (sc, h)). destruct (m (sc, h)) as [[sc' h'] r]. simpl in *.
  now rewrite Hm.
Qed.

Lemma update_character_keeps_frame (character_name : string) (updates : json) :
  keeps (fun sh : Scene.t * heap => frame_of (fst sh))
        (GameState.update_character character_name updates).
Proof.
  intros [sc h]. unfold GameState.update_character. simpl.
  destruct (Scene.index_of _ _) as [i|]; [|reflexivity].
  destruct (Scene.characters sc !! i) as [npc|]; [|reflexivity].
  now destruct (NPC.update updates npc).
Qed.

Lemma on_fst_keeps {S T A U} (f : S * T -> U) (m : M S A) :
  (forall s t, f (fst (m s), t) = f (s, t)) -> keeps f (on_fst m).
Proof.
  intros H [s t]. unfold on_fst, zoom. simpl.
  specialize (H s t). now destruct (m s).
Qed.

Lemma on_snd_keeps {S T A U} (f : S * T -> U) (m : M T A) :
  (forall s t, f (s, fst (m t)) = f (s, t)) -> keeps f (on_snd m).
Proof.
  intros H [s t]. unfold on_snd, zoom. simpl.
  specialize (H s t). now destruct (m t).
Qed.

Lemma apply_scene_updates_keeps_frame (scene_updates : json) :
  keeps (fun sh : Scene.t * heap => frame_of (fst sh))
        (GameState.apply_scene_updates scene_updates).
Proof.
  unfold GameState.apply_scene_updates. keeps_tac.
  all: first [ apply on_fst_keeps; reflexivity
             | apply on_snd_keeps; reflexivity ].
Qed.

(** X15.  Whatever the result, and whether or not it raises,
    [GameState.update] neither creates nor drops the player or the current
    scene, and leaves the current scene's id, title, description,
    properties and connections object in place: only the scene's
    characters and the contents of its connections can change, and the
    move to another scene is left to the caller. *)
Theorem X15_update_keeps_cast (result : json) (w : GameState.world) :
  cast_of (fst (GameState.update result w)) = cast_of w.
Proof.
  revert w. change (keeps cast_of (GameState.update result)).
  unfold GameState.update, GameState.player_block, GameState.characters_block,
    GameState.scene_block, GameState.move_block, GameState.game_over_block.
  keeps_tac.
  - apply on_player_keeps_cast.
  - apply on_scene_keeps_cast, update_character_keeps_frame.
  - apply on_scene_keeps_cast, apply_scene_updates_keeps_frame.
  - apply keeps_modify. intros [g h]. unfold cast_of. simpl.
    destruct (GameState.current_scene g) eqn:E; simpl; now rewrite ?E.
Qed.

Lemma get_none_index_none (n : json) (s : Scene.t) :
  Scene.get_character n s = None -> Scene.index_of n (Scene.characters s) = None.
Proof.
  unfold Scene.get_character.
  destruct (Scene.index_of n (Scene.characters s)) as [i|] eqn:E; auto.
  destruct (index_of_some _ _ _ E) as (c & -> & _). discriminate.
Qed.

Lemma set_current_scene_same (g : GameState.t) (sc : Scene.t) :
  GameState.current_scene g = Some sc -> GameState.set_current_scene (Some sc) g = g.
Proof. destruct g. simpl. now intros ->. Qed.

Lemma skip_absent_characters (cu : dict) (g : GameState.t) (h : heap) (sc : Scene.t) :
  GameState.current_scene g = Some sc ->
  (forall k, In k (dict_keys cu) -> Scene.get_character (JStr k) sc = None) ->
  for_each cu
    (fun kv => GameState.on_scene (GameState.update_character (fst kv) (snd kv))) (g, h)
  = ((g, h), inr tt).
Proof.
  intros Hsc. induction cu as [|[k v] r IH]; intros Hall; simpl; [reflexivity|].
  unfold bind. unfold GameState.on_scene at 1. simpl. rewrite Hsc.
  unfold GameState.update_character. simpl.
  rewrite (get_none_index_none _ _ (Hall k (or_introl eq_refl))).
  rewrite (set_current_scene_same g sc Hsc).
  apply IH. intros k' Hk'. apply Hall. now right.
Qed.

(** X16.  [character_updates] for names nobody in the current scene
    answers to are skipped without an error, whatever the deltas are:
    the state and the store stay as they are. *)
Theorem X16_updates_for_absent_characters_are_skipped
    (w : GameState.world) (r cu : dict) (sc : Scene.t)
    (Hscene : GameState.current_scene (fst w) = Some sc)
    (Hupdates : dict_get r "character_updates" = Some (JObj cu))
    (Habsent : forall k, In k (dict_keys cu) -> Scene.get_character (JStr k) sc = None) :
  GameState.characters_block (JObj r) w = (w, inr tt).
Proof.
  destruct w as [g h]. simpl in Hscene.
  unfold GameState.characters_block, bind, get, lift, py_in, py_getitem, py_items,
    dict_has, GameState.has_scene. simpl.
  rewrite Hscene, Hupdates. simpl.
  now apply skip_absent_characters with (sc := sc).
Qed.

Lemma X16_witness :
  GameState.characters_block (JObj ghost_result) gate_world = (gate_world, inr tt).
Proof.
  apply (X16_updates_for_absent_characters_are_skipped gate_world ghost_result
           [("Ghost", JInt 7)] gate).
  - reflexivity.
  - reflexivity.
  - intros k [<-|[]]. reflexivity.
Defined.

(** X17.  Before the game has a player and a scene, the deltas of a
    result are not even looked at: [update] on a result dict does what
    its last block does, however malformed [player_updates],
    [character_updates] and [scene_updates] are. *)
Theorem X17_setup_state_ignores_deltas (g : GameState.t) (h : heap) (r : dict)
    (Hplayer : GameState.player g = None)
    (Hscene : GameState.current_scene g = None) :
  GameState.update (JObj r) (g, h) = GameState.game_over_block (JObj r) (g, h).
Proof.
  unfold GameState.update, GameState.player_block, GameState.characters_block,
    GameState.scene_block.
  unfold bind at 1 2, get at 1. simpl.
  unfold GameState.has_player. rewrite Hplayer. simpl.
  unfold bind at 1 2, get at 1. simpl.
  unfold GameState.has_scene. rewrite Hscene. simpl.
  unfold bind at 1 2, get at 1. simpl. rewrite Hscene. simpl.
  unfold bind at 1. rewrite move_block_dict. simpl. rewrite Hscene.
  now destruct (dict_get r "move_to_scene").
Qed.

Lemma X17_witness :
  GameState.update (JObj early_result) setup_world
  = ((GameState.end_game (JStr "Game Over") GameState.initial, []), inr tt).
Proof.
  exact (eq_trans
           (X17_setup_state_ignores_deltas GameState.initial [] early_result
              eq_refl eq_refl)
           eq_refl).
Defined.

Lemma index_none_filter (n : json) (p : NPC.t -> bool) (l : list NPC.t) :
  Scene.index_of n l = None -> Scene.index_of n (List.filter p l) = None.
Proof.
  induction l as [|c r IH]; simpl; auto.
  destruct (py_eq (NPC.name c) n) eqn:E; [discriminate|].
  destruct (Scene.index_of n r); [discriminate|].
  intros _. destruct (p c); simpl; rewrite ?E, IH; auto.
Qed.

Lemma index_none_without (n : json) (names : list json) (l : list NPC.t) :
  Scene.index_of n l = None -> Scene.index_of n (without_names names l) = None.
Proof.
  revert l. induction names as [|m r IH]; intros l H; simpl; auto.
  apply IH. now apply index_none_filter.
Qed.

Lemma without_names_absent (n : json) (names : list json) (l : list NPC.t) :
  In n names -> Scene.index_of n (without_names names l) = None.
Proof.
  revert l. induction names as [|m r IH]; intros l; simpl; [tauto|].
  intros [->|Hin].
  - apply index_none_without, index_of_filtered.
  - now apply IH.
Qed.

Lemma remove_loop (names : list json) (sc : Scene.t) (h : heap) :
  for_each names
    (fun character_name =>
       on_fst (modify (Scene.remove_character character_name))) (sc, h)
  = ((Scene.set_characters (without_names names (Scene.characters sc)) sc, h), inr tt).
Proof.
  revert sc. induction names as [|n r IH]; intros sc; simpl.
  - now destruct sc.
  - unfold bind, on_fst at 1, zoom, modify. simpl. now rewrite IH.
Qed.

Lemma keeps_run {S T A} (f : S -> T) (m : M S A) (s s' : S) (r : res A) :
  keeps f m -> m s = (s', r) -> f s' = f s.
Proof. intros Hk H. specialize (Hk s). now rewrite H in Hk. Qed.

Lemma scene_updates_done (su : dict) (names : list json) (sh sh' : Scene.t * heap) :
  dict_get su "remove_characters" = Some (JArr names) ->
  GameState.apply_scene_updates (JObj su) sh = (sh', inr tt) ->
  exists l, Scene.characters (fst sh') = without_names names l.
Proof.
  intros Hnames H. unfold GameState.apply_scene_updates in H.
  apply bind_done in H as (has_add & s0 & _ & H).
  apply bind_done in H as ([] & s1 & _ & H).
  apply bind_done in H as (has_remove & s1' & Hr & H).
  unfold lift, py_in, dict_has in Hr. rewrite Hnames in Hr.
  injection Hr as <- <-.
  apply bind_done in H as ([] & s2 & Hrem & Hconn).
  unfold when, bind, lift, py_getitem, py_iter in Hrem. rewrite Hnames in Hrem.
  destruct s1 as [sc1 h1]. rewrite remove_loop in Hrem. injection Hrem as <-.
  exists (Scene.characters sc1).
  assert (K : keeps (fun sh : Scene.t * heap => Scene.characters (fst sh))
                (has_conn <- lift (py_in "new_connections" (JObj su));;
                 when has_conn
                   (src <- lift (py_getitem (JObj su) "new_connections");;
                    entries <- lift (py_items src);;
                    for_each entries
                      (fun kv =>
                         sc <- on_fst get;;
                         on_snd (Scene.add_connection (fst kv) (snd kv) sc))))).
  { keeps_tac.
    all: first [ apply on_fst_keeps; reflexivity | apply on_snd_keeps; reflexivity ]. }
  apply (keeps_run _ _ _ _ _ K) in Hconn. exact Hconn.
Qed.

Lemma move_block_keeps_scene (result : json) :
  keeps (fun w : GameState.world => GameState.current_scene (fst w))
        (GameState.move_block result).
Proof.
  unfold GameState.move_block. keeps_tac.
  apply keeps_modify. intros [g h]. simpl.
  destruct (GameState.current_scene g) eqn:E; simpl; now rewrite ?E.
Qed.

Lemma game_over_block_keeps_scene (result : json) :
  keeps (fun w : GameState.world => GameState.current_scene (fst w))
        (GameState.game_over_block result).
Proof. unfold GameState.game_over_block. keeps_tac. Qed.

(** X18.  Characters are added before characters are removed.  When
    [GameState.update] runs to its end on a result whose [scene_updates]
    has a list under [remove_characters], nobody in the current scene
    answers to a listed name afterwards, not even a character that the
    same result added. *)
Theorem X18_removed_characters_are_gone
    (w w' : GameState.world) (r su : dict) (names : list json) (sc' : Scene.t)
    (Hupdates : dict_get r "scene_updates" = Some (JObj su))
    (Hnames : dict_get su "remove_characters" = Some (JArr names))
    (Hdone : GameState.update (JObj r) w = (w', inr tt))
    (Hscene : GameState.current_scene (fst w') = Some sc') :
  forall n, In n names -> Scene.get_character n sc' = None.
Proof.
  unfold GameState.update in Hdone.
  apply bind_done in Hdone as ([] & w1 & _ & Hdone).
  apply bind_done in Hdone as ([] & w2 & _ & Hdone).
  apply bind_done in Hdone as ([] & w3 & Hblock & Hdone).
  apply bind_done in Hdone as ([] & w4 & Hmove & Hover).
  apply (keeps_run _ _ _ _ _ (move_block_keeps_scene (JObj r))) in Hmove.
  apply (keeps_run _ _ _ _ _ (game_over_block_keeps_scene (JObj r))) in Hover.
  simpl in Hmove, Hover. rewrite Hover, Hmove in Hscene. clear Hover Hmove.
  destruct w2 as [g2 h2].
  unfold GameState.scene_block, bind, get, lift, py_in, py_getitem, dict_has,
    GameState.has_scene in Hblock. simpl in Hblock.
  rewrite Hupdates in Hblock. simpl in Hblock.
  unfold GameState.on_scene in Hblock. simpl in Hblock.
  destruct (GameState.current_scene g2) as [sc2|] eqn:E2;
    simpl in Hblock; rewrite ?E2 in Hblock; simpl in Hblock.
  - destruct (GameState.apply_scene_updates (JObj su) (sc2, h2))
      as [[sc3 h3] [e|[]]] eqn:Hsu; [discriminate|].
    injection Hblock as <-. simpl in Hscene. injection Hscene as <-.
    destruct (scene_updates_done su names _ _ Hnames Hsu) as [l Hl].
    intros n Hn. unfold Scene.get_character. simpl in Hl. rewrite Hl.
    now rewrite (without_names_absent n names l Hn).
  - injection Hblock as <-. simpl in Hscene. rewrite E2 in Hscene. discriminate.
Qed.

Lemma X18_witness :
  Scene.get_character (JStr "Mira") (Scene.set_characters [] gate) = None.
Proof.
  apply (X18_removed_characters_are_gone gate_world
           (fst (GameState.update (JObj swap_result) gate_world)) swap_result
           [("add_characters",
             JArr [JObj [("name", JStr "Mira"); ("description", JStr "a merchant")]]);
            ("remove_characters", JArr [JStr "Bob"; JStr "Mira"])]
           [JStr "Bob"; JStr "Mira"]); try reflexivity.
  right. left. reflexivity.
Defined.

(** ** The gateway and the dungeon master *)

Lemma call_ok_dict (o : llm_outcome) (v : json -> res unit) (j : json) :
  call_llm_with_json_response o v = inr j ->
  o = Parsed j /\ v j = inr tt /\ exists kv, j = JObj kv.
Proof.
  intros E. destruct (call_ok_inv o v j E) as [-> Hv].
  split; [reflexivity|]. split; [exact Hv|].
  unfold call_llm_with_json_response, llm_error, raise in E.
  destruct j; try discriminate. eauto.
Qed.

(** X19.  [call_llm_with_json_response] has two outcomes only.  What it
    returns is the parsed answer, which is a dict and which the validator
    accepted; everything else (transport error, unparseable text, an
    answer that is not a dict, a validator error) leaves as an
    [LLMResponseError]. *)
Theorem X19_gateway_contract (o : llm_outcome) (v : json -> res unit) :
  match call_llm_with_json_response o v with
  | inr j => o = Parsed j /\ v j = inr tt /\ exists kv, j = JObj kv
  | inl e => exn_kind_of e = LLMResponseError
  end.
Proof.
  destruct (call_llm_with_json_response o v) as [e|j] eqn:E.
  - unfold call_llm_with_json_response, llm_error, raise in E.
    destruct o as [m|m|j']; try (injection E as <-; reflexivity).
    destruct j'; try (injection E as <-; reflexivity).
    destruct (v (JObj kv)); [injection E as <-; reflexivity|discriminate].
  - now apply call_ok_dict.
Qed.

Lemma validated_action_result (kv : dict) :
  DungeonMaster._validate_action_result (JObj kv) = inr tt ->
  dict_has kv "success" = true /\ dict_has kv "description" = true.
Proof.
  unfold DungeonMaster._validate_action_result, DungeonMaster.res_bind, py_in, raise.
  destruct (dict_has kv "success"); simpl; [|discriminate].
  destruct (dict_has kv "description"); simpl; [auto|discriminate].
Qed.

(** X20.  Whatever the generator does, [resolve_action] hands the turn
    loop a dict that has [success] and [description]; it sends exactly
    one request and changes neither the scenario, nor [scene_memory], nor
    the store. *)
Theorem X20_resolve_action_result_is_well_formed
    (llm : oracle) (action : string) (game_state : GameState.t)
    (s : DungeonMaster.session) :
  let out := DungeonMaster.resolve_action llm action game_state s in
  (exists kv, snd out = inr (JObj kv)
              /\ dict_has kv "success" = true /\ dict_has kv "description" = true)
  /\ DungeonMaster.calls (dm_of out) = DungeonMaster.calls (fst s) ++ [ReqAction action]
  /\ DungeonMaster.scenario (dm_of out) = DungeonMaster.scenario (fst s)
  /\ DungeonMaster.scene_memory (dm_of out) = DungeonMaster.scene_memory (fst s)
  /\ snd (fst out) = snd s.
Proof.
  cbv zeta. unfold dm_of.
  unfold DungeonMaster.resolve_action, try_except, bind, get, modify, lift. simpl.
  destruct (call_llm_with_json_response _ _) as [e|j] eqn:E.
  - destruct (exn_kind_of e); simpl; repeat split; eexists; repeat split.
  - destruct (call_ok_dict _ _ _ E) as (_ & Hv & kv & ->). simpl. repeat split.
    exists kv. split; [reflexivity|]. now apply validated_action_result.
Qed.

(** The lookup of the location name either goes through, or its
    exception leaves [_generate_new_scene] before anything is done. *)
Lemma location_lookup_cases (llm : oracle) (game_state : GameState.t)
    (scene_id : string) (s : DungeonMaster.session) :
  connections_ok game_state (snd s)
  \/ exists e, DungeonMaster._generate_new_scene llm game_state scene_id s = (s, inl e).
Proof.
  destruct (DungeonMaster.location_name_for game_state scene_id (snd s))
    as [h0 [e|loc]] eqn:Hloc.
  - right. exists e.
    assert (h0 = snd s) as ->.
    { unfold DungeonMaster.location_name_for in Hloc.
      destruct (GameState.current_scene game_state) as [sc|];
        [|unfold ret in Hloc; congruence].
      unfold bind, get, lift, ret in Hloc. simpl in Hloc.
      destruct (snd s !! Scene.connections sc) as [c|]; [|congruence].
      destruct (py_items c); congruence. }
    unfold DungeonMaster._generate_new_scene, bind, on_snd, zoom.
    rewrite Hloc. now destruct s.
  - left. unfold connections_ok. unfold DungeonMaster.location_name_for in Hloc.
    destruct (GameState.current_scene game_state) as [sc|]; [|exact I].
    unfold bind, get, lift, ret in Hloc. simpl in Hloc.
    destruct (snd s !! Scene.connections sc) as [c|]; [|discriminate].
    destruct c; try discriminate. eauto.
Qed.

Lemma generate_calls (llm : oracle) (game_state : GameState.t) (scene_id : string)
    (s : DungeonMaster.session) :
  let d' := dm_of (DungeonMaster._generate_new_scene llm game_state scene_id s) in
  DungeonMaster.scenario d' = DungeonMaster.scenario (fst s)
  /\ (DungeonMaster.calls d' = DungeonMaster.calls (fst s)
      \/ exists loc,
           DungeonMaster.calls d' = DungeonMaster.calls (fst s) ++ [ReqScene scene_id loc]).
Proof.
  cbv zeta. unfold dm_of.
  destruct (location_lookup_cases llm game_state scene_id s) as [Hc|[e ->]].
  - destruct (generate_dm_shape llm game_state scene_id s Hc)
      as [loc [-> | (j & raw & _ & _ & ->)]]; simpl; eauto.
  - simpl. auto.
Qed.

(** X21.  One call of [create_scene] sends at most one request to the
    generator, whatever the generator answers: there is no retry.  It
    never changes the scenario. *)
Theorem X21_create_scene_calls_at_most_once
    (llm : oracle) (game_state : GameState.t) (target : option string)
    (s : DungeonMaster.session) :
  let d' := dm_of (DungeonMaster.create_scene llm game_state target s) in
  DungeonMaster.scenario d' = DungeonMaster.scenario (fst s)
  /\ (DungeonMaster.calls d' = DungeonMaster.calls (fst s)
      \/ exists t loc,
           DungeonMaster.given target = Some t
           /\ DungeonMaster.calls d' = DungeonMaster.calls (fst s) ++ [ReqScene t loc]).
Proof.
  cbv zeta. unfold dm_of, DungeonMaster.create_scene.
  assert (Hstart :
            fst (fst ((s0 <- get;;
                       match DungeonMaster.starting_scene_id
                               (DungeonMaster.scenario (fst s0)) with
                       | Some sid => DungeonMaster._create_scene_from_scenario sid
                       | None => lift (raise KeyError "starting_scene_id")
                       end) s)) = fst s).
  { unfold bind, get. cbv beta iota.
    destruct (DungeonMaster.starting_scene_id _); [|reflexivity].
    apply from_scenario_keeps_dm. }
  assert (Htarget : forall t,
            fst (fst (DungeonMaster.resolve_target llm game_state t s)) = fst s
            \/ fst (fst (DungeonMaster.resolve_target llm game_state t s))
               = dm_of (DungeonMaster._generate_new_scene llm game_state t s)).
  { intros t. unfold DungeonMaster.resolve_target, bind, get. cbv beta iota zeta.
    destruct (dict_has _ t); [left; apply from_scenario_keeps_dm|].
    destruct (dict_get _ t); [left; apply (on_snd_fst _ s)|now right]. }
  assert (Hgen : forall t,
            DungeonMaster.given target = Some t ->
            DungeonMaster.scenario
              (fst (fst (DungeonMaster.resolve_target llm game_state t s)))
            = DungeonMaster.scenario (fst s)
            /\ (DungeonMaster.calls
                  (fst (fst (DungeonMaster.resolve_target llm game_state t s)))
                = DungeonMaster.calls (fst s)
                \/ exists t0 loc,
                     DungeonMaster.given target = Some t0
                     /\ DungeonMaster.calls
                          (fst (fst (DungeonMaster.resolve_target llm game_state t s)))
                        = DungeonMaster.calls (fst s) ++ [ReqScene t0 loc])).
  { intros t Ht. destruct (Htarget t) as [->| ->]; [auto|].
    destruct (generate_calls llm game_state t s) as [Hs [Hc|[loc Hc]]];
      (split; [exact Hs|]); eauto. }
  destruct (DungeonMaster.given target) as [t|] eqn:Eg;
    destruct (GameState.current_scene game_state).
  - now apply Hgen.
  - now apply Hgen.
  - simpl. auto.
  - split; [exact (f_equal DungeonMaster.scenario Hstart)|].
    left. exact (f_equal DungeonMaster.calls Hstart).
Qed.

Lemma create_scene_remembered (llm : oracle) (game_state : GameState.t)
    (target : string) (s : DungeonMaster.session) (raw : DungeonMaster.raw_scene) :
  target <> "" ->
  dict_has
    (match DungeonMaster.scenes (DungeonMaster.scenario (fst s)) with
     | Some sc => sc
     | None => []
     end) target = false ->
  dict_get (DungeonMaster.scene_memory (fst s)) target = Some raw ->
  DungeonMaster.create_scene llm game_state (Some target) s
  = on_snd (DungeonMaster._create_scene_from_data raw JNull) s.
Proof.
  intros Hid Hpre Hmem. unfold DungeonMaster.create_scene.
  rewrite (given_nonempty target Hid).
  destruct (GameState.current_scene game_state);
    unfold DungeonMaster.resolve_target, bind at 1, get at 1; cbv beta iota zeta;
    rewrite Hpre, Hmem; reflexivity.
Qed.

(** X22.  A scene found in [scene_memory] is rebuilt without a request to
    the generator and without a change to the dungeon master, and it gets
    its id from the remembered definition, not from the request: a scene
    is only returned when the definition has a truthy [id], and the scene
    then carries that id. *)
Theorem X22_remembered_scene_takes_its_id_from_the_definition
    (llm : oracle) (game_state : GameState.t) (target : string)
    (s : DungeonMaster.session) (raw : DungeonMaster.raw_scene)
    (Hid : target <> "")
    (Hpre : dict_has
              (match DungeonMaster.scenes (DungeonMaster.scenario (fst s)) with
               | Some sc => sc
               | None => []
               end) target = false)
    (Hmem : dict_get (DungeonMaster.scene_memory (fst s)) target = Some raw) :
  let out := DungeonMaster.create_scene llm game_state (Some target) s in
  dm_of out = fst s
  /\ forall scene,
       snd out = inr scene ->
       exists sid,
         py_get (DungeonMaster.rs_fields raw) "id" JNull = inr sid
         /\ truthy sid = true
         /\ Scene.id scene = sid.
Proof.
  cbv zeta. rewrite (create_scene_remembered llm game_state target s raw Hid Hpre Hmem).
  unfold dm_of. split; [apply on_snd_fst|].
  intros scene. unfold on_snd, zoom.
  destruct (DungeonMaster._create_scene_from_data raw JNull (snd s)) as [h' r] eqn:E.
  simpl. intros ->.
  unfold DungeonMaster._create_scene_from_data, bind, ret, lift, when in E.
  simpl in E.
  destruct (py_get (DungeonMaster.rs_fields raw) "id" JNull) as [e|sid];
    [discriminate|].
  exists sid. split; [reflexivity|].
  destruct (DungeonMaster.build_characters _); [discriminate|].
  destruct (truthy sid); simpl in E; [|discriminate].
  split; [reflexivity|].
  destruct (py_getitem _ "title"); [discriminate|].
  destruct (py_getitem _ "description"); [discriminate|].
  destruct (DungeonMaster.rs_conn raw); simpl in E; injection E as _ <-; reflexivity.
Qed.

Lemma X22_witness :
  let out := DungeonMaster.create_scene unreachable_llm at_gate (Some "cave")
               grotto_session in
  dm_of out = fst grotto_session
  /\ forall scene,
       snd out = inr scene ->
       exists sid,
         py_get (DungeonMaster.rs_fields grotto_raw) "id" JNull = inr sid
         /\ truthy sid = true
         /\ Scene.id scene = sid.
Proof.
  apply (X22_remembered_scene_takes_its_id_from_the_definition unreachable_llm at_gate
           "cave" grotto_session grotto_raw).
  - discriminate.
  - reflexivity.
  - reflexivity.
Defined.

Lemma dict_has_del_ne {V} (d : list (string * V)) (k k' : string) :
  k <> k' -> dict_has (dict_del d k) k' = dict_has d k'.
Proof. intros H. unfold dict_has. now rewrite dict_get_del_ne. Qed.

Lemma load_keeps_definition_ok (j : json) (h h1 : heap) (raw : DungeonMaster.raw_scene) :
  DungeonMaster.load j h = (h1, inr raw) ->
  definition_ok j = true ->
  definition_ok (DungeonMaster.rs_fields raw) = true.
Proof.
  unfold DungeonMaster.load. destruct j; try (unfold ret; intros H; injection H as _ <-; auto).
  destruct (dict_get kv "connections"); unfold bind, alloc, ret; simpl;
    intros H; injection H as _ <-; simpl; auto.
  intros Hok. rewrite !dict_has_del_ne by discriminate.
  now rewrite dict_get_del_ne by discriminate.
Qed.

Lemma generate_success (llm : oracle) (game_state : GameState.t) (scene_id : string)
    (s : DungeonMaster.session) (j : json) :
  scene_id <> "" ->
  connections_ok game_state (snd s) ->
  call_llm_with_json_response
    (llm (List.length (DungeonMaster.calls (fst s))))
    DungeonMaster._validate_scene_data = inr j ->
  definition_ok j = true ->
  exists loc raw h2 sc,
    DungeonMaster._generate_new_scene llm game_state scene_id s
    = ((DungeonMaster.remember scene_id raw
          (DungeonMaster.log_call (ReqScene scene_id loc) (fst s)), h2), inr sc)
    /\ Scene.id sc = JStr scene_id
    /\ holds_answer j raw h2.
Proof.
  intros Hid Hconn Hcall Hok.
  destruct (generate_run llm game_state scene_id s Hconn) as [loc ->].
  exists loc. destruct s as [d h]. simpl in *.
  destruct (load_ok j h) as (h1 & raw & Hload). exists raw.
  pose proof (load_keeps_definition_ok j h h1 raw Hload Hok) as Hraw.
  destruct (create_from_data_ok raw (JStr scene_id) h1 (truthy_nonempty _ Hid) Hraw)
    as (h2 & sc & Hsc).
  exists h2, sc. split; [|split].
  - unfold try_except, DungeonMaster.generation_attempt, bind, get, modify, lift.
    simpl. rewrite Hcall.
    unfold on_snd at 1, zoom. simpl. rewrite Hload. simpl.
    unfold on_snd at 1, zoom. simpl. now rewrite Hsc.
  - apply (create_from_data_id raw (JStr scene_id) h1 h2 sc (truthy_nonempty _ Hid) Hsc).
  - destruct (create_from_data_heap raw (JStr scene_id) h1) as [ext Hext].
    rewrite Hsc in Hext. simpl in Hext. subst h2.
    apply holds_answer_app. exact (load_holds j h h1 raw Hload).
Qed.

(** X23.  When the generator answers a request for an unknown scene with
    a well-formed definition, [create_scene] returns a scene under the
    requested id and stores the definition under that id: the entry of
    [scene_memory] under the id is the generator's answer, its fields
    without ["connections"] and its connections object in the store;
    from then on a
    request for the id is served from [scene_memory]: it sends nothing to
    the generator and leaves the dungeon master as it is. *)
Theorem X23_generated_scene_is_remembered
    (llm : oracle) (game_state : GameState.t) (target : string)
    (s : DungeonMaster.session) (j : json)
    (Hid : target <> "")
    (Hunknown : unknown_scene target (fst s))
    (Hconn : connections_ok game_state (snd s))
    (Hcall : call_llm_with_json_response
               (llm (List.length (DungeonMaster.calls (fst s))))
               DungeonMaster._validate_scene_data = inr j)
    (Hok : definition_ok j = true) :
  let out := DungeonMaster.create_scene llm game_state (Some target) s in
  is_scene_with_id (snd out) (JStr target)
  /\ dict_has (DungeonMaster.scene_memory (dm_of out)) target = true
  /\ (exists raw,
        dict_get (DungeonMaster.scene_memory (dm_of out)) target = Some raw
        /\ holds_answer j raw (snd (fst out)))
  /\ one_more_scene_call target (fst s) (dm_of out)
  /\ forall llm2 game_state2,
       dm_of (DungeonMaster.create_scene llm2 game_state2 (Some target) (fst out))
       = dm_of out.
Proof.
  cbv zeta. rewrite (create_scene_unknown llm game_state target s Hid Hunknown).
  destruct (generate_success llm game_state target s j Hid Hconn Hcall Hok)
    as (loc & raw & h2 & sc & -> & Hsc & Hans).
  unfold dm_of. cbn [fst snd].
  split; [exists sc; auto|].
  assert (Hmem : dict_get (DungeonMaster.scene_memory
                             (DungeonMaster.remember target raw
                                (DungeonMaster.log_call (ReqScene target loc) (fst s))))
                          target = Some raw).
  { simpl. apply dict_get_set_eq. }
  split; [unfold dict_has; now rewrite Hmem|].
  split; [exists raw; split; [exact Hmem|exact Hans]|].
  split; [exists loc; reflexivity|].
  intros llm2 game_state2.
  rewrite (create_scene_remembered llm2 game_state2 target
             (DungeonMaster.remember target raw
                (DungeonMaster.log_call (ReqScene target loc) (fst s)), h2)
             raw Hid (proj1 Hunknown) Hmem).
  apply on_snd_fst.
Qed.

Lemma X23_witness :
  let out := DungeonMaster.create_scene cave_llm at_gate (Some "cave") gate_session in
  is_scene_with_id (snd out) (JStr "cave")
  /\ dict_has (DungeonMaster.scene_memory (dm_of out)) "cave" = true
  /\ (exists raw,
        dict_get (DungeonMaster.scene_memory (dm_of out)) "cave" = Some raw
        /\ holds_answer cave raw (snd (fst out)))
  /\ one_more_scene_call "cave" (fst gate_session) (dm_of out)
  /\ forall llm2 game_state2,
       dm_of (DungeonMaster.create_scene llm2 game_state2 (Some "cave") (fst out))
       = dm_of out.
Proof.
  apply (X23_generated_scene_is_remembered cave_llm at_gate "cave" gate_session cave).
  - discriminate.
  - split; reflexivity.
  - exists [("Dark Cave", JStr "cave")]. reflexivity.
  - reflexivity.
  - reflexivity.
Defined.

Lemma create_from_data_connections (scene_data : DungeonMaster.raw_scene)
    (scene_id : json) (h h' : heap) (sc : Scene.t) :
  DungeonMaster._create_scene_from_data scene_data scene_id h = (h', inr sc) ->
  match DungeonMaster.rs_conn scene_data with
  | Some l => h' = h /\ Scene.connections sc = l
  | None => h' = h ++ [JObj []] /\ Scene.connections sc = List.length h
  end.
Proof.
  unfold DungeonMaster._create_scene_from_data, bind, ret, lift, when, alloc.
  destruct (truthy scene_id); simpl.
  - destruct (DungeonMaster.build_characters _); [discriminate|].
    destruct (negb (truthy scene_id)); simpl; [discriminate|].
    destruct (py_getitem _ "title"); [discriminate|].
    destruct (py_getitem _ "description"); [discriminate|].
    destruct (DungeonMaster.rs_conn scene_data); simpl;
      intros H; injection H as <- <-; auto.
  - destruct (py_get _ "id" JNull) as [e|sid]; [discriminate|]. simpl.
    destruct (DungeonMaster.build_characters _); [discriminate|].
    destruct (negb (truthy sid)); simpl; [discriminate|].
    destruct (py_getitem _ "title"); [discriminate|].
    destruct (py_getitem _ "description"); [discriminate|].
    destruct (DungeonMaster.rs_conn scene_data); simpl;
      intros H; injection H as <- <-; auto.
Qed.

(** X24.  Two scenes built from the same remembered definition have the
    same id, title, description and characters; and they have the same
    connections whenever the definition's connections object holds the
    same dict in the two stores, that is, when nothing has written to it
    in between. *)
Theorem X24_rebuilding_is_stable_on_an_untouched_store
    (scene_data : DungeonMaster.raw_scene) (scene_id : json)
    (h1 h2 h1' h2' : heap) (sc1 sc2 : Scene.t)
    (Hfirst : DungeonMaster._create_scene_from_data scene_data scene_id h1 = (h1', inr sc1))
    (Hsecond : DungeonMaster._create_scene_from_data scene_data scene_id h2 = (h2', inr sc2))
    (Hsame : forall l : loc,
               DungeonMaster.rs_conn scene_data = Some l -> h1 !! l = h2 !! l) :
  Scene.id sc1 = Scene.id sc2
  /\ Scene.title sc1 = Scene.title sc2
  /\ Scene.description sc1 = Scene.description sc2
  /\ Scene.characters sc1 = Scene.characters sc2
  /\ Scene.connections_of h1' sc1 = Scene.connections_of h2' sc2.
Proof.
  destruct (remembered_scene_stable scene_data scene_id h1 h2 h1' h2' sc1 sc2
              Hfirst Hsecond) as (Hi & Ht & Hd & Hc).
  repeat (split; [assumption|]).
  apply create_from_data_connections in Hfirst, Hsecond.
  unfold Scene.connections_of.
  destruct (DungeonMaster.rs_conn scene_data) as [l|].
  - destruct Hfirst as [-> ->], Hsecond as [-> ->]. now apply Hsame.
  - destruct Hfirst as [-> ->], Hsecond as [-> ->].
    exact (eq_trans (lookup_snoc h1 (JObj [])) (eq_sym (lookup_snoc h2 (JObj [])))).
Qed.

Lemma X24_witness :
  exists (sc1 sc2 : Scene.t) (h1' h2' : heap),
    Scene.id sc1 = Scene.id sc2
    /\ Scene.title sc1 = Scene.title sc2
    /\ Scene.description sc1 = Scene.description sc2
    /\ Scene.characters sc1 = Scene.characters sc2
    /\ Scene.connections_of h1' sc1 = Scene.connections_of h2' sc2.
Proof.
  eexists _, _, _, _.
  apply (X24_rebuilding_is_stable_on_an_untouched_store grotto_raw JNull
           (snd grotto_session) (snd grotto_session ++ [JObj []])).
  - reflexivity.
  - reflexivity.
  - intros l H. injection H as <-. reflexivity.
Defined.

(** X25.  The first scene.  With no current scene and no target (or the
    empty string as target), [create_scene] builds the scenario's starting
    scene from its predefined definition: no request goes to the
    generator, the dungeon master is left as it is, a scene that is
    returned carries the starting id, and one is returned when the
    definition is well formed.  On a scenario without [starting_scene_id]
    (the initial [{}]) it raises [KeyError]. *)
Theorem X25_first_scene_is_the_starting_scene
    (llm : oracle) (game_state : GameState.t) (target : option string)
    (s : DungeonMaster.session) (sid : string)
    (sc : list (string * DungeonMaster.raw_scene)) (raw : DungeonMaster.raw_scene)
    (Hnowhere : GameState.current_scene game_state = None)
    (Hnotarget : DungeonMaster.given target = None)
    (Hstart : DungeonMaster.starting_scene_id (DungeonMaster.scenario (fst s))
              = Some (JStr sid))
    (Hid : sid <> "")
    (Hscenes : DungeonMaster.scenes (DungeonMaster.scenario (fst s)) = Some sc)
    (Hkey : dict_get sc sid = Some raw) :
  let out := DungeonMaster.create_scene llm game_state target s in
  dm_of out = fst s
  /\ (forall scene, snd out = inr scene -> Scene.id scene = JStr sid)
  /\ (definition_ok (DungeonMaster.rs_fields raw) = true ->
      is_scene_with_id (snd out) (JStr sid))
  /\ (forall s0,
        DungeonMaster.starting_scene_id (DungeonMaster.scenario (fst s0)) = None ->
        DungeonMaster.create_scene llm game_state target s0
        = (s0, raise KeyError "starting_scene_id")).
Proof.
  cbv zeta. unfold DungeonMaster.create_scene. rewrite Hnowhere, Hnotarget.
  assert (E : (s0 <- get;;
               match DungeonMaster.starting_scene_id
                       (DungeonMaster.scenario (fst s0)) with
               | Some sid0 => DungeonMaster._create_scene_from_scenario sid0
               | None => lift (raise KeyError "starting_scene_id")
               end) s
              = let '(h', r) :=
                  DungeonMaster._create_scene_from_data raw (JStr sid) (snd s) in
                ((fst s, h'), r)).
  { unfold bind at 1, get at 1. cbv beta iota. rewrite Hstart.
    unfold DungeonMaster._create_scene_from_scenario, bind, get. cbv beta iota.
    rewrite Hscenes, Hkey. unfold on_snd, zoom. reflexivity. }
  rewrite E. clear E.
  pose proof (create_from_data_id raw (JStr sid) (snd s)) as Hsame.
  pose proof (create_from_data_ok raw (JStr sid) (snd s) (truthy_nonempty sid Hid))
    as Hok.
  destruct (DungeonMaster._create_scene_from_data raw (JStr sid) (snd s)) as [h' r].
  unfold dm_of. simpl. split; [reflexivity|]. split; [|split].
  - intros scene ->. apply (Hsame h' scene (truthy_nonempty sid Hid) eq_refl).
  - intros Hdef. destruct (Hok Hdef) as (h2 & scene & E).
    injection E as _ ->. exists scene. split; [reflexivity|].
    apply (Hsame h' scene (truthy_nonempty sid Hid) eq_refl).
  - intros s0 Hnone. unfold bind, get, lift. cbv beta iota. now rewrite Hnone.
Qed.

Lemma X25_witness :
  let out := DungeonMaster.create_scene unreachable_llm GameState.initial None
               library_session in
  dm_of out = fst library_session
  /\ (forall scene, snd out = inr scene -> Scene.id scene = JStr "entrance")
  /\ (definition_ok
        (JObj [("title", JStr "Entrance"); ("description", JStr "A doorway.")]) = true ->
      is_scene_with_id (snd out) (JStr "entrance"))
  /\ (forall s0,
        DungeonMaster.starting_scene_id (DungeonMaster.scenario (fst s0)) = None ->
        DungeonMaster.create_scene unreachable_llm GameState.initial None s0
        = (s0, raise KeyError "starting_scene_id")).
Proof.
  apply (X25_first_scene_is_the_starting_scene unreachable_llm GameState.initial None
           library_session "entrance" library_scenes
           (DungeonMaster.Raw
              (JObj [("title", JStr "Entrance"); ("description", JStr "A doorway.")])
              (Some O))).
  - reflexivity.
  - reflexivity.
  - reflexivity.
  - discriminate.
  - reflexivity.
  - reflexivity.
Defined.

(** ** Scenario and player setup *)

(** X26.  On a scenario whose [scenes] is a dict, [_validate_scenario]
    accepts exactly when the scenario has a title and its
    [starting_scene_id] is a string that is a key of [scenes]: an accepted
    scenario always has a definition for its starting scene. *)
Theorem X26_validated_scenario_has_its_starting_scene
    (kv sc : dict) (Hscenes : dict_get kv "scenes" = Some (JObj sc)) :
  _validate_scenario (JObj kv) = inr tt
  <-> dict_has kv "title" = true
      /\ exists sid, dict_get kv "starting_scene_id" = Some (JStr sid)
                     /\ dict_has sc sid = true.
Proof.
  unfold _validate_scenario, DungeonMaster.res_bind, py_in, py_getitem, raise.
  unfold dict_has at 2 3. rewrite Hscenes.
  destruct (dict_has kv "title"); simpl.
  - destruct (dict_get kv "starting_scene_id") as [sid|]; simpl.
    + destruct sid; simpl; try (split; [discriminate|intros [_ (x & H & _)]; discriminate]).
      destruct (dict_has sc s) eqn:E; simpl.
      * split; [eauto|reflexivity].
      * split; [discriminate|].
        intros [_ (x & H & Hx)]. injection H as <-. congruence.
    + split; [discriminate|intros [_ (x & H & _)]; discriminate].
  - split; [discriminate|intros [H _]; discriminate].
Qed.

Lemma X26_witness :
  _validate_scenario (JObj two_room_scenario) = inr tt
  <-> dict_has two_room_scenario "title" = true
      /\ exists sid, dict_get two_room_scenario "starting_scene_id" = Some (JStr sid)
                     /\ dict_has
                          [("entrance",
                            JObj [("title", JStr "Entrance");
                                  ("description", JStr "A doorway.")]);
                           ("library", library_fields)] sid = true.
Proof.
  apply (X26_validated_scenario_has_its_starting_scene two_room_scenario).
  reflexivity.
Defined.

Lemma check_item_dict (kv : dict) :
  check_item (JObj kv) = inr tt <-> item_ok (JObj kv) = true.
Proof.
  unfold check_item, DungeonMaster.res_bind, py_in, raise. simpl.
  destruct (dict_has kv "name"); simpl; [|split; discriminate].
  destruct (dict_has kv "description"); simpl; split; auto; discriminate.
Qed.

Lemma check_skill_dict (kv : dict) :
  check_skill (JObj kv) = inr tt <-> skill_ok (JObj kv) = true.
Proof.
  unfold check_skill, DungeonMaster.res_bind, py_in, raise. simpl.
  destruct (dict_has kv "name"); simpl; [|split; discriminate].
  destruct (dict_has kv "description"); simpl; [|split; discriminate].
  destruct (dict_has kv "cost"); simpl; split; auto; discriminate.
Qed.

Lemma check_each_dicts (check : json -> res unit) (ok : json -> bool) (l : list json) :
  (forall kv, check (JObj kv) = inr tt <-> ok (JObj kv) = true) ->
  forallb is_dict l = true ->
  (check_each check l = inr tt <-> forallb ok l = true).
Proof.
  intros Hc. induction l as [|x r IH]; simpl; [tauto|].
  intros H. apply andb_true_iff in H as [Hx Hr].
  destruct x; try discriminate. specialize (Hc kv). specialize (IH Hr).
  destruct (check (JObj kv)) as [e|[]].
  - destruct (ok (JObj kv)); simpl.
    + destruct Hc as [_ Hc]. specialize (Hc eq_refl). discriminate.
    + split; discriminate.
  - destruct Hc as [Hc _]. rewrite (Hc eq_refl). simpl. exact IH.
Qed.

Lemma map_res_length {A B} (f : A -> res B) (l : list A) (ys : list B) :
  map_res f l = inr ys -> List.length ys = List.length l.
Proof.
  revert ys. induction l as [|x r IH]; simpl; intros ys H.
  - now injection H as <-.
  - destruct (f x); [discriminate|]. destruct (map_res f r); [discriminate|].
    injection H as <-. simpl. f_equal. now apply IH.
Qed.

Lemma validate_character_data_dicts (kv : dict) (items sks : list json) :
  dict_get kv "inventory" = Some (JArr items) ->
  dict_get kv "skills" = Some (JArr sks) ->
  forallb is_dict items = true ->
  forallb is_dict sks = true ->
  (_validate_character_data (JObj kv) = inr tt
   <-> forallb item_ok items && forallb skill_ok sks = true).
Proof.
  intros Hinv Hsk Hdi Hds.
  unfold _validate_character_data, DungeonMaster.res_bind, py_in, py_getitem, py_iter,
    dict_has.
  rewrite Hinv, Hsk. simpl.
  pose proof (check_each_dicts check_item item_ok items check_item_dict Hdi) as Hi.
  pose proof (check_each_dicts check_skill skill_ok sks check_skill_dict Hds) as Hs.
  destruct (check_each check_item items) as [e|[]].
  - destruct (forallb item_ok items); simpl.
    + destruct Hi as [_ Hi]. specialize (Hi eq_refl). discriminate.
    + split; discriminate.
  - destruct Hi as [Hi _]. rewrite (Hi eq_refl). simpl. exact Hs.
Qed.

Lemma build_player_ok (name profile : string) (kv : dict) (items sks : list json) :
  dict_get kv "inventory" = Some (JArr items) ->
  dict_get kv "skills" = Some (JArr sks) ->
  forallb item_ok items = true ->
  forallb skill_ok sks = true ->
  exists inventory skills,
    build_player name profile (JObj kv)
    = inr (Character.new (JStr name) (JStr profile) inventory skills)
    /\ List.length inventory = List.length items
    /\ List.length skills = List.length sks.
Proof.
  intros Hinv Hsk Hi Hs.
  destruct (map_res_ok item_ok Character.make_item items build_item_ok Hi) as [inv Ei].
  destruct (map_res_ok skill_ok DungeonMaster.build_skill sks build_skill_ok Hs)
    as [sk Es].
  exists inv, sk. split.
  - unfold build_player, DungeonMaster.res_bind, py_getitem, py_iter.
    now rewrite Hinv, Hsk, Ei, Es.
  - split; eapply map_res_length; eassumption.
Qed.

(** X27.  When the generator's answer is a dict whose [inventory] and
    [skills] are lists of dicts, [setup_player] returns a player exactly
    when every item has a name and a description and every skill has a
    name, a description and a cost.  The player then has the given name
    and profile, the default health and energy, no status, and one item
    and one skill per entry; otherwise a plain exception is raised and no
    player is returned. *)
Theorem X27_setup_player_on_well_shaped_answers
    (kv : dict) (items sks : list json) (name profile : string)
    (Hinv : dict_get kv "inventory" = Some (JArr items))
    (Hsk : dict_get kv "skills" = Some (JArr sks))
    (Hdi : forallb is_dict items = true)
    (Hds : forallb is_dict sks = true) :
  if forallb item_ok items && forallb skill_ok sks
  then exists inventory skills,
         setup_player (Parsed (JObj kv)) name profile
         = inr (Character.mk (JStr name) (JStr profile) (JStr "healthy")
                  (JStr "energized") [] inventory skills)
         /\ List.length inventory = List.length items
         /\ List.length skills = List.length sks
  else exists e,
         setup_player (Parsed (JObj kv)) name profile = inl e
         /\ exn_kind_of e = OtherError.
Proof.
  pose proof (validate_character_data_dicts kv items sks Hinv Hsk Hdi Hds) as Hv.
  unfold setup_player, call_llm_with_json_response.
  destruct (forallb item_ok items && forallb skill_ok sks) eqn:E.
  - destruct Hv as [_ Hv]. rewrite (Hv eq_refl).
    apply andb_true_iff in E as [Hi Hs].
    destruct (build_player_ok name profile kv items sks Hinv Hsk Hi Hs)
      as (inv & sk & Hb & Hl1 & Hl2).
    exists inv, sk. simpl. rewrite Hb. auto.
  - destruct (_validate_character_data (JObj kv)) as [e|[]].
    + simpl. eexists. split; reflexivity.
    + destruct Hv as [Hv _]. specialize (Hv eq_refl). discriminate.
Qed.

Lemma X27_witness :
  exists inventory skills,
    setup_player (Parsed (JObj ranger_data)) "Ayla" "a ranger"
    = inr (Character.mk (JStr "Ayla") (JStr "a ranger") (JStr "healthy")
             (JStr "energized") [] inventory skills)
    /\ List.length inventory = 1%nat
    /\ List.length skills = 1%nat.
Proof.
  exact (X27_setup_player_on_well_shaped_answers ranger_data
           [JObj [("name", JStr "bow"); ("description", JStr "a short bow")]]
           [JObj [("name", JStr "Track"); ("description", JStr "follow a trail");
                  ("cost", JStr "low")]]
           "Ayla" "a ranger" eq_refl eq_refl eq_refl eq_refl).
Defined.

(** X28.  [setup_player] has no fallback.  Whatever came back from the
    generator, it either returns a player with the given name and profile,
    default health and energy and an empty status, or raises a plain
    exception; a failure of the generation call (transport, parsing or
    validation) always raises. *)
Theorem X28_setup_player_has_no_fallback
    (outcome : llm_outcome) (name profile : string) :
  match setup_player outcome name profile with
  | inr p =>
      Character.name p = JStr name /\ Character.description p = JStr profile
      /\ Character.health p = JStr "healthy" /\ Character.energy p = JStr "energized"
      /\ Character.status p = []
      /\ exists j, call_llm_with_json_response outcome _validate_character_data = inr j
  | inl e => exn_kind_of e = OtherError
  end.
Proof.
  unfold setup_player.
  destruct (call_llm_with_json_response outcome _validate_character_data)
    as [e|j] eqn:Ec; simpl.
  - now destruct (exn_kind_of e).
  - destruct (build_player name profile j) as [e|p] eqn:Eb.
    + now destruct (exn_kind_of e).
    + unfold build_player, DungeonMaster.res_bind in Eb.
      destruct (py_getitem j "inventory"); [discriminate|].
      destruct (py_iter _); [discriminate|].
      destruct (map_res Character.make_item _); [discriminate|].
      destruct (py_getitem j "skills"); [discriminate|].
      destruct (py_iter _); [discriminate|].
      destruct (map_res DungeonMaster.build_skill _); [discriminate|].
      injection Eb as <-. simpl. repeat split. eauto.
Qed.

(** ** [extract_json] *)

Lemma rfind_snoc (c : ascii) (l : text) : rfind_char c (l ++ [c]) = Some (List.length l).
Proof.
  induction l as [|x r IH]; simpl.
  - now rewrite Ascii.eqb_refl.
  - now rewrite IH.
Qed.

Lemma rfind_lookup (c : ascii) (s : text) (j : nat) :
  rfind_char c s = Some j -> s !! j = Some c.
Proof.
  revert j. induction s as [|x r IH]; simpl; [discriminate|].
  destruct (rfind_char c r) as [i|].
  - intros j H. injection H as <-. simpl. now apply IH.
  - destruct (Ascii.eqb x c) eqn:E; [|discriminate].
    intros j H. injection H as <-. apply Ascii.eqb_eq in E. now subst.
Qed.

Lemma find_lookup (c : ascii) (s : text) (i : nat) :
  find_char c s = Some i -> s !! i = Some c.
Proof.
  revert i. induction s as [|x r IH]; simpl; [discriminate|].
  destruct (Ascii.eqb x c) eqn:E.
  - intros i H. injection H as <-. apply Ascii.eqb_eq in E. now subst.
  - destruct (find_char c r) as [k|]; [|discriminate].
    intros i H. injection H as <-. simpl. now apply IH.
Qed.

Lemma rfind_drop_none (c : ascii) (s : text) (i : nat) :
  rfind_char c s = None -> rfind_char c (drop i s) = None.
Proof.
  revert i. induction s as [|x r IH]; intros [|i]; simpl; auto.
  destruct (rfind_char c r); [discriminate|].
  destruct (Ascii.eqb x c); [discriminate|]. intros _. now apply IH.
Qed.

Lemma rfind_drop (c : ascii) (s : text) (i j : nat) :
  rfind_char c s = Some j -> (i <= j)%nat ->
  rfind_char c (drop i s) = Some (j - i)%nat.
Proof.
  revert i j. induction s as [|x r IH]; intros i j; simpl; [discriminate|].
  destruct i as [|i].
  - intros H _. simpl. rewrite Nat.sub_0_r. exact H.
  - destruct (rfind_char c r) as [k|] eqn:E.
    + intros H Hle. injection H as <-. simpl. apply IH; [reflexivity|lia].
    + destruct (Ascii.eqb x c); [|discriminate].
      intros H Hle. injection H as <-. lia.
Qed.

(** The text between the first open brace and the last closing brace
    after it is braced, and searching it for braces finds all of it. *)
Lemma braced_slice (d : text) (k : nat) :
  d !! O = Some open_brace ->
  rfind_char close_brace d = Some k ->
  exists mid,
    take (S k) d = open_brace :: mid ++ [close_brace]
    /\ search_braces (take (S k) d) = Some (take (S k) d).
Proof.
  intros Hopen Hclose.
  pose proof (rfind_lookup _ _ _ Hclose) as Hk.
  destruct d as [|x rest]; [discriminate|]. simpl in Hopen. injection Hopen as ->.
  destruct k as [|k]; [simpl in Hk; discriminate|].
  simpl in Hk.
  exists (take k rest).
  assert (E : take (S (S k)) (open_brace :: rest)
              = open_brace :: take k rest ++ [close_brace]).
  { simpl. f_equal. now apply take_S_r. }
  split; [exact E|].
  rewrite E. unfold search_braces. simpl.
  change (open_brace :: take k rest ++ [close_brace])
    with ((open_brace :: take k rest) ++ [close_brace]).
  rewrite rfind_snoc. simpl. f_equal. f_equal.
  rewrite take_ge; [reflexivity|]. rewrite length_app. simpl. lia.
Qed.

Lemma search_after_isolate (json_text m : text) :
  search_braces (isolate json_text) = Some m ->
  m = isolate json_text
  /\ exists mid, isolate json_text = open_brace :: mid ++ [close_brace].
Proof.
  unfold isolate.
  destruct (find_char open_brace json_text) as [i|] eqn:Ei.
  - destruct (rfind_char close_brace json_text) as [j|] eqn:Ej.
    + unfold slice. destruct (Nat.le_gt_cases i j) as [Hle|Hgt].
      * pose proof (find_lookup _ _ _ Ei) as Hi.
        assert (Hd : drop i json_text !! O = Some open_brace).
        { rewrite lookup_drop. now rewrite Nat.add_0_r. }
        pose proof (rfind_drop _ _ i j Ej Hle) as Hr.
        destruct (braced_slice _ _ Hd Hr) as (mid & Hmid & Hs).
        replace (S j - i)%nat with (S (j - i)) by lia.
        rewrite Hs. intros H. injection H as <-. eauto.
      * replace (S j - i)%nat with O by lia. simpl. discriminate.
    + unfold search_braces. rewrite Ei.
      now rewrite (rfind_drop_none _ _ i Ej).
  - unfold search_braces. now rewrite Ei.
Qed.

(** X29.  The second parsing attempt of [extract_json] never rescues a
    response: whenever the text handed to [json.loads] is rejected, the
    search for a brace-delimited substring either finds nothing or finds
    that same text again, so [extract_json] returns or raises exactly what
    the first attempt does.  ([str.strip] is only required to leave a text
    that starts with an open brace and ends with a closing brace alone.) *)
Theorem X29_second_attempt_never_rescues
    (loads : text -> res json) (strip lower : text -> text) (t : text)
    (Hstrip : forall mid,
                strip (open_brace :: mid ++ [close_brace])
                = open_brace :: mid ++ [close_brace]) :
  extract_json loads strip lower t
  = match json_candidate lower t with
    | inl e => inl e
    | inr json_text => loads (strip json_text)
    end.
Proof.
  unfold extract_json, json_candidate.
  destruct (unfenced lower t) as [e|json_text]; [reflexivity|].
  destruct (loads (strip (isolate json_text))) as [e|result] eqn:El; [|reflexivity].
  destruct (is_decode_error e) eqn:Ed; [|reflexivity].
  destruct (search_braces (isolate json_text)) as [m|] eqn:Es; [|reflexivity].
  destruct (search_after_isolate _ _ Es) as (-> & mid & Hmid).
  rewrite Hmid in El. rewrite Hstrip in El. rewrite <- Hmid in El.
  rewrite El. now rewrite Ed.
Qed.

Lemma ascii_strip_braced (mid : text) :
  ascii_strip (open_brace :: mid ++ [close_brace]) = open_brace :: mid ++ [close_brace].
Proof.
  unfold ascii_strip.
  change (lstrip (open_brace :: mid ++ [close_brace]))
    with (open_brace :: mid ++ [close_brace]).
  change (open_brace :: mid ++ [close_brace])
    with ((open_brace :: mid) ++ [close_brace]) at 1.
  rewrite rev_app_distr.
  change (lstrip (rev [close_brace] ++ rev (open_brace :: mid)))
    with (close_brace :: rev (open_brace :: mid)).
  change (close_brace :: rev (open_brace :: mid))
    with (rev [close_brace] ++ rev (open_brace :: mid)).
  rewrite <- rev_app_distr. now rewrite rev_involutive.
Qed.

Lemma X29_witness :
  extract_json toy_loads ascii_strip ascii_lower fenced_answer = inr (JObj []).
Proof.
  rewrite (X29_second_attempt_never_rescues toy_loads ascii_strip ascii_lower
             fenced_answer ascii_strip_braced).
  reflexivity.
Defined.

(** X30.  The test for a fence tagged for JSON ignores case, the split
    does not.  A response whose lower-cased text has [```json] while the
    text itself has not (the tag is written in upper case, say) makes
    [extract_json] raise [IndexError] instead of parsing anything. *)
Theorem X30_upper_case_fence_raises
    (loads : text -> res json) (strip lower : text -> text) (t : text)
    (Hlower : contains fence_json (lower t) = true)
    (Hexact : contains fence_json t = false) :
  extract_json loads strip lower t
  = raise OtherError "IndexError: list index out of range".
Proof.
  unfold extract_json, json_candidate, unfenced. rewrite Hlower.
  unfold split_once. unfold contains in Hexact.
  destruct (find_sub fence_json t); [discriminate|]. reflexivity.
Qed.

Lemma X30_witness :
  extract_json toy_loads ascii_strip ascii_lower shouting_answer
  = raise OtherError "IndexError: list index out of range".
Proof.
  apply (X30_upper_case_fence_raises toy_loads ascii_strip ascii_lower shouting_answer);
    reflexivity.
Defined.
